(** * The client-side session manager of the analytics dashboard

    A shallow embedding of [src/context/AuthContext.js] (the [AuthProvider]
    component), of the part of [src/services/api.js] it calls (the axios
    instance with its two interceptors and the [authAPI] table), and of
    the two pages that call it: the [Login] component, whose text follows
    the dashboard in [src/services/api.js] (lines 990-1520), and
    [src/pages/Register.js].

    Conventions of the embedding.
    - JavaScript numbers are mathematical integers ([Z]), plus [NaN] where
      an arithmetic result is stored: clock readings (milliseconds since the
      epoch) and the [exp] claim (seconds since the epoch) are integers far
      below 2^53, where double arithmetic is exact.
    - JavaScript strings are [string]s of 8-bit characters.
    - A log entry keeps its [timestamp] as the instant it denotes, in
      milliseconds: the code writes [new Date().toISOString()] and reads it
      back with [new Date(entry.timestamp).getTime()], which is the identity
      on millisecond instants.
    - React state ([user], [sessionExpiry], [securityLog]) lives in one
      [World] record next to [localStorage], the pending [setTimeout]
      callbacks, the pending [getClientIP().then(...)] continuations and the
      trace of requests sent through the axios instance.  State setters take
      effect at once, and an operation called from the view is the closure
      of the latest render, so it reads the current state; the one closure
      that stays frozen, the [logout] inside the timer of [setSession], is
      modelled as such.
    - [clock] is the reading of [Date.now()]; it stands still during a
      synchronous stretch of code and is moved by the events that take
      time: the reply to a request, a timer that fires, an address lookup
      that completes. *)

From Stdlib Require Import ZArith List String Ascii Bool Lia.
From stdpp Require Import base gmap strings.
Import ListNotations.

Set Warnings "-register-all".
Local Open Scope string_scope.
Local Open Scope Z_scope.

(** ** JavaScript values *)

Module Js.

(** The values that [JSON.parse] produces, and [undefined]. *)
Inductive JsValue : Type :=
| JUndefined
| JNull
| JBool (b : bool)
| JNum (n : Z)
| JStr (s : string)
| JArr (items : list JsValue)
| JObj (members : list (string * JsValue)).

(** A number as an arithmetic result: an integer or [NaN]. *)
Inductive JsNumber : Type :=
| NaN
| Num (n : Z).

(** What a [throw] carries.  [AxiosError] is the rejection of a request:
    its own [message], the HTTP status if a response came back
    ([error.response?.status]) and [error.response?.data?.message]. *)
Inductive JsError : Type :=
| Error (msg : string)
| TypeError (msg : string)
| SyntaxError (msg : string)
| InvalidCharacterError (msg : string)
| AxiosError (msg : string) (status : option Z) (response_message : JsValue).

(** [error.message] *)
Definition error_message (e : JsError) : string :=
  match e with
  | Error m | TypeError m | SyntaxError m | InvalidCharacterError m => m
  | AxiosError m _ _ => m
  end.

(** [error.response?.data?.message] *)
Definition response_message (e : JsError) : JsValue :=
  match e with
  | AxiosError _ _ m => m
  | _ => JUndefined
  end.

(** [!!v] *)
Definition truthy (v : JsValue) : bool :=
  match v with
  | JUndefined | JNull => false
  | JBool b => b
  | JNum n => negb (n =? 0)
  | JStr s => negb (String.eqb s "")
  | JArr _ | JObj _ => true
  end.

(** [a || b] *)
Definition js_or (a b : JsValue) : JsValue := if truthy a then a else b.


(** Own property of an object literal; the first binding is the live one
    ([JSON.parse] keeps one binding per key). *)
Fixpoint assoc {V : Type} (k : string) (l : list (string * V)) : option V :=
  match l with
  | [] => None
  | (k', v) :: r => if String.eqb k k' then Some v else assoc k r
  end.

(** [v.k] for the property names this program reads ([exp], [token],
    [refreshToken], [newRefreshToken], [id]), none of which is inherited
    from a prototype: [None] is the [TypeError] of reading a property of
    [null] or [undefined]. *)
Definition get_prop (v : JsValue) (k : string) : option JsValue :=
  match v with
  | JUndefined | JNull => None
  | JObj members =>
      Some (match assoc k members with Some x => x | None => JUndefined end)
  | JBool _ | JNum _ | JStr _ | JArr _ => Some JUndefined
  end.

(** [s.split('.')] *)
Fixpoint split_dot (s : string) : list string :=
  match s with
  | EmptyString => [EmptyString]
  | String c r =>
      if Ascii.eqb c "."%char then EmptyString :: split_dot r
      else match split_dot r with
           | h :: t => String c h :: t
           | [] => [String c EmptyString]
           end
  end.

(** [s.includes(sub)] *)
Fixpoint includes (sub s : string) : bool :=
  String.prefix sub s ||
  match s with
  | EmptyString => false
  | String _ r => includes sub r
  end.

(** *** [atob]: forgiving base64 decoding, as the HTML standard defines it *)

Definition is_ascii_whitespace (c : ascii) : bool :=
  let n := nat_of_ascii c in
  ((n =? 9) || (n =? 10) || (n =? 12) || (n =? 13) || (n =? 32))%nat.

Definition b64_value (c : ascii) : option nat :=
  let n := nat_of_ascii c in
  if ((65 <=? n) && (n <=? 90))%nat then Some (n - 65)%nat
  else if ((97 <=? n) && (n <=? 122))%nat then Some (n - 71)%nat
  else if ((48 <=? n) && (n <=? 57))%nat then Some (n + 4)%nat
  else if (n =? 43)%nat then Some 62%nat
  else if (n =? 47)%nat then Some 63%nat
  else None.

Fixpoint b64_values (l : list ascii) : option (list nat) :=
  match l with
  | [] => Some []
  | c :: r =>
      match b64_value c, b64_values r with
      | Some v, Some vs => Some (v :: vs)
      | _, _ => None
      end
  end.

(** Four sextets give three bytes; a final group of two or three sextets
    gives one or two bytes, its spare low bits dropped. *)
Fixpoint b64_bytes (l : list nat) : list ascii :=
  match l with
  | a :: b :: c :: d :: r =>
      ascii_of_nat (a * 4 + b / 16)
        :: ascii_of_nat ((b mod 16) * 16 + c / 4)
        :: ascii_of_nat ((c mod 4) * 64 + d)
        :: b64_bytes r
  | [a; b; c] =>
      [ascii_of_nat (a * 4 + b / 16); ascii_of_nat ((b mod 16) * 16 + c / 4)]
  | [a; b] => [ascii_of_nat (a * 4 + b / 16)]
  | _ => []
  end%nat.

(** Removes one or two trailing [=] signs. *)
Definition strip_padding (l : list ascii) : list ascii :=
  match rev l with
  | "="%char :: "="%char :: r => rev r
  | "="%char :: r => rev r
  | _ => l
  end.

(** [atob(s)]; [None] is the [InvalidCharacterError]. *)
Definition atob (s : string) : option string :=
  let data := List.filter (fun c => negb (is_ascii_whitespace c))
                          (list_ascii_of_string s) in
  let data := if (length data mod 4 =? 0)%nat then strip_padding data else data in
  if (length data mod 4 =? 1)%nat then None
  else match b64_values data with
       | Some vs => Some (string_of_list_ascii (b64_bytes vs))
       | None => None
       end.

End Js.
Export Js.

(** ** The platform and the API collaborator *)

(** A request sent through the axios instance, and what comes back. *)
Inductive ApiRequest : Type :=
| PostLogin (email password : string)       (* authAPI.login *)
| PostRefresh (refreshToken : string).      (* authAPI.refreshToken *)

Inductive ApiResponse : Type :=
| Resolve (data : JsValue)                  (* response.data of a 2xx reply *)
| Reject (msg : string) (status : option Z) (response_message : JsValue).

(** ** The data model *)

(** The keys that the callers of [addSecurityLog] put in [details]. *)
Inductive DetailKey : Type :=
| KIp | KLocation | KUserId | KEmail | KMethod | KError | KReason | KProvider.

Definition DetailKey_eqb (a b : DetailKey) : bool :=
  match a, b with
  | KIp, KIp | KLocation, KLocation | KUserId, KUserId | KEmail, KEmail
  | KMethod, KMethod | KError, KError | KReason, KReason
  | KProvider, KProvider => true
  | _, _ => false
  end.

(** An object literal over these keys, in insertion order; a key that is
    present may hold [undefined]. *)
Definition Details : Type := list (DetailKey * JsValue).

Fixpoint detail (k : DetailKey) (d : Details) : JsValue :=
  match d with
  | [] => JUndefined
  | (k', v) :: r => if DetailKey_eqb k k' then v else detail k r
  end.

(** Assignment of one property: in place when the key exists, at the end
    otherwise. *)
Fixpoint set_detail (k : DetailKey) (v : JsValue) (d : Details) : Details :=
  match d with
  | [] => [(k, v)]
  | (k', v') :: r =>
      if DetailKey_eqb k k' then (k, v) :: r else (k', v') :: set_detail k v r
  end.

(** [{ ...base, ...over }] *)
Definition spread (base over : Details) : Details :=
  fold_left (fun acc kv => set_detail (fst kv) (snd kv) acc) over base.

Record LogEntry : Type := mkLogEntry {
  timestamp : Z;
  action : string;
  userAgent : string;
  fields : Details
}.

(** [entry.userId] *)
Definition entry_userId (e : LogEntry) : JsValue := detail KUserId (fields e).

(** A pending [setTimeout]: the delay asked for and the clock reading when
    it was set.  The program has one callback, the auto-logout. *)
Record Timer : Type := mkTimer {
  delay : Z;
  set_at : Z
}.

(** A pending [getClientIP().then(ip => addSecurityLog(action, {..., ip}))]:
    the action and the details but for [ip]. *)
Record Deferred : Type := mkDeferred {
  df_action : string;
  df_details : Details
}.

(** The state of the provider and of the browser around it.  The item
    that the browser's storage holds under ['securityLog'] is the JSON text
    of a list of entries; [savedLog] keeps it as that list, and
    [localStorage] holds every other item. *)
Record World : Type := mkWorld {
  clock : Z;                            (* Date.now() *)
  user : JsValue;                       (* useState(null) *)
  sessionExpiry : option JsNumber;      (* useState(null) *)
  securityLog : list LogEntry;          (* useState([]) *)
  localStorage : gmap string string;
  savedLog : option (list LogEntry);
  timers : list Timer;                  (* pending, oldest first *)
  deferred : list Deferred;             (* pending, oldest first *)
  api_calls : list ApiRequest;          (* requests sent, oldest first *)
  redirected : bool                     (* window.location.href = '/login' *)
}.

(** What the browser and the REST backend contribute.  [JSON_parse] returns
    [None] for the [SyntaxError]; [ToNumber_other] is the numeric value of a
    string, an array or an object; [ToString_other] is the string value of
    anything but a string; [backend] is the reply of the server. *)
Class Platform : Type := {
  JSON_parse : string -> option JsValue;
  ToNumber_other : JsValue -> JsNumber;
  ToString_other : JsValue -> string;
  navigator_userAgent : string;
  backend : ApiRequest -> ApiResponse
}.

(** The result object of an auth operation; an absent field is [None]. *)
Record AuthResult : Type := mkAuthResult {
  success : bool;
  message : option JsValue;
  token : option JsValue
}.

(** ** A state monad with exceptions *)

Inductive Outcome (A : Type) : Type :=
| Ret (a : A)
| Throw (e : JsError).
Arguments Ret {A} a.
Arguments Throw {A} e.

Definition M (A : Type) : Type := World -> Outcome A * World.

Definition ret {A} (a : A) : M A := fun w => (Ret a, w).
Definition throw {A} (e : JsError) : M A := fun w => (Throw e, w).
Definition bind {A B} (m : M A) (k : A -> M B) : M B :=
  fun w => match m w with
           | (Ret a, w') => k a w'
           | (Throw e, w') => (Throw e, w')
           end.
(** [try { body } catch (error) { handler }] *)
Definition try_catch {A} (body : M A) (handler : JsError -> M A) : M A :=
  fun w => match body w with
           | (Ret a, w') => (Ret a, w')
           | (Throw e, w') => handler e w'
           end.
Definition gets {A} (f : World -> A) : M A := fun w => (Ret (f w), w).
Definition modify (f : World -> World) : M unit := fun w => (Ret tt, f w).
Definition lift {A} (e : JsError) (o : option A) : M A :=
  match o with
  | Some a => ret a
  | None => throw e
  end.

Notation "'let*' x ':=' m 'in' k" := (bind m (fun x => k))
  (at level 10, x name, m at level 100, k at level 200).
Notation "m ';;' k" := (bind m (fun _ => k))
  (at level 100, k at level 200, right associativity).

(** The state after running [m], and its result. *)
Definition exec {A} (m : M A) (w : World) : World := snd (m w).
Definition eval {A} (m : M A) (w : World) : Outcome A := fst (m w).

(** *** Setters *)

Definition set_clock (t : Z) (w : World) : World :=
  mkWorld t (user w) (sessionExpiry w) (securityLog w) (localStorage w)
          (savedLog w) (timers w) (deferred w) (api_calls w) (redirected w).
Definition set_user (u : JsValue) (w : World) : World :=
  mkWorld (clock w) u (sessionExpiry w) (securityLog w) (localStorage w)
          (savedLog w) (timers w) (deferred w) (api_calls w) (redirected w).
Definition set_sessionExpiry (x : option JsNumber) (w : World) : World :=
  mkWorld (clock w) (user w) x (securityLog w) (localStorage w)
          (savedLog w) (timers w) (deferred w) (api_calls w) (redirected w).
Definition set_securityLog (l : list LogEntry) (w : World) : World :=
  mkWorld (clock w) (user w) (sessionExpiry w) l (localStorage w)
          (savedLog w) (timers w) (deferred w) (api_calls w) (redirected w).
Definition set_localStorage (s : gmap string string) (w : World) : World :=
  mkWorld (clock w) (user w) (sessionExpiry w) (securityLog w) s
          (savedLog w) (timers w) (deferred w) (api_calls w) (redirected w).
Definition set_savedLog (l : option (list LogEntry)) (w : World) : World :=
  mkWorld (clock w) (user w) (sessionExpiry w) (securityLog w) (localStorage w)
          l (timers w) (deferred w) (api_calls w) (redirected w).
Definition set_timers (t : list Timer) (w : World) : World :=
  mkWorld (clock w) (user w) (sessionExpiry w) (securityLog w) (localStorage w)
          (savedLog w) t (deferred w) (api_calls w) (redirected w).
Definition set_deferred (d : list Deferred) (w : World) : World :=
  mkWorld (clock w) (user w) (sessionExpiry w) (securityLog w) (localStorage w)
          (savedLog w) (timers w) d (api_calls w) (redirected w).
Definition set_api_calls (c : list ApiRequest) (w : World) : World :=
  mkWorld (clock w) (user w) (sessionExpiry w) (securityLog w) (localStorage w)
          (savedLog w) (timers w) (deferred w) c (redirected w).
Definition set_redirected (b : bool) (w : World) : World :=
  mkWorld (clock w) (user w) (sessionExpiry w) (securityLog w) (localStorage w)
          (savedLog w) (timers w) (deferred w) (api_calls w) b.

(** [Date.now()] *)
Definition Date_now : M Z := gets clock.

(** [localStorage.setItem], [removeItem], [getItem] *)
Definition setItem (k v : string) : M unit :=
  modify (fun w => set_localStorage (<[k := v]> (localStorage w)) w).
Definition removeItem (k : string) : M unit :=
  modify (fun w => set_localStorage (delete k (localStorage w)) w).
Definition getItem (k : string) : M (option string) :=
  gets (fun w => localStorage w !! k).

(** ** The operations of [AuthProvider] *)

Section Operations.
Context {Pf : Platform}.

(** [ToNumber(v)] *)
Definition ToNumber (v : JsValue) : JsNumber :=
  match v with
  | JUndefined => NaN
  | JNull => Num 0
  | JBool b => Num (if b then 1 else 0)
  | JNum n => Num n
  | JStr _ | JArr _ | JObj _ => ToNumber_other v
  end.

(** [String(v)], as [localStorage.setItem] applies it to its value. *)
Definition ToString (v : JsValue) : string :=
  match v with
  | JStr s => s
  | _ => ToString_other v
  end.

Definition num_mul (x : JsNumber) (k : Z) : JsNumber :=
  match x with Num n => Num (n * k) | NaN => NaN end.
Definition num_sub (x : JsNumber) (k : Z) : JsNumber :=
  match x with Num n => Num (n - k) | NaN => NaN end.
(** [k >= x] and [x > k]; a comparison with [NaN] is false. *)
Definition ge_num (k : Z) (x : JsNumber) : bool :=
  match x with Num n => n <=? k | NaN => false end.
Definition num_gt (x : JsNumber) (k : Z) : bool :=
  match x with Num n => k <? n | NaN => false end.

(** [JSON.parse(atob(segment))]; [None] when either call throws. *)
Definition decode_payload (segment : string) : option JsValue :=
  match atob segment with
  | Some text => JSON_parse text
  | None => None
  end.

(** [parts[1]] as [atob] receives it: [atob(undefined)] decodes the string
    ["undefined"]. *)
Definition second_segment (parts : list string) : string :=
  nth 1 parts "undefined".

(** [isValidToken], lines 47-67, when [Date.now()] reads [now]. *)
Definition isValidToken (now : Z) (tok : JsValue) : bool :=
  match tok with
  | JStr s =>
      if String.eqb s "" then false
      else
        let parts := split_dot s in
        if negb (length parts =? 3)%nat then false
        else
          match decode_payload (second_segment parts) with
          | None => false
          | Some payload =>
              match get_prop payload "exp" with
              | None => false
              | Some exp =>
                  if truthy exp && ge_num now (num_mul (ToNumber exp) 1000)
                  then false
                  else true
              end
          end
  | _ => false
  end.

(** [addSecurityLog], lines 29-44. *)
Definition build_entry (now : Z) (act : string) (details : Details) : LogEntry :=
  mkLogEntry now act navigator_userAgent
    (spread [(KIp, js_or (detail KIp details) (JStr "unknown"));
             (KLocation, js_or (detail KLocation details) (JStr "unknown"))]
            details).

Definition addSecurityLog (act : string) (details : Details) : M unit :=
  let* now := Date_now in
  let logEntry := build_entry now act details in
  modify (fun w =>
    let newLog := firstn 100 (logEntry :: securityLog w) in
    set_securityLog newLog (set_savedLog (Some newLog) w)).

(** [user?.id] *)
Definition optional_id (u : JsValue) : JsValue :=
  match get_prop u "id" with
  | Some v => v
  | None => JUndefined
  end.

(** [logout], lines 423-434.  [seen] is the [user] of the render whose
    closure runs: the current one for a call from the view, [null] for the
    call inside [setSession]'s timer, which [useCallback] froze at the
    first render. *)
Definition logout (seen : JsValue) : M unit :=
  let userId := optional_id seen in
  addSecurityLog "user_logout" [(KUserId, userId)] ;;
  removeItem "token" ;;
  removeItem "refreshToken" ;;
  removeItem "oauth_state" ;;
  modify (set_user JNull) ;;
  modify (set_sessionExpiry None).

(** [setTimeout(callback, timeout)] with the auto-logout callback. *)
Definition setTimeout (timeout : Z) : M unit :=
  modify (fun w => set_timers (timers w ++ [mkTimer timeout (clock w)]) w).

(** [setSession], lines 81-102. *)
Definition setSession (tok : JsValue) : M unit :=
  if negb (truthy tok) then ret tt
  else
    try_catch
      (match tok with
       | JStr s =>
           let* text := lift (InvalidCharacterError "atob")
                             (atob (second_segment (split_dot s))) in
           let* payload := lift (SyntaxError "JSON.parse") (JSON_parse text) in
           let* exp := lift (TypeError "payload.exp") (get_prop payload "exp") in
           if truthy exp then
             let expiryTime := num_mul (ToNumber exp) 1000 in
             modify (set_sessionExpiry (Some expiryTime)) ;;
             let* now := Date_now in
             let timeout := num_sub (num_sub expiryTime now) 60000 in
             if num_gt timeout 0 then
               match timeout with
               | Num ms => setTimeout ms
               | NaN => ret tt
               end
             else ret tt
           else ret tt
       | _ => throw (TypeError "token.split is not a function")
       end)
      (fun _ => ret tt).

(** The timer's callback, lines 93-96. *)
Definition auto_logout : M unit :=
  addSecurityLog "session_auto_logout" [(KReason, JStr "token_expiry")] ;;
  logout JNull.

(** Removes the element at index [i]. *)
Definition remove_nth {A} (i : nat) (l : list A) : list A :=
  (firstn i l ++ skipn (S i) l)%list.

(** The [i]-th pending timer fires when the clock reads [now]. *)
Definition fire_timer (now : Z) (i : nat) : M unit :=
  let* pending := gets timers in
  match nth_error pending i with
  | Some _ =>
      modify (set_timers (remove_nth i pending)) ;;
      modify (set_clock now) ;;
      auto_logout
  | None => ret tt
  end.

(** A request through the axios instance of [services/api.js]; the reply
    arrives when the clock reads [t1].  The request interceptor only reads
    the stored token; the response interceptor, on a 401, removes the
    stored token and navigates to the login page before it rejects. *)
Definition api_post (t1 : Z) (req : ApiRequest) : M JsValue :=
  modify (fun w => set_api_calls (api_calls w ++ [req]) w) ;;
  modify (set_clock t1) ;;
  match backend req with
  | Resolve data => ret data
  | Reject msg status rm =>
      (match status with
       | Some 401 => removeItem "token" ;; modify (set_redirected true)
       | _ => ret tt
       end) ;;
      throw (AxiosError msg status rm)
  end.

(** [getClientIP().then(ip => addSecurityLog(act, { ...details, ip }))] *)
Definition defer_log (act : string) (details : Details) : M unit :=
  modify (fun w => set_deferred (deferred w ++ [mkDeferred act details]) w).

(** The [i]-th pending continuation runs when the clock reads [now], with
    the address [ip] that [getClientIP] resolved to (['unknown'] when the
    lookup failed). *)
Definition resolve_ip (now : Z) (ip : JsValue) (i : nat) : M unit :=
  let* pending := gets deferred in
  match nth_error pending i with
  | Some d =>
      modify (set_deferred (remove_nth i pending)) ;;
      modify (set_clock now) ;;
      addSecurityLog (df_action d) (df_details d ++ [(KIp, ip)])%list
  | None => ret tt
  end.

(** The rest object of [const { token, refreshToken, ...userData } = data].
    It is used only after [isValidToken(token)] held, so [data] had a
    string property and is an object. *)
Definition rest_without (keys : list string) (data : JsValue) : JsValue :=
  match data with
  | JObj members =>
      JObj (List.filter (fun kv => negb (existsb (String.eqb (fst kv)) keys))
                        members)
  | _ => JObj []
  end.

(** Is this entry a [login_attempt] of the last five minutes?  Lines
    172-175. *)
Definition recent_attempt (now : Z) (entry : LogEntry) : bool :=
  String.eqb (action entry) "login_attempt"
  && (now - timestamp entry <? 5 * 60 * 1000).

Definition recentAttempts (now : Z) (log : list LogEntry) : list LogEntry :=
  List.filter (recent_attempt now) log.

Definition rate_limited : AuthResult :=
  mkAuthResult false
    (Some (JStr "Too many login attempts. Please try again later.")) None.

(** The [try] block of [login], lines 170-213; the reply of the API
    arrives when the clock reads [t1]. *)
Definition login_try (t1 : Z) (email password : string) : M AuthResult :=
  let* log := gets securityLog in
  let* now := Date_now in
  if (5 <=? length (recentAttempts now log))%nat then
    addSecurityLog "rate_limit_exceeded" [(KEmail, JStr email)] ;;
    ret rate_limited
  else
    addSecurityLog "login_attempt" [(KEmail, JStr email)] ;;
    let* data := api_post t1 (PostLogin email password) in
    let* tok := lift (TypeError "destructure") (get_prop data "token") in
    let* refreshToken :=
      lift (TypeError "destructure") (get_prop data "refreshToken") in
    let userData := rest_without ["token"; "refreshToken"] data in
    let* now := Date_now in
    if negb (isValidToken now tok) then throw (Error "Invalid token received")
    else
      setItem "token" (ToString tok) ;;
      (if truthy refreshToken then setItem "refreshToken" (ToString refreshToken)
       else ret tt) ;;
      modify (set_user userData) ;;
      setSession tok ;;
      defer_log "login_success"
        [(KUserId, optional_id userData); (KEmail, JStr email);
         (KMethod, JStr "password")] ;;
      ret (mkAuthResult true None None).

(** The [catch] block of [login], lines 214-230. *)
Definition login_catch (email : string) (error : JsError) : M AuthResult :=
  let msg := js_or (response_message error) (JStr "Login failed") in
  defer_log "login_failed" [(KEmail, JStr email); (KReason, msg)] ;;
  ret (mkAuthResult false (Some msg) None).

(** [login], lines 169-231. *)
Definition login (t1 : Z) (email password : string) : M AuthResult :=
  try_catch (login_try t1 email password) (login_catch email).

(** [!refreshToken] for the result of [getItem]: [null] or a string. *)
Definition missing (item : option string) : bool :=
  match item with
  | None => true
  | Some s => String.eqb s ""
  end.

Definition item_value (item : option string) : JsValue :=
  match item with
  | None => JNull
  | Some s => JStr s
  end.

(** The [try] block of [refreshAuthToken], lines 343-364. *)
Definition refresh_try (t1 : Z) : M AuthResult :=
  let* refreshToken := getItem "refreshToken" in
  let* now := Date_now in
  if missing refreshToken || negb (isValidToken now (item_value refreshToken))
  then throw (Error "Invalid refresh token")
  else
    let* data := api_post t1 (PostRefresh (ToString (item_value refreshToken))) in
    let* tok := lift (TypeError "destructure") (get_prop data "token") in
    let* newRefreshToken :=
      lift (TypeError "destructure") (get_prop data "newRefreshToken") in
    let* now := Date_now in
    if negb (isValidToken now tok) then throw (Error "Invalid token received")
    else
      setItem "token" (ToString tok) ;;
      (if truthy newRefreshToken
       then setItem "refreshToken" (ToString newRefreshToken)
       else ret tt) ;;
      setSession tok ;;
      addSecurityLog "token_refreshed" [] ;;
      ret (mkAuthResult true None (Some tok)).

(** The [catch] block of [refreshAuthToken], lines 365-369, with the
    [user] that the closure of [logout] sees. *)
Definition refresh_catch (seen : JsValue) (error : JsError) : M AuthResult :=
  addSecurityLog "token_refresh_failed"
    [(KError, JStr (error_message error))] ;;
  logout seen ;;
  ret (mkAuthResult false None None).

(** [refreshAuthToken], lines 342-370, called from the current render. *)
Definition refreshAuthToken (t1 : Z) : M AuthResult :=
  let* seen := gets user in
  try_catch (refresh_try t1) (refresh_catch seen).


End Operations.

(** ** A reference platform

    An executable [Platform] for running the operations on concrete input.
    Its [JSON.parse] reads the fragment of JSON with integer numbers and
    strings without escapes, and rejects every other text. *)

Module Reference.

Definition code (c : ascii) : nat := nat_of_ascii c.
Definition is_digit (c : ascii) : bool := ((48 <=? code c) && (code c <=? 57))%nat.
Definition is_quote (c : ascii) : bool := (code c =? 34)%nat.
(** JSON white space: space, tab, line feed, carriage return. *)
Definition is_json_ws (c : ascii) : bool :=
  ((code c =? 32) || (code c =? 9) || (code c =? 10) || (code c =? 13))%nat.

Fixpoint skip_ws (s : string) : string :=
  match s with
  | String c r => if is_json_ws c then skip_ws r else s
  | EmptyString => s
  end.

(** The characters of a string literal after its opening quote, up to the
    closing one. *)
Fixpoint read_string (s : string) : option (string * string) :=
  match s with
  | EmptyString => None
  | String c r =>
      if is_quote c then Some (EmptyString, r)
      else if ((code c =? 92) || (code c <? 32))%nat then None
      else match read_string r with
           | Some (body, rest) => Some (String c body, rest)
           | None => None
           end
  end.

Fixpoint read_digits (acc : Z) (s : string) : Z * string :=
  match s with
  | String c r =>
      if is_digit c then read_digits (acc * 10 + Z.of_nat (code c - 48)) r
      else (acc, s)
  | EmptyString => (acc, s)
  end.

(** An integer literal: [0] or a digit string without leading zero; a
    fraction or an exponent is outside the fragment. *)
Definition read_nat (s : string) : option (Z * string) :=
  match s with
  | String c r =>
      if negb (is_digit c) then None
      else
        let '(n, rest) := if (code c =? 48)%nat then (0, r) else read_digits 0 s in
        match rest with
        | String d _ =>
            if ((code d =? 46) || (code d =? 101) || (code d =? 69))%nat
            then None else Some (n, rest)
        | EmptyString => Some (n, rest)
        end
  | EmptyString => None
  end.

Definition read_literal (lit : string) (v : JsValue) (s : string)
  : option (JsValue * string) :=
  if String.prefix lit s
  then Some (v, substring (String.length lit)
                          (String.length s - String.length lit) s)
  else None.

(** A later binding of a key replaces the earlier one. *)
Fixpoint put_member (k : string) (v : JsValue) (l : list (string * JsValue))
  : list (string * JsValue) :=
  match l with
  | [] => [(k, v)]
  | (k', v') :: r =>
      if String.eqb k k' then (k, v) :: r else (k', v') :: put_member k v r
  end.

Fixpoint parse_value (fuel : nat) (s : string) : option (JsValue * string) :=
  match fuel with
  | O => None
  | S fuel =>
      match skip_ws s with
      | EmptyString => None
      | String c r =>
          if (code c =? 123)%nat then            (* { *)
            match skip_ws r with
            | String d r' =>
                if (code d =? 125)%nat then Some (JObj [], r')
                else parse_members fuel [] (String d r')
            | EmptyString => None
            end
          else if (code c =? 91)%nat then        (* [ *)
            match skip_ws r with
            | String d r' =>
                if (code d =? 93)%nat then Some (JArr [], r')
                else parse_items fuel [] (String d r')
            | EmptyString => None
            end
          else if is_quote c then
            match read_string r with
            | Some (body, rest) => Some (JStr body, rest)
            | None => None
            end
          else if (code c =? 45)%nat then        (* - *)
            match read_nat r with
            | Some (n, rest) => Some (JNum (- n), rest)
            | None => None
            end
          else if is_digit c then
            match read_nat (String c r) with
            | Some (n, rest) => Some (JNum n, rest)
            | None => None
            end
          else if (code c =? 116)%nat then read_literal "true" (JBool true) (String c r)
          else if (code c =? 102)%nat then read_literal "false" (JBool false) (String c r)
          else if (code c =? 110)%nat then read_literal "null" JNull (String c r)
          else None
      end
  end

with parse_members (fuel : nat) (acc : list (string * JsValue)) (s : string)
  : option (JsValue * string) :=
  match fuel with
  | O => None
  | S fuel =>
      match skip_ws s with
      | String q r =>
          if negb (is_quote q) then None
          else
            match read_string r with
            | Some (key, rest) =>
                match skip_ws rest with
                | String colon rest' =>
                    if negb (code colon =? 58)%nat then None
                    else
                      match parse_value fuel rest' with
                      | Some (v, rest'') =>
                          let acc' := put_member key v acc in
                          match skip_ws rest'' with
                          | String d tail =>
                              if (code d =? 125)%nat then Some (JObj acc', tail)
                              else if (code d =? 44)%nat
                                   then parse_members fuel acc' tail
                                   else None
                          | EmptyString => None
                          end
                      | None => None
                      end
                | EmptyString => None
                end
            | None => None
            end
      | EmptyString => None
      end
  end

with parse_items (fuel : nat) (acc : list JsValue) (s : string)
  : option (JsValue * string) :=
  match fuel with
  | O => None
  | S fuel =>
      match parse_value fuel s with
      | Some (v, rest) =>
          let acc' := (acc ++ [v])%list in
          match skip_ws rest with
          | String d tail =>
              if (code d =? 93)%nat then Some (JArr acc', tail)
              else if (code d =? 44)%nat then parse_items fuel acc' tail
              else None
          | EmptyString => None
          end
      | None => None
      end
  end.

Definition parse (s : string) : option JsValue :=
  match parse_value (2 * String.length s + 2) s with
  | Some (v, rest) =>
      match skip_ws rest with
      | EmptyString => Some v
      | String _ _ => None
      end
  | None => None
  end.

(** The numeric value of a string of decimal digits with an optional
    sign; the empty string is [0]; anything else counts as [NaN]. *)
Definition string_to_number (s : string) : JsNumber :=
  match s with
  | EmptyString => Num 0
  | String c r =>
      let '(neg, body) :=
        if (code c =? 45)%nat then (true, r)
        else if (code c =? 43)%nat then (false, r)
        else (false, s) in
      match body with
      | EmptyString => NaN
      | String _ _ =>
          match read_digits 0 body with
          | (n, EmptyString) => Num (if neg then - n else n)
          | (_, String _ _) => NaN
          end
      end
  end.

(** [ToNumber] of a string, of an array of at most one number or string,
    of an object. *)
Definition to_number (v : JsValue) : JsNumber :=
  match v with
  | JStr s => string_to_number s
  | JArr [] => Num 0
  | JArr [JNum n] => Num n
  | JArr [JStr s] => string_to_number s
  | _ => NaN
  end.

Definition digit_char (n : Z) : ascii := ascii_of_nat (48 + Z.to_nat n).

Fixpoint print_digits (fuel : nat) (n : Z) (acc : string) : string :=
  match fuel with
  | O => acc
  | S fuel =>
      let acc' := String (digit_char (n mod 10)) acc in
      if n / 10 =? 0 then acc' else print_digits fuel (n / 10) acc'
  end.

Definition print_Z (n : Z) : string :=
  if n <? 0 then String "-" (print_digits (Z.to_nat (- n)) (- n) EmptyString)
  else print_digits (S (Z.to_nat n)) n EmptyString.

(** [String(v)] for the values that are no strings; the elements of an
    array are joined with commas, [null] and [undefined] printing empty. *)
Fixpoint to_string (v : JsValue) : string :=
  match v with
  | JUndefined => "undefined"
  | JNull => "null"
  | JBool true => "true"
  | JBool false => "false"
  | JNum n => print_Z n
  | JStr s => s
  | JArr items =>
      let element x := match x with
                       | JUndefined | JNull => EmptyString
                       | _ => to_string x
                       end in
      String.concat "," (List.map element items)
  | JObj _ => "[object Object]"
  end.

Definition platform (server : ApiRequest -> ApiResponse) : Platform :=
  {| JSON_parse := parse;
     ToNumber_other := to_number;
     ToString_other := to_string;
     navigator_userAgent := "Mozilla/5.0";
     backend := server |}.

End Reference.

(** ** Specification-side notions *)

Section Notions.
Context {Pf : Platform}.

(** One call of [addSecurityLog(act, details)] made when the clock reads
    [t]. *)
Record Append : Type := mkAppend {
  ap_time : Z;
  ap_action : string;
  ap_details : Details
}.

Definition entry_of (a : Append) : LogEntry :=
  build_entry (ap_time a) (ap_action a) (ap_details a).

Definition append_at (a : Append) : M unit :=
  modify (set_clock (ap_time a)) ;;
  addSecurityLog (ap_action a) (ap_details a).

(** The appends of a list, first to last. *)
Fixpoint run_appends (l : list Append) : M unit :=
  match l with
  | [] => ret tt
  | a :: r => append_at a ;; run_appends r
  end.

(** A [login_attempt] whose timestamp lies in the five minutes that end
    at [now]. *)
Definition attempt_in_window (now : Z) (entry : LogEntry) : bool :=
  String.eqb (action entry) "login_attempt"
  && (now - 300000 <? timestamp entry) && (timestamp entry <=? now).

(** What the stored session consists of: the user, the expiry and the
    three items that [logout] clears. *)
Definition session_state (w : World)
  : JsValue * option JsNumber * option string * option string * option string :=
  (user w, sessionExpiry w, localStorage w !! "token",
   localStorage w !! "refreshToken", localStorage w !! "oauth_state").




(** A store without the three items that [logout] removes. *)
Definition cleared (store : gmap string string) : gmap string string :=
  delete "oauth_state" (delete "refreshToken" (delete "token" store)).

(** The state in which the reply to the login request is examined. *)
Definition awaiting_reply (t1 : Z) (email password : string) (w : World) : World :=
  set_clock t1
    (set_api_calls (api_calls w ++ [PostLogin email password])
       (exec (addSecurityLog "login_attempt" [(KEmail, JStr email)]) w)).



(** [m] takes every state to a state that [R] relates to it, whether it
    returns or throws. *)
Definition respects (R : World -> World -> Prop) {A} (m : M A) : Prop :=
  forall w, R w (exec m w).

End Notions.

(** ** Sample inputs *)

Module Samples.

(** The clock of the samples: 2023-11-14T22:13:20Z. *)
Definition t_now : Z := 1700000000000.

(** Tokens with header [{"alg":"HS256"}] and the claims named beside
    them. *)
Definition token_1h : string :=                    (* {"exp":1700003600} *)
  "eyJhbGciOiJIUzI1NiJ9.eyJleHAiOjE3MDAwMDM2MDB9.sig".
Definition token_2h : string :=                    (* {"exp":1700007200} *)
  "eyJhbGciOiJIUzI1NiJ9.eyJleHAiOjE3MDAwMDcyMDB9.sig".
Definition token_past : string :=                  (* {"exp":1699999000} *)
  "eyJhbGciOiJIUzI1NiJ9.eyJleHAiOjE2OTk5OTkwMDB9.sig".
Definition token_epoch : string :=                 (* {"exp":0} *)
  "eyJhbGciOiJIUzI1NiJ9.eyJleHAiOjB9.sig".

(** A backend with two accounts: one that logs in with a token good for
    an hour and a refresh token good for two, one whose token has expired.
    It trades the refresh token for a bearer token good until the same
    time, and refuses everything else with a 401. *)
Definition server (req : ApiRequest) : ApiResponse :=
  match req with
  | PostLogin email _ =>
      if String.eqb email "ana@example.com" then
        Resolve (JObj [("token", JStr token_1h); ("refreshToken", JStr token_2h);
                       ("id", JStr "u1")])
      else if String.eqb email "eve@example.com" then
        Resolve (JObj [("token", JStr token_past); ("id", JStr "u3")])
      else Reject "Request failed with status code 401" (Some 401)
                  (JStr "Invalid credentials")
  | PostRefresh refreshToken =>
      if String.eqb refreshToken token_2h then
        Resolve (JObj [("token", JStr token_2h)])
      else Reject "Request failed with status code 401" (Some 401)
                  (JStr "Invalid refresh token")
  end.

Definition browser : Platform := Reference.platform server.

(** The state after the first render, with an empty log. *)
Definition fresh (now : Z) : World :=
  mkWorld now JNull None [] ∅ None [] [] [] false.


(** [n] calls of [addSecurityLog('login_attempt', { email })], one per
    second from [start] on. *)
Definition attempts (start : Z) (n : nat) : list Append :=
  List.map (fun i => mkAppend (start + 1000 * Z.of_nat i) "login_attempt"
                              [(KEmail, JStr "ana@example.com")])
           (seq 0 n).

(** The log after five login attempts in the five seconds before
    [t_now]. *)
Definition five_attempts : World :=
  set_clock t_now
    (exec (run_appends (Pf:=browser) (attempts (t_now - 5000) 5))
          (fresh (t_now - 6000))).


(** A login; a refresh fifty minutes later, while the first token is
    still good; and the moment at which the timer of the login is due, one
    minute before that first token expires. *)
Definition after_login : World :=
  exec (login (Pf:=browser) (t_now + 200) "ana@example.com" "secret")
       (fresh t_now).
Definition after_refresh : World :=
  exec (refreshAuthToken (Pf:=browser) (t_now + 3000200))
       (set_clock (t_now + 3000000) after_login).



End Samples.

(** ** The rest of [AuthProvider]

    The operations below send their request to an endpoint other than
    login and refresh.  The reply to such a request is an argument of the
    operation, and the request is not put in [api_calls], which lists the
    login and refresh requests. *)

Section Lifecycle.
Context {Pf : Platform}.

(** The reply [reply] to a request through the axios instance arrives
    when the clock reads [t1]; the response interceptor of
    [services/api.js], lines 17-26, treats it as in [api_post]. *)
Definition await_reply (t1 : Z) (reply : ApiResponse) : M JsValue :=
  modify (set_clock t1) ;;
  match reply with
  | Resolve data => ret data
  | Reject msg status rm =>
      (match status with
       | Some 401 => removeItem "token" ;; modify (set_redirected true)
       | _ => ret tt
       end) ;;
      throw (AxiosError msg status rm)
  end.

(** The [try] block of [register], lines 234-261.  [userData.email] is a
    [TypeError] when [userData] is [null] or [undefined]. *)
Definition register_try (t1 : Z) (reply : ApiResponse) (userData : JsValue)
  : M AuthResult :=
  let* email := lift (TypeError "userData.email") (get_prop userData "email") in
  addSecurityLog "registration_attempt" [(KEmail, email)] ;;
  let* data := await_reply t1 reply in
  let* tok := lift (TypeError "destructure") (get_prop data "token") in
  let* refreshToken :=
    lift (TypeError "destructure") (get_prop data "refreshToken") in
  let userInfo := rest_without ["token"; "refreshToken"] data in
  let* now := Date_now in
  if negb (isValidToken now tok) then throw (Error "Invalid token received")
  else
    setItem "token" (ToString tok) ;;
    (if truthy refreshToken then setItem "refreshToken" (ToString refreshToken)
     else ret tt) ;;
    modify (set_user userInfo) ;;
    setSession tok ;;
    defer_log "registration_success"
      [(KUserId, optional_id userInfo); (KEmail, email)] ;;
    ret (mkAuthResult true None None).

(** The [catch] block of [register], lines 262-277.  The details of the
    pending log entry are built when the address lookup completes; with a
    [userData] that has no readable [email] that callback throws and logs
    nothing. *)
Definition register_catch (userData : JsValue) (error : JsError)
  : M AuthResult :=
  let msg := js_or (response_message error) (JStr "Registration failed") in
  (match get_prop userData "email" with
   | Some email =>
       defer_log "registration_failed" [(KEmail, email); (KReason, msg)]
   | None => ret tt
   end) ;;
  ret (mkAuthResult false (Some msg) None).

(** [register], lines 233-278. *)
Definition register (t1 : Z) (reply : ApiResponse) (userData : JsValue)
  : M AuthResult :=
  try_catch (register_try t1 reply userData) (register_catch userData).

(** The [try] block of [loginWithOAuth], lines 282-309. *)
Definition oauth_try (t1 : Z) (reply : ApiResponse) (provider : string)
  : M AuthResult :=
  addSecurityLog "oauth_attempt" [(KProvider, JStr provider)] ;;
  let* data := await_reply t1 reply in
  let* tok := lift (TypeError "destructure") (get_prop data "token") in
  let* refreshToken :=
    lift (TypeError "destructure") (get_prop data "refreshToken") in
  let userData := rest_without ["token"; "refreshToken"] data in
  let* now := Date_now in
  if negb (isValidToken now tok) then throw (Error "Invalid token received")
  else
    setItem "token" (ToString tok) ;;
    (if truthy refreshToken then setItem "refreshToken" (ToString refreshToken)
     else ret tt) ;;
    modify (set_user userData) ;;
    setSession tok ;;
    defer_log "oauth_success"
      [(KUserId, optional_id userData); (KProvider, JStr provider)] ;;
    ret (mkAuthResult true None None).

(** The [catch] block of [loginWithOAuth], lines 310-325. *)
Definition oauth_catch (provider : string) (error : JsError) : M AuthResult :=
  let msg := js_or (response_message error)
                   (JStr (provider ++ " authentication failed")) in
  defer_log "oauth_failed" [(KProvider, JStr provider); (KReason, msg)] ;;
  ret (mkAuthResult false (Some msg) None).

(** [loginWithOAuth], lines 281-326, and its three callers, lines
    328-339, which differ in the request they send. *)
Definition loginWithOAuth (t1 : Z) (reply : ApiResponse) (provider : string)
  : M AuthResult :=
  try_catch (oauth_try t1 reply provider) (oauth_catch provider).

Definition loginWithGoogle (t1 : Z) (reply : ApiResponse) : M AuthResult :=
  loginWithOAuth t1 reply "google".
Definition loginWithGitHub (t1 : Z) (reply : ApiResponse) : M AuthResult :=
  loginWithOAuth t1 reply "github".
Definition loginWithMicrosoft (t1 : Z) (reply : ApiResponse) : M AuthResult :=
  loginWithOAuth t1 reply "microsoft".

(** The [try] block of [fetchUser], lines 142-159.  The details of the
    pending log entry read [response.data.id] when the address lookup
    completes; with a [null] reply that callback throws and logs
    nothing. *)
Definition fetchUser_try (t1 : Z) (reply : ApiResponse) : M unit :=
  let* tok := getItem "token" in
  let* now := Date_now in
  if missing tok || negb (isValidToken now (item_value tok))
  then throw (Error "Invalid token")
  else
    let* data := await_reply t1 reply in
    modify (set_user data) ;;
    setSession (item_value tok) ;;
    match get_prop data "id" with
    | Some id =>
        defer_log "user_authenticated" [(KUserId, id); (KMethod, JStr "token")]
    | None => ret tt
    end.

(** The [catch] block of [fetchUser], lines 160-163.  [fetchUser] runs
    from the effect of the first render, so its [logout] sees no user. *)
Definition fetchUser_catch (error : JsError) : M unit :=
  addSecurityLog "fetch_user_failed" [(KError, JStr (error_message error))] ;;
  logout JNull.

(** The provider with its [loading] flag, [useState(true)]. *)
Record Provider : Type := mkProvider {
  world : World;
  loading : bool
}.

(** [fetchUser], lines 141-167; the [finally] block clears [loading]. *)
Definition fetchUser (t1 : Z) (reply : ApiResponse) (p : Provider) : Provider :=
  mkProvider (exec (try_catch (fetchUser_try t1 reply) fetchUser_catch) (world p))
             false.

(** The else branch of the effect that validates the session on mount,
    lines 114-119. *)
Definition clear_invalid_token (tok : option string) : M unit :=
  if missing tok then ret tt
  else removeItem "token" ;; addSecurityLog "invalid_token_cleared" [].

(** The effect that validates the session on mount, lines 105-121;
    [reply] answers the request of [fetchUser], [t1] is when the reply to
    the request of either branch arrives. *)
Definition validate_on_mount (t1 : Z) (reply : ApiResponse) (p : Provider)
  : Provider :=
  let w := world p in
  let tok := localStorage w !! "token" in
  let refreshToken := localStorage w !! "refreshToken" in
  if negb (missing tok) && isValidToken (clock w) (item_value tok) then
    fetchUser t1 reply p
  else if negb (missing refreshToken)
          && isValidToken (clock w) (item_value refreshToken) then
    mkProvider (exec (refreshAuthToken t1) w) (loading p)
  else
    mkProvider (exec (clear_invalid_token tok) w) false.

(** What [JSON.parse(JSON.stringify(entry))] gives back: a field that
    holds [undefined] is not written. *)
Definition is_undefined (v : JsValue) : bool :=
  match v with
  | JUndefined => true
  | _ => false
  end.

Definition reloaded (e : LogEntry) : LogEntry :=
  mkLogEntry (timestamp e) (action e) (userAgent e)
             (List.filter (fun kv => negb (is_undefined (snd kv))) (fields e)).

(** The effect that loads the log on mount, lines 21-26. *)
Definition load_securityLog (w : World) : World :=
  match savedLog w with
  | Some saved => set_securityLog (List.map reloaded saved) w
  | None => w
  end.

(** [handleVisibilityChange], lines 125-133; [visible] is
    [document.visibilityState === 'visible']. *)
Definition handleVisibilityChange (visible : bool) : M unit :=
  let* seen := gets user in
  if visible && truthy seen then
    let* tok := getItem "token" in
    let* now := Date_now in
    if missing tok || negb (isValidToken now (item_value tok)) then
      addSecurityLog "auto_logout" [(KReason, JStr "token_validation_failed")] ;;
      logout seen
    else ret tt
  else ret tt.

(** [requestPasswordReset], lines 373-388. *)
Definition requestPasswordReset (t1 : Z) (reply : ApiResponse) (email : string)
  : M AuthResult :=
  try_catch
    (await_reply t1 reply ;;
     addSecurityLog "password_reset_requested" [(KEmail, JStr email)] ;;
     ret (mkAuthResult true None None))
    (fun error =>
       addSecurityLog "password_reset_failed"
         [(KEmail, JStr email);
          (KReason, js_or (response_message error) (JStr "Request failed"))] ;;
       ret (mkAuthResult false
              (Some (js_or (response_message error)
                           (JStr "Failed to request password reset"))) None)).

(** [resetPassword], lines 390-404. *)
Definition resetPassword (t1 : Z) (reply : ApiResponse) : M AuthResult :=
  try_catch
    (await_reply t1 reply ;;
     addSecurityLog "password_reset_completed" [] ;;
     ret (mkAuthResult true None None))
    (fun error =>
       addSecurityLog "password_reset_error"
         [(KReason, js_or (response_message error) (JStr "Reset failed"))] ;;
       ret (mkAuthResult false
              (Some (js_or (response_message error)
                           (JStr "Failed to reset password"))) None)).

(** [changePassword], lines 407-421. *)
Definition changePassword (t1 : Z) (reply : ApiResponse) : M AuthResult :=
  try_catch
    (await_reply t1 reply ;;
     addSecurityLog "password_changed" [] ;;
     ret (mkAuthResult true None None))
    (fun error =>
       addSecurityLog "password_change_failed"
         [(KReason, js_or (response_message error) (JStr "Change failed"))] ;;
       ret (mkAuthResult false
              (Some (js_or (response_message error)
                           (JStr "Failed to change password"))) None)).


End Lifecycle.

(** ** The provider as a machine *)

Section ProviderMachine.
Context {Pf : Platform}.

(** What can happen to a mounted provider: a call from the view, with
    the reply to its request; a browser event; time passing. *)
Inductive Event : Type :=
| Login (t1 : Z) (email password : string)
| Register (t1 : Z) (reply : ApiResponse) (userData : JsValue)
| OAuth (t1 : Z) (reply : ApiResponse) (provider : string)
| Refresh (t1 : Z)
| Logout
| RequestPasswordReset (t1 : Z) (reply : ApiResponse) (email : string)
| ResetPassword (t1 : Z) (reply : ApiResponse)
| ChangePassword (t1 : Z) (reply : ApiResponse)
| VisibilityChange (visible : bool)
| TimerFires (now : Z) (i : nat)
| IpResolved (now : Z) (ip : JsValue) (i : nat)
| Tick (now : Z).

(** The state after the event; a call from the view is made by the
    closure of the current render. *)
Definition step (e : Event) (w : World) : World :=
  match e with
  | Login t1 email password => exec (login t1 email password) w
  | Register t1 reply userData => exec (register t1 reply userData) w
  | OAuth t1 reply provider => exec (loginWithOAuth t1 reply provider) w
  | Refresh t1 => exec (refreshAuthToken t1) w
  | Logout => exec (logout (user w)) w
  | RequestPasswordReset t1 reply email =>
      exec (requestPasswordReset t1 reply email) w
  | ResetPassword t1 reply => exec (resetPassword t1 reply) w
  | ChangePassword t1 reply => exec (changePassword t1 reply) w
  | VisibilityChange visible => exec (handleVisibilityChange visible) w
  | TimerFires now i => exec (fire_timer now i) w
  | IpResolved now ip i => exec (resolve_ip now ip i) w
  | Tick now => set_clock now w
  end.

Definition run (events : list Event) (w : World) : World :=
  fold_left (fun w e => step e w) events w.

(** The state in which the effects of the first render leave the
    provider, before the session is validated: the React state is
    initial, the log is loaded from its stored copy. *)
Definition boot (now : Z) (store : gmap string string)
           (saved : option (list LogEntry)) : World :=
  load_securityLog (mkWorld now JNull None [] store saved [] [] [] false).

(** The provider as mounted: booted, then the session validated. *)
Definition mount (now t1 : Z) (reply : ApiResponse)
           (store : gmap string string) (saved : option (list LogEntry))
  : Provider :=
  validate_on_mount t1 reply (mkProvider (boot now store saved) true).

(** [m] never throws. *)
Definition returns {A} (m : M A) : Prop := forall w, exists a, eval m w = Ret a.


(** The stored copy of the log reads back as the log reads back: a
    reload of the page restores the log.  Nothing stored goes with an
    empty log. *)
Definition log_saved (w : World) : Prop :=
  match savedLog w with
  | Some saved => List.map reloaded saved = List.map reloaded (securityLog w)
  | None => securityLog w = []
  end.

Definition keeps_log_saved (w w' : World) : Prop := log_saved w -> log_saved w'.



(** [w'] has the user, the expiry and the timers of [w], and its stored
    items but for the bearer token, which the response interceptor may
    have removed. *)
Definition session_kept_or_token_dropped (w w' : World) : Prop :=
  user w' = user w
  /\ sessionExpiry w' = sessionExpiry w
  /\ timers w' = timers w
  /\ (localStorage w' = localStorage w
      \/ localStorage w' = delete "token" (localStorage w)).

(** The status is 401, and the state in which the response interceptor
    leaves [w] for that status. *)
Definition is_401 (status : option Z) : bool :=
  match status with
  | Some z => z =? 401
  | None => false
  end.

Definition intercepted (status : option Z) (w : World) : World :=
  if is_401 status
  then set_redirected true
         (set_localStorage (delete "token" (localStorage w)) w)
  else w.


(** The statements with which [login], [register] and [loginWithOAuth]
    install a session (lines 195-201, 244-250, 292-298), run on [w]. *)
Definition with_session (tok refreshToken userData : JsValue) (w : World)
  : World :=
  exec (setSession tok)
    (set_user userData
       (exec (if truthy refreshToken
              then setItem "refreshToken" (ToString refreshToken)
              else ret tt)
          (exec (setItem "token" (ToString tok)) w))).

(** What [login], [register] and [loginWithOAuth] do with the data of a
    reply (lines 188-213, 238-261, 286-309); they differ in the log entry
    they leave pending. *)
Definition install_from_reply (act : string) (details : JsValue -> Details)
           (data : JsValue) : M AuthResult :=
  let* tok := lift (TypeError "destructure") (get_prop data "token") in
  let* refreshToken :=
    lift (TypeError "destructure") (get_prop data "refreshToken") in
  let userData := rest_without ["token"; "refreshToken"] data in
  let* now := Date_now in
  if negb (isValidToken now tok) then throw (Error "Invalid token received")
  else
    setItem "token" (ToString tok) ;;
    (if truthy refreshToken then setItem "refreshToken" (ToString refreshToken)
     else ret tt) ;;
    modify (set_user userData) ;;
    setSession tok ;;
    defer_log act (details userData) ;;
    ret (mkAuthResult true None None).

(** The state in which the reply to a request of [register] or
    [loginWithOAuth] is examined: the attempt is logged and the clock
    reads [t1]. *)
Definition attempt_logged (t1 : Z) (act : string) (details : Details)
           (w : World) : World :=
  set_clock t1 (exec (addSecurityLog act details) w).

(** The failure object that carries [msg]. *)
Definition failure (msg : JsValue) : AuthResult :=
  mkAuthResult false (Some msg) None.

(** A sign-in that, when the reply arrives at [t1], either succeeds and
    leaves a stored bearer token that is valid then and a user, or fails
    and leaves the session as it was, but for a bearer token that the
    response interceptor removed. *)
Definition all_or_nothing (t1 : Z) (m : M AuthResult) : Prop :=
  forall w,
    let w' := exec m w in
    exists r,
      eval m w = Ret r
      /\ ((success r = true
           /\ exists s, localStorage w' !! "token" = Some s
                        /\ isValidToken t1 (JStr s) = true
                        /\ truthy (user w') = true)
          \/ (success r = false /\ session_kept_or_token_dropped w w')).

(** The state in which the reply to the refresh request is examined. *)
Definition refresh_sent (t1 : Z) (refreshToken : string) (w : World) : World :=
  set_clock t1 (set_api_calls (api_calls w ++ [PostRefresh refreshToken]) w).

(** The state that [refreshAuthToken] leaves when it succeeds. *)
Definition refreshed (t1 : Z) (old : string) (tok newRefreshToken : JsValue)
           (w : World) : World :=
  exec (addSecurityLog "token_refreshed" [])
    (exec (setSession tok)
       (exec (if truthy newRefreshToken
              then setItem "refreshToken" (ToString newRefreshToken)
              else ret tt)
          (exec (setItem "token" (ToString tok)) (refresh_sent t1 old w)))).

(** The state that [refreshAuthToken] leaves when it fails with the
    error message [m], the failure being met in state [w1]. *)
Definition refresh_failed (seen : JsValue) (m : string) (w1 : World) : World :=
  exec (logout seen)
    (exec (addSecurityLog "token_refresh_failed" [(KError, JStr m)]) w1).

(** The stored item is no token that [isValidToken] accepts at [now]:
    [!item || !isValidToken(item)]. *)
Definition no_valid (now : Z) (item : option string) : bool :=
  missing item || negb (isValidToken now (item_value item)).

(** What the three password operations do with the reply to their
    request: the result says whether the server accepted it, with the
    message of the server or [fallback]; one entry goes to the log, stamped
    when the reply arrives; the session is left alone, but for the
    response interceptor on a 401. *)
Definition reports_reply (t1 : Z) (reply : ApiResponse)
           (done failed fallback : string) (m : M AuthResult) : Prop :=
  forall w,
    let w' := exec m w in
    exists e,
      securityLog w' = firstn 100 (e :: securityLog w)
      /\ timestamp e = t1
      /\ session_kept_or_token_dropped w w'
      /\ match reply with
         | Resolve _ =>
             eval m w = Ret (mkAuthResult true None None)
             /\ action e = done
             /\ localStorage w' = localStorage w
             /\ redirected w' = redirected w
         | Reject _ status rm =>
             eval m w = Ret (failure (js_or rm (JStr fallback)))
             /\ action e = failed
             /\ localStorage w'
                = (if is_401 status then delete "token" (localStorage w)
                   else localStorage w)
             /\ redirected w' = (if is_401 status then true else redirected w)
         end.





End ProviderMachine.

(** ** Sample scenarios *)

Module Scenarios.
Import Samples.

(** A day at the dashboard: a login, the address lookup of its pending
    entry, a refresh fifty minutes later, a look at the tab, a logout. *)
Definition day : list Event :=
  [ Login (t_now + 200) "ana@example.com" "secret";
    IpResolved (t_now + 300) (JStr "203.0.113.7") 0;
    Tick (t_now + 3000000);
    Refresh (t_now + 3000200);
    VisibilityChange true;
    Logout ].

(** What the browser holds when the page is opened again within the
    hour, and an hour and a half later. *)
Definition session_store : gmap string string :=
  <["refreshToken" := token_2h]> (<["token" := token_1h]> ∅).
Definition refresh_only_store : gmap string string :=
  <["refreshToken" := token_2h]> (<["token" := token_past]> ∅).
Definition stale_store : gmap string string :=
  <["refreshToken" := token_past]> (<["token" := token_past]> ∅).

(** The reply to the request for the current user. *)
Definition me : ApiResponse :=
  Resolve (JObj [("id", JStr "u1"); ("email", JStr "ana@example.com")]).

(** A registration and the data of its reply. *)
Definition new_account : JsValue :=
  JObj [("email", JStr "zoe@example.com"); ("password", JStr "correct horse")].
Definition created : JsValue :=
  JObj [("token", JStr token_1h); ("refreshToken", JStr token_2h);
        ("id", JStr "u7")].


End Scenarios.

(** ** The regular expressions of the forms *)

Module Regex.

(** [\s] among 8-bit characters: tab, line feed, vertical tab, form feed,
    carriage return, space and no-break space. *)
Definition is_space (c : ascii) : bool :=
  let n := nat_of_ascii c in
  ((9 <=? n) && (n <=? 13) || (n =? 32) || (n =? 160))%nat.

Definition in_range (lo hi : nat) (c : ascii) : bool :=
  ((lo <=? nat_of_ascii c) && (nat_of_ascii c <=? hi))%nat.

(** [[A-Z]], [[a-z]], [[0-9]], [[^A-Za-z0-9]] and [[^\s@]]. *)
Definition is_upper (c : ascii) : bool := in_range 65 90 c.
Definition is_lower (c : ascii) : bool := in_range 97 122 c.
Definition is_digit (c : ascii) : bool := in_range 48 57 c.
Definition is_special (c : ascii) : bool :=
  negb (is_upper c || is_lower c || is_digit c).
Definition not_space_at (c : ascii) : bool :=
  negb (is_space c || Ascii.eqb c "@").

(** The patterns in use: a character of a class, sequence, repetition;
    [Void], [Eps] and [Alt] are there for the derivatives. *)
Inductive Re : Type :=
| Void
| Eps
| Class (p : ascii -> bool)
| Seq (a b : Re)
| Alt (a b : Re)
| Star (a : Re).

(** [a+] and a literal character. *)
Definition Plus (a : Re) : Re := Seq a (Star a).
Definition Lit (c : ascii) : Re := Class (Ascii.eqb c).

Fixpoint nullable (r : Re) : bool :=
  match r with
  | Void => false
  | Eps => true
  | Class _ => false
  | Seq a b => nullable a && nullable b
  | Alt a b => nullable a || nullable b
  | Star _ => true
  end.

(** What is left of [r] to match after the character [c]. *)
Fixpoint deriv (c : ascii) (r : Re) : Re :=
  match r with
  | Void | Eps => Void
  | Class p => if p c then Eps else Void
  | Seq a b =>
      if nullable a then Alt (Seq (deriv c a) b) (deriv c b)
      else Seq (deriv c a) b
  | Alt a b => Alt (deriv c a) (deriv c b)
  | Star a => Seq (deriv c a) (Star a)
  end.

Fixpoint matches (r : Re) (s : list ascii) : bool :=
  match s with
  | [] => nullable r
  | c :: s' => matches (deriv c r) s'
  end.

(** [/^r$/.test(s)] and [/[p]/.test(s)]. *)
Definition test_whole (r : Re) (s : string) : bool :=
  matches r (list_ascii_of_string s).
Definition test_class (p : ascii -> bool) (s : string) : bool :=
  existsb p (list_ascii_of_string s).

(** [/^[^\s@]+@[^\s@]+\.[^\s@]+$/] *)
Definition email_pattern : Re :=
  Seq (Plus (Class not_space_at))
    (Seq (Lit "@")
       (Seq (Plus (Class not_space_at))
          (Seq (Lit ".") (Plus (Class not_space_at))))).

(** The strings of a pattern. *)
Inductive Lang : Re -> list ascii -> Prop :=
| L_eps : Lang Eps []
| L_class p c : p c = true -> Lang (Class p) [c]
| L_seq a b s1 s2 : Lang a s1 -> Lang b s2 -> Lang (Seq a b) (s1 ++ s2)
| L_alt_l a b s : Lang a s -> Lang (Alt a b) s
| L_alt_r a b s : Lang b s -> Lang (Alt a b) s
| L_star_nil a : Lang (Star a) []
| L_star_cons a s1 s2 : Lang a s1 -> Lang (Star a) s2 -> Lang (Star a) (s1 ++ s2).

(** A string without white space and [@]. *)
Definition plain (s : string) : Prop :=
  s <> "" /\ forallb not_space_at (list_ascii_of_string s) = true.

End Regex.


(** ** The pages that sign in and register

    [Login] ([src/services/api.js], lines 990-1520) and [Register]
    ([src/pages/Register.js]) are the callers of [login] and [register].
    A page is its React state next to the [World] of the provider; a
    handler runs in the closure of the latest render, so it reads the
    current state, but [isLocked] is computed when the page renders and
    read by the handler as the render left it. *)

(** What the browser contributes to the pages: [parseInt(s)],
    the time value of [new Date(s)] ([NaN] for an invalid date) and
    [new Date(t).toISOString()]. *)
Class Browser : Type := {
  parseInt : string -> JsNumber;
  Date_parse : string -> JsNumber;
  Date_toISOString : Z -> string
}.

Module LoginPage.
Section LoginPage.
Context {Pf : Platform} {Br : Browser}.

(** The state of the page, lines 994-1003: [formData], [error],
    [loading], [attempts], [lockUntil] (a [Date], kept as its time
    value), and whether the page has navigated away. *)
Record Page : Type := mkPage {
  email : string;
  password : string;
  error : JsValue;
  loading : bool;
  attempts : JsNumber;
  lockUntil : option JsNumber;
  navigated : bool
}.

Definition initial : Page :=
  mkPage "" "" (JStr "") false (Num 0) None false.

Definition set_error (e : JsValue) (p : Page) : Page :=
  mkPage (email p) (password p) e (loading p) (attempts p) (lockUntil p)
         (navigated p).
Definition set_loading (b : bool) (p : Page) : Page :=
  mkPage (email p) (password p) (error p) b (attempts p) (lockUntil p)
         (navigated p).
Definition set_attempts (n : JsNumber) (p : Page) : Page :=
  mkPage (email p) (password p) (error p) (loading p) n (lockUntil p)
         (navigated p).
Definition set_lockUntil (t : option JsNumber) (p : Page) : Page :=
  mkPage (email p) (password p) (error p) (loading p) (attempts p) t
         (navigated p).
Definition set_navigated (b : bool) (p : Page) : Page :=
  mkPage (email p) (password p) (error p) (loading p) (attempts p)
         (lockUntil p) b.

(** [x + k], [x >= k] and [x.toString()] on numbers. *)
Definition num_add (x : JsNumber) (k : Z) : JsNumber :=
  match x with Num n => Num (n + k) | NaN => NaN end.
Definition num_ge (x : JsNumber) (k : Z) : bool :=
  match x with Num n => k <=? n | NaN => false end.
Definition number_toString (x : JsNumber) : string :=
  match x with Num n => ToString (JNum n) | NaN => "NaN" end.

(** [isLocked], line 1013, in a render at [now]:
    [lockUntil && new Date() < lockUntil]. *)
Definition isLocked (now : Z) (lock : option JsNumber) : bool :=
  match lock with
  | Some (Num t) => now <? t
  | Some NaN | None => false
  end.

(** The effect that loads the attempts and the lock, lines 1022-1028. *)
Definition load (w : World) (p : Page) : Page :=
  let savedAttempts := localStorage w !! "loginAttempts" in
  let savedLockUntil := localStorage w !! "lockUntil" in
  let p1 := match savedAttempts with
            | Some s => if String.eqb s "" then p else set_attempts (parseInt s) p
            | None => p
            end in
  match savedLockUntil with
  | Some s => if String.eqb s "" then p1
              else set_lockUntil (Some (Date_parse s)) p1
  | None => p1
  end.

(** [validateForm], lines 1053-1072: the message it sets, or [None] when
    it returns [true]. *)
Definition validateForm (p : Page) : option string :=
  if String.eqb (email p) "" || String.eqb (password p) "" then
    Some "Please fill in all fields"
  else if negb (Regex.test_whole Regex.email_pattern (email p)) then
    Some "Please enter a valid email address"
  else if (String.length (password p) <? 8)%nat then
    Some "Password must be at least 8 characters long"
  else None.

(** [Math.ceil(a / 1000 / 60)] for a whole number of milliseconds. *)
Definition ceil_minutes (a : Z) : Z := - ((- a) / 60000).

(** [Math.ceil((lockUntil - new Date()) / 1000 / 60)], line 1080. *)
Definition remainingTime (now : Z) (lock : option JsNumber) : JsNumber :=
  match lock with
  | Some (Num t) => Num (ceil_minutes (t - now))
  | Some NaN => NaN
  | None => Num (ceil_minutes (0 - now))
  end.

(** [handleSubmit], lines 1074-1122, in the closure of a render at
    [rendered]; the reply to the login request arrives at [t1]. *)
Definition handleSubmit (rendered t1 : Z) (p : Page) (w : World)
  : Page * World :=
  let p := set_error (JStr "") p in
  if isLocked rendered (lockUntil p) then
    (set_error
       (JStr ("Account temporarily locked. Try again in "
              ++ number_toString (remainingTime (clock w) (lockUntil p))
              ++ " minutes.")) p, w)
  else
    match validateForm p with
    | Some msg => (set_error (JStr msg) p, w)
    | None =>
        let p := set_loading true p in
        let '(p, w) :=
          match login t1 (email p) (password p) w with
          | (Ret result, w) =>
              if success result then
                (set_navigated true (set_attempts (Num 0) p),
                 exec (removeItem "loginAttempts" ;; removeItem "lockUntil") w)
              else
                let newAttempts := num_add (attempts p) 1 in
                let p := set_attempts newAttempts p in
                let w := exec (setItem "loginAttempts"
                                 (number_toString newAttempts)) w in
                if num_ge newAttempts 5 then
                  let lockTime := clock w + 30 * 60 * 1000 in
                  (set_error
                     (JStr "Too many failed attempts. Account locked for 30 minutes.")
                     (set_lockUntil (Some (Num lockTime)) p),
                   exec (setItem "lockUntil" (Date_toISOString lockTime)) w)
                else
                  (set_error
                     (js_or (match message result with
                             | Some m => m
                             | None => JUndefined
                             end)
                            (JStr "Invalid credentials")) p, w)
          | (Throw _, w) =>
              (set_error (JStr "An unexpected error occurred. Please try again.") p,
               w)
          end in
        (set_loading false p, w)
    end.

(** One submission: when the page was last rendered, when the form is
    submitted and when the reply arrives. *)
Record Submission : Type := mkSubmission {
  sb_rendered : Z;
  sb_at : Z;
  sb_reply : Z
}.

Definition submit (s : Submission) (st : Page * World) : Page * World :=
  handleSubmit (sb_rendered s) (sb_reply s) (fst st)
               (set_clock (sb_at s) (snd st)).

Definition submit_all (l : list Submission) (st : Page * World) : Page * World :=
  fold_left (fun st s => submit s st) l st.

End LoginPage.
End LoginPage.

Module RegisterPage.
Section RegisterPage.
Context {Pf : Platform}.

(** [formData], lines 6-12. *)
Record Form : Type := mkForm {
  name : string;
  email : string;
  password : string;
  confirmPassword : string;
  company : string
}.

(** The inputs that [handleChange] serves. *)
Inductive Field : Type :=
| FName | FEmail | FPassword | FConfirmPassword | FCompany.

Definition set_field (f : Field) (value : string) (d : Form) : Form :=
  match f with
  | FName => mkForm value (email d) (password d) (confirmPassword d) (company d)
  | FEmail => mkForm (name d) value (password d) (confirmPassword d) (company d)
  | FPassword => mkForm (name d) (email d) value (confirmPassword d) (company d)
  | FConfirmPassword => mkForm (name d) (email d) (password d) value (company d)
  | FCompany => mkForm (name d) (email d) (password d) (confirmPassword d) value
  end.

(** [passwordStrength], line 17: the empty string, or the object that
    [checkPasswordStrength] builds. *)
Inductive Strength : Type :=
| NotRated
| Rated (level : nat) (label : string) (feedback : list string).

(** [strengthLabels[strength] || 'Very Weak'], lines 79-90. *)
Definition strengthLabel (strength : nat) : string :=
  match strength with
  | 0 => "Very Weak"
  | 1 => "Weak"
  | 2 => "Fair"
  | 3 => "Good"
  | 4 => "Strong"
  | 5 => "Very Strong"
  | _ => "Very Weak"
  end%nat.

(** The five tests of [checkPasswordStrength], lines 64-77, each with
    the hint it pushes when it fails. *)
Definition criteria (pw : string) : list (bool * string) :=
  [ ((8 <=? String.length pw)%nat, "at least 8 characters");
    (Regex.test_class Regex.is_upper pw, "one uppercase letter");
    (Regex.test_class Regex.is_lower pw, "one lowercase letter");
    (Regex.test_class Regex.is_digit pw, "one number");
    (Regex.test_class Regex.is_special pw, "one special character") ].

(** [checkPasswordStrength], lines 55-93: what it sets
    [passwordStrength] to. *)
Definition checkPasswordStrength (pw : string) : Strength :=
  if (String.length pw =? 0)%nat then NotRated
  else
    let '(strength, feedback) :=
      fold_left (fun (acc : nat * list string) (test : bool * string) =>
                   if fst test then (S (fst acc), snd acc)
                   else (fst acc, (snd acc ++ [snd test])%list))
                (criteria pw) (0%nat, []) in
    Rated strength (strengthLabel strength) feedback.

(** The state of the page: [formData], [error], [loading],
    [passwordStrength], and whether the page has navigated away. *)
Record Page : Type := mkPage {
  form : Form;
  error : JsValue;
  loading : bool;
  passwordStrength : Strength;
  navigated : bool
}.

Definition initial : Page :=
  mkPage (mkForm "" "" "" "" "") (JStr "") false NotRated false.

Definition set_error (e : JsValue) (p : Page) : Page :=
  mkPage (form p) e (loading p) (passwordStrength p) (navigated p).
Definition set_loading (b : bool) (p : Page) : Page :=
  mkPage (form p) (error p) b (passwordStrength p) (navigated p).
Definition set_navigated (b : bool) (p : Page) : Page :=
  mkPage (form p) (error p) (loading p) (passwordStrength p) b.

(** [handleChange], lines 39-53. *)
Definition handleChange (f : Field) (value : string) (p : Page) : Page :=
  mkPage (set_field f value (form p))
         (if truthy (error p) then JStr "" else error p)
         (loading p)
         (match f with
          | FPassword => checkPasswordStrength value
          | _ => passwordStrength p
          end)
         (navigated p).

(** [passwordStrength.level < 3], line 113; the level of the empty
    string is [undefined], which is not below three. *)
Definition level_below (k : nat) (s : Strength) : bool :=
  match s with
  | NotRated => false
  | Rated level _ _ => (level <? k)%nat
  end.

(** [validateForm], lines 95-124: the message it sets, or [None] when it
    returns [true]. *)
Definition validateForm (p : Page) : option string :=
  let d := form p in
  if String.eqb (name d) "" || String.eqb (email d) ""
     || String.eqb (password d) "" || String.eqb (confirmPassword d) ""
     || String.eqb (company d) "" then
    Some "Please fill in all required fields"
  else if negb (Regex.test_whole Regex.email_pattern (email d)) then
    Some "Please enter a valid email address"
  else if (String.length (password d) <? 8)%nat then
    Some "Password must be at least 8 characters long"
  else if level_below 3 (passwordStrength p) then
    Some "Please choose a stronger password"
  else if negb (String.eqb (password d) (confirmPassword d)) then
    Some "Passwords do not match"
  else None.

(** [registerData], line 135: the form without [confirmPassword]. *)
Definition registerData (d : Form) : JsValue :=
  JObj [("name", JStr (name d)); ("email", JStr (email d));
        ("password", JStr (password d)); ("company", JStr (company d))].

(** [handleSubmit], lines 126-149; [reply] answers the request of
    [register] and arrives at [t1]. *)
Definition handleSubmit (t1 : Z) (reply : ApiResponse) (p : Page) (w : World)
  : Page * World :=
  let p := set_error (JStr "") p in
  match validateForm p with
  | Some msg => (set_error (JStr msg) p, w)
  | None =>
      let p := set_loading true p in
      let '(p, w) :=
        match register t1 reply (registerData (form p)) w with
        | (Ret result, w) =>
            if success result then
              (set_navigated true p, w)
            else
              (set_error
                 (js_or (match message result with
                         | Some m => m
                         | None => JUndefined
                         end)
                        (JStr "Registration failed. Please try again.")) p, w)
        | (Throw _, w) =>
            (set_error (JStr "An unexpected error occurred. Please try again.") p,
             w)
        end in
      (set_loading false p, w)
  end.

(** The page after a series of edits of its inputs. *)
Definition edited (edits : list (Field * string)) (p : Page) : Page :=
  fold_left (fun p e => handleChange (fst e) (snd e) p) edits p.

(** How many of the four kinds of character (upper case, lower case,
    digit, other) occur in [pw]. *)
Definition kinds (pw : string) : nat :=
  length (List.filter (fun b : bool => b)
            [Regex.test_class Regex.is_upper pw; Regex.test_class Regex.is_lower pw;
             Regex.test_class Regex.is_digit pw;
             Regex.test_class Regex.is_special pw]).

End RegisterPage.
End RegisterPage.

(** ** A reference browser for the pages *)

Module ReferenceBrowser.

(** [n] in [width] decimal digits, in front of [acc]. *)
Fixpoint pad (width : nat) (n : Z) (acc : string) : string :=
  match width with
  | O => acc
  | S k => pad k (n / 10) (String (Reference.digit_char (n mod 10)) acc)
  end.

(** The year, month and day of a day number counted from 1970-01-01, and
    back, in the proleptic Gregorian calendar. *)
Definition civil (days : Z) : Z * Z * Z :=
  let z := days + 719468 in
  let era := z / 146097 in
  let doe := z - era * 146097 in
  let yoe := (doe - doe / 1460 + doe / 36524 - doe / 146096) / 365 in
  let doy := doe - (365 * yoe + yoe / 4 - yoe / 100) in
  let mp := (5 * doy + 2) / 153 in
  let d := doy - (153 * mp + 2) / 5 + 1 in
  let m := if mp <? 10 then mp + 3 else mp - 9 in
  (yoe + era * 400 + (if m <=? 2 then 1 else 0), m, d).

Definition days_from_civil (y m d : Z) : Z :=
  let y := if m <=? 2 then y - 1 else y in
  let era := y / 400 in
  let yoe := y - era * 400 in
  let mp := if 2 <? m then m - 3 else m + 9 in
  let doy := (153 * mp + 2) / 5 + d - 1 in
  era * 146097 + (yoe * 365 + yoe / 4 - yoe / 100 + doy) - 719468.

(** [new Date(t).toISOString()]: [YYYY-MM-DDTHH:mm:ss.sssZ], the year
    with a sign and six digits outside 0..9999. *)
Definition toISOString (t : Z) : string :=
  let ms := t mod 86400000 in
  let '(y, m, d) := civil (t / 86400000) in
  (if (0 <=? y) && (y <=? 9999) then pad 4 y ""
   else if y <? 0 then String "-" (pad 6 (- y) "")
        else String "+" (pad 6 y ""))
  ++ "-" ++ pad 2 m "" ++ "-" ++ pad 2 d ""
  ++ "T" ++ pad 2 (ms / 3600000) "" ++ ":" ++ pad 2 (ms / 60000 mod 60) ""
  ++ ":" ++ pad 2 (ms / 1000 mod 60) "" ++ "." ++ pad 3 (ms mod 1000) "" ++ "Z".

(** The value of a string of decimal digits. *)
Definition digits (s : string) : option Z :=
  match s with
  | EmptyString => None
  | String _ _ =>
      match Reference.read_digits 0 s with
      | (n, EmptyString) => Some n
      | (_, String _ _) => None
      end
  end.

(** The time value of [new Date(s)] for a string in the format that
    [toISOString] writes with a four-digit year; this browser takes every
    other string for an invalid date. *)
Definition parse_date (s : string) : JsNumber :=
  let part i n := substring i n s in
  if (String.length s =? 24)%nat
     && String.eqb (part 4%nat 1%nat) "-" && String.eqb (part 7%nat 1%nat) "-"
     && String.eqb (part 10%nat 1%nat) "T" && String.eqb (part 13%nat 1%nat) ":"
     && String.eqb (part 16%nat 1%nat) ":" && String.eqb (part 19%nat 1%nat) "."
     && String.eqb (part 23%nat 1%nat) "Z"
  then
    match digits (part 0%nat 4%nat), digits (part 5%nat 2%nat), digits (part 8%nat 2%nat),
          digits (part 11%nat 2%nat), digits (part 14%nat 2%nat), digits (part 17%nat 2%nat),
          digits (part 20%nat 3%nat) with
    | Some y, Some m, Some d, Some h, Some mi, Some sec, Some ms =>
        if (1 <=? m) && (m <=? 12) && (1 <=? d) && (d <=? 31)
           && (h <? 24) && (mi <? 60) && (sec <? 60)
        then Num (days_from_civil y m d * 86400000
                  + h * 3600000 + mi * 60000 + sec * 1000 + ms)
        else NaN
    | _, _, _, _, _, _, _ => NaN
    end
  else NaN.

Fixpoint skip_space (s : string) : string :=
  match s with
  | String c r => if Regex.is_space c then skip_space r else s
  | EmptyString => s
  end.

Definition hex_value (c : ascii) : option Z :=
  let n := Z.of_nat (nat_of_ascii c) in
  if (48 <=? n) && (n <=? 57) then Some (n - 48)
  else if (97 <=? n) && (n <=? 102) then Some (n - 87)
  else if (65 <=? n) && (n <=? 70) then Some (n - 55)
  else None.

Fixpoint read_hex (acc : option Z) (s : string) : option Z :=
  match s with
  | String c r =>
      match hex_value c with
      | Some v => read_hex (Some (match acc with Some a => a * 16 + v | None => v end)) r
      | None => acc
      end
  | EmptyString => acc
  end.

(** [parseInt(s)]: white space, a sign, then hexadecimal digits after
    [0x] or decimal digits; what follows the digits is ignored, and no
    digit at all gives [NaN]. *)
Definition parse_int (s : string) : JsNumber :=
  let s := skip_space s in
  let '(neg, body) :=
    match s with
    | String "-" r => (true, r)
    | String "+" r => (false, r)
    | _ => (false, s)
    end in
  let signed n := Num (if neg then - n else n) in
  match body with
  | String "0" (String x r) =>
      if Ascii.eqb x "x" || Ascii.eqb x "X" then
        match read_hex None r with
        | Some n => signed n
        | None => NaN
        end
      else signed (fst (Reference.read_digits 0 body))
  | String c _ =>
      if Reference.is_digit c then signed (fst (Reference.read_digits 0 body))
      else NaN
  | EmptyString => NaN
  end.

Definition browser : Browser :=
  {| parseInt := parse_int;
     Date_parse := parse_date;
     Date_toISOString := toISOString |}.

End ReferenceBrowser.

(** ** Sample visits of the pages *)

Module PageScenarios.
Import Samples.

(** The login form filled in by someone the server does not know, and by
    [ana]. *)
Definition stranger : LoginPage.Page :=
  LoginPage.mkPage "bob@example.com" "guess-1234" (JStr "") false (Num 0) None
                   false.
Definition ana : LoginPage.Page :=
  LoginPage.mkPage "ana@example.com" "secret-1234" (JStr "") false (Num 3) None
                   false.

(** Five submissions, ten seconds apart, each answered after 200 ms. *)
Definition five_tries : list LoginPage.Submission :=
  List.map (fun i => let t := t_now + 10000 * Z.of_nat i in
                     LoginPage.mkSubmission t t (t + 200))
           (seq 0 5).

(** A browser whose stored count was tampered with. *)
Definition tampered : World :=
  set_localStorage (<["loginAttempts" := "many"]> ∅) (fresh t_now).

(** The registration form as a visitor fills it in. *)
Definition filling_in : list (RegisterPage.Field * string) :=
  [ (RegisterPage.FName, "Zoe"); (RegisterPage.FCompany, "Acme");
    (RegisterPage.FEmail, "zoe@example.com");
    (RegisterPage.FPassword, "Correct-horse1");
    (RegisterPage.FConfirmPassword, "Correct-horse1") ].

End PageScenarios.

(** ** Tactics *)

(** Running monadic code by hand. *)
Create HintDb monad.
#[global] Hint Unfold bind gets modify ret throw try_catch Date_now
  setItem removeItem getItem : monad.

Ltac mrun := repeat (autounfold with monad; cbv beta iota zeta).

(** Splits a computation into its steps; what is left are the state
    changes themselves. *)
Ltac frame_steps ret_ok throw_ok gets_ok lift_ok bind_ok catch_ok :=
  cbv zeta;
  repeat first
    [ apply ret_ok
    | apply throw_ok
    | apply gets_ok
    | apply lift_ok
    | apply bind_ok; [|intro]
    | apply catch_ok; [|intro]
    | match goal with
      | |- respects _ (if ?b then _ else _) => destruct b
      | |- respects _ (match ?x with _ => _ end) => destruct x
      end ].

(** ** Lists cut to a bound *)

Lemma firstn_app_firstn {A} (n m : nat) (l1 l2 : list A) :
  (n <= m)%nat -> firstn n (l1 ++ firstn m l2) = firstn n (l1 ++ l2).
Proof.
  revert n m. induction l1 as [|x l1 IH]; intros n m Hnm; simpl.
  - rewrite firstn_firstn. f_equal. lia.
  - destruct n as [|n]; simpl; [reflexivity|].
    f_equal. apply IH. lia.
Qed.

Lemma filter_length_mono {A} (p q : A -> bool) (l : list A) :
  (forall x, p x = true -> q x = true) ->
  (length (List.filter p l) <= length (List.filter q l))%nat.
Proof.
  intros Hpq. induction l as [|x l IH]; simpl; [lia|].
  destruct (p x) eqn:Hp.
  - rewrite (Hpq x Hp). simpl. lia.
  - destruct (q x); simpl; lia.
Qed.

Lemma filter_firstn_length {A} (p : A -> bool) (n : nat) (l : list A) :
  (length (List.filter p (firstn n l)) <= length (List.filter p l))%nat.
Proof.
  revert n. induction l as [|x l IH]; intros [|n]; simpl; try lia.
  specialize (IH n). destruct (p x); simpl; lia.
Qed.

(** ** The security log *)

Section SecurityLog.
Context {Pf : Platform}.

(** [addSecurityLog] returns, with the new entry in front of the log and
    the log cut to 100 entries, in the state and in the stored copy. *)
Lemma addSecurityLog_log (act : string) (details : Details) (w : World) :
  exec (addSecurityLog act details) w =
  let newLog := firstn 100 (build_entry (clock w) act details :: securityLog w) in
  set_securityLog newLog (set_savedLog (Some newLog) w).
Proof. reflexivity. Qed.

Lemma addSecurityLog_run (act : string) (details : Details) (w : World) :
  addSecurityLog act details w =
  (Ret tt, exec (addSecurityLog act details) w).
Proof. reflexivity. Qed.

Lemma append_at_log (a : Append) (w : World) :
  securityLog (exec (append_at a) w) = firstn 100 (entry_of a :: securityLog w).
Proof. reflexivity. Qed.

Lemma run_appends_cons (a : Append) (r : list Append) (w : World) :
  exec (run_appends (a :: r)) w = exec (run_appends r) (exec (append_at a) w).
Proof. reflexivity. Qed.

Lemma run_appends_log (calls : list Append) (w : World) :
  (length (securityLog w) <= 100)%nat ->
  securityLog (exec (run_appends calls) w) =
  firstn 100 (rev (List.map entry_of calls) ++ securityLog w).
Proof.
  revert w. induction calls as [|a r IH]; intros w Hw.
  - simpl. symmetry. apply firstn_all2. exact Hw.
  - rewrite run_appends_cons, IH.
    + rewrite append_at_log. cbn [List.map rev].
      rewrite <- app_assoc. cbn [app].
      apply firstn_app_firstn. lia.
    + rewrite append_at_log. rewrite length_firstn. lia.
Qed.

End SecurityLog.

Section SecurityLogBound.
Context {Pf : Platform}.

(** C3.  Starting from a log of at most 100 entries, after any sequence
    of appends and one more, the log has at most 100 entries and the
    entry just built is its first.  After 101 appends to an empty log
    the log is the last 100 built entries, newest first: the entry of
    the first append has no position in it (and is no member of it,
    unless a later append built an equal entry). *)
Theorem security_log_capped_newest_first :
  (forall (w : World) (calls : list Append) (a : Append),
      (length (securityLog w) <= 100)%nat ->
      let w1 := exec (run_appends calls) w in
      let w2 := exec (append_at a) w1 in
      (length (securityLog w1) <= 100)%nat
      /\ (length (securityLog w2) <= 100)%nat
      /\ hd_error (securityLog w2) = Some (entry_of a))
  /\ (forall (w : World) (first : Append) (others : list Append),
         securityLog w = [] ->
         length others = 100%nat ->
         let log := securityLog (exec (run_appends (first :: others)) w) in
         log = rev (List.map entry_of others)
         /\ length log = 100%nat
         /\ (~ In (entry_of first) (List.map entry_of others) ->
             ~ In (entry_of first) log)).
Proof.
  split.
  - intros w calls a Hw w1 w2.
    assert (H1 : (length (securityLog w1) <= 100)%nat).
    { subst w1. rewrite run_appends_log by exact Hw.
      rewrite length_firstn. lia. }
    split; [exact H1|].
    subst w2. rewrite append_at_log. split.
    + rewrite length_firstn. lia.
    + reflexivity.
  - intros w first others Hw Hlen log.
    assert (Hlog : log = rev (List.map entry_of others)).
    { subst log. rewrite run_appends_log by (rewrite Hw; simpl; lia).
      rewrite Hw, app_nil_r. cbn [List.map rev].
      rewrite firstn_app.
      rewrite firstn_all2 by (rewrite length_rev, length_map; lia).
      replace (100 - length (rev (List.map entry_of others)))%nat with 0%nat
        by (rewrite length_rev, length_map; lia).
      simpl. apply app_nil_r. }
    split; [exact Hlog|]. split.
    + rewrite Hlog, length_rev, length_map. exact Hlen.
    + intros Hnot Hin. apply Hnot. rewrite Hlog in Hin.
      apply in_rev in Hin. exact Hin.
Qed.

End SecurityLogBound.

Lemma security_log_capped_newest_first_witness :
  let w := Samples.fresh Samples.t_now in
  let first := mkAppend 0 "invalid_token_cleared" [] in
  let others := Samples.attempts 1000 100 in
  let a := mkAppend 200000 "user_logout" [(KUserId, JStr "u1")] in
  hd_error (securityLog
              (exec (append_at (Pf:=Samples.browser) a)
                 (exec (run_appends (Pf:=Samples.browser) (first :: others)) w)))
    = Some (entry_of (Pf:=Samples.browser) a)
  /\ securityLog (exec (run_appends (Pf:=Samples.browser) (first :: others)) w)
     = rev (List.map (entry_of (Pf:=Samples.browser)) others).
Proof.
  intros w first others a.
  destruct (security_log_capped_newest_first (Pf:=Samples.browser)) as [Hcap Hevict].
  split.
  - apply (Hcap w (first :: others) a). simpl. lia.
  - apply (Hevict w first others); reflexivity.
Defined.

(** ** The throttle of [login] *)

Section Throttle.
Context {Pf : Platform}.

Lemma attempt_in_window_recent (now : Z) (entry : LogEntry) :
  attempt_in_window now entry = true -> recent_attempt now entry = true.
Proof.
  unfold attempt_in_window, recent_attempt. intros Hin.
  apply andb_true_iff in Hin. destruct Hin as [Hin Hhi].
  apply andb_true_iff in Hin. destruct Hin as [Ha Hlo].
  apply Z.ltb_lt in Hlo. apply Z.leb_le in Hhi.
  apply andb_true_iff. split; [exact Ha|]. apply Z.ltb_lt. lia.
Qed.

(** A throttled call runs the first branch only. *)
Lemma login_throttled (t1 : Z) (email password : string) (w : World) :
  (5 <= length (recentAttempts (clock w) (securityLog w)))%nat ->
  login t1 email password w =
  (Ret rate_limited,
   exec (addSecurityLog "rate_limit_exceeded" [(KEmail, JStr email)]) w).
Proof.
  intros Hcount. apply Nat.leb_le in Hcount.
  unfold login, login_try. mrun. rewrite Hcount. reflexivity.
Qed.

(** C1.  When the log holds at least five [login_attempt] entries stamped
    within the five minutes that end at the current time, [login] returns
    the rate-limit failure, puts a [rate_limit_exceeded] entry at the front
    of the log and sends no request. *)
Theorem login_rate_limited (t1 : Z) (email password : string) (w : World) :
  (5 <= length (List.filter (attempt_in_window (clock w)) (securityLog w)))%nat ->
  let entry := build_entry (clock w) "rate_limit_exceeded" [(KEmail, JStr email)] in
  let w' := exec (login t1 email password) w in
  eval (login t1 email password) w = Ret rate_limited
  /\ success rate_limited = false
  /\ action entry = "rate_limit_exceeded"
  /\ securityLog w' = firstn 100 (entry :: securityLog w)
  /\ hd_error (securityLog w') = Some entry
  /\ api_calls w' = api_calls w.
Proof.
  intros Hwin entry w'.
  assert (Hcount : (5 <= length (recentAttempts (clock w) (securityLog w)))%nat).
  { etransitivity; [exact Hwin|].
    apply filter_length_mono, attempt_in_window_recent. }
  subst w'. unfold exec, eval.
  rewrite (login_throttled t1 email password w Hcount).
  repeat split.
Qed.

(** C10.  A throttled call changes the log and nothing else: the state
    after it is the state before with one [rate_limit_exceeded] entry put
    in front of the log (and of its stored copy); that entry is no
    [login_attempt], so at any reading of the clock the throttle count is
    not larger than before; the stored items, the user and the expiry are
    as they were. *)
Theorem throttled_login_only_logs (t1 : Z) (email password : string) (w : World) :
  (5 <= length (recentAttempts (clock w) (securityLog w)))%nat ->
  let entry := build_entry (clock w) "rate_limit_exceeded" [(KEmail, JStr email)] in
  let newLog := firstn 100 (entry :: securityLog w) in
  let w' := exec (login t1 email password) w in
  w' = set_securityLog newLog (set_savedLog (Some newLog) w)
  /\ action entry = "rate_limit_exceeded"
  /\ (forall now, recent_attempt now entry = false)
  /\ (forall now, (length (recentAttempts now (securityLog w'))
                   <= length (recentAttempts now (securityLog w)))%nat)
  /\ localStorage w' = localStorage w
  /\ user w' = user w
  /\ sessionExpiry w' = sessionExpiry w
  /\ api_calls w' = api_calls w.
Proof.
  intros Hcount entry newLog w'.
  assert (Hw' : w' = set_securityLog newLog (set_savedLog (Some newLog) w)).
  { subst w'. unfold exec. rewrite (login_throttled t1 email password w Hcount).
    reflexivity. }
  split; [exact Hw'|]. split; [reflexivity|]. split; [reflexivity|].
  rewrite Hw'. repeat split.
  intros now. cbn [securityLog set_securityLog]. subst newLog.
  unfold recentAttempts.
  etransitivity; [apply filter_firstn_length|]. reflexivity.
Qed.

End Throttle.

Lemma login_rate_limited_witness :
  let w := Samples.five_attempts in
  let w' := exec (login (Pf:=Samples.browser) (Samples.t_now + 180)
                        "ana@example.com" "secret") w in
  eval (login (Pf:=Samples.browser) (Samples.t_now + 180)
              "ana@example.com" "secret") w = Ret rate_limited
  /\ List.map action (securityLog w')
     = "rate_limit_exceeded" :: List.map action (securityLog w)
  /\ api_calls w' = [].
Proof.
  intros w w'.
  destruct (login_rate_limited (Pf:=Samples.browser) (Samples.t_now + 180)
              "ana@example.com" "secret" w)
    as (Hres & _ & _ & Hlog & _ & Hcalls).
  - vm_compute. lia.
  - split; [exact Hres|]. split.
    + subst w'. rewrite Hlog. vm_compute. reflexivity.
    + subst w'. rewrite Hcalls. vm_compute. reflexivity.
Defined.

Lemma throttled_login_only_logs_witness :
  let w := Samples.five_attempts in
  let w' := exec (login (Pf:=Samples.browser) (Samples.t_now + 180)
                        "ana@example.com" "secret") w in
  (length (recentAttempts Samples.t_now (securityLog w'))
   <= length (recentAttempts Samples.t_now (securityLog w)))%nat
  /\ localStorage w' = localStorage w
  /\ user w' = user w.
Proof.
  intros w w'.
  destruct (throttled_login_only_logs (Pf:=Samples.browser) (Samples.t_now + 180)
              "ana@example.com" "secret" w)
    as (_ & _ & _ & Hcount & Hstore & Huser & _).
  - vm_compute. lia.
  - split; [apply Hcount|]. split; [exact Hstore|exact Huser].
Defined.

(** ** The token codec *)

Section TokenCodec.
Context {Pf : Platform}.

(** A token that is no string of three dot-separated segments is refused. *)
Lemma isValidToken_segments (now : Z) (s : string) :
  length (split_dot s) <> 3%nat -> isValidToken now (JStr s) = false.
Proof.
  intros Hlen. unfold isValidToken.
  destruct (String.eqb s ""); [reflexivity|].
  apply Nat.eqb_neq in Hlen. rewrite Hlen. reflexivity.
Qed.

(** A token whose middle segment is no base64 text of JSON is refused. *)
Lemma isValidToken_undecodable (now : Z) (s : string) :
  decode_payload (second_segment (split_dot s)) = None ->
  isValidToken now (JStr s) = false.
Proof.
  intros Hdec. unfold isValidToken.
  destruct (String.eqb s ""); [reflexivity|].
  destruct (negb _); [reflexivity|].
  rewrite Hdec. reflexivity.
Qed.

(** A token whose [exp] is a number other than 0 and not after [now] is
    refused. *)
Lemma isValidToken_expired (now : Z) (s : string) (payload : JsValue) (n : Z) :
  decode_payload (second_segment (split_dot s)) = Some payload ->
  get_prop payload "exp" = Some (JNum n) ->
  n <> 0 ->
  n * 1000 <= now ->
  isValidToken now (JStr s) = false.
Proof.
  intros Hdec Hexp Hn Hle. unfold isValidToken.
  destruct (String.eqb s ""); [reflexivity|].
  destruct (negb _); [reflexivity|].
  rewrite Hdec, Hexp. cbn.
  apply Z.eqb_neq in Hn. rewrite Hn. cbn.
  apply Z.leb_le in Hle. rewrite Hle. reflexivity.
Qed.

(** A well-formed token whose [exp] is a number after [now] is accepted. *)
Lemma isValidToken_live (now : Z) (s : string) (payload : JsValue) (n : Z) :
  s <> "" ->
  length (split_dot s) = 3%nat ->
  decode_payload (second_segment (split_dot s)) = Some payload ->
  get_prop payload "exp" = Some (JNum n) ->
  now < n * 1000 ->
  isValidToken now (JStr s) = true.
Proof.
  intros Hs Hlen Hdec Hexp Hlt. unfold isValidToken.
  apply String.eqb_neq in Hs. rewrite Hs.
  rewrite Hlen. cbn [Nat.eqb negb].
  rewrite Hdec, Hexp. cbn.
  apply Z.leb_gt in Hlt. rewrite Hlt, andb_false_r. reflexivity.
Qed.

(** What [isValidToken] accepts: a non-empty string of three segments
    whose middle one decodes to a value with a readable [exp] that is
    falsy, or not a number, or after [now]. *)
Lemma isValidToken_accepts (now : Z) (tok : JsValue) :
  isValidToken now tok = true <->
  exists s payload exp,
    tok = JStr s
    /\ s <> ""
    /\ length (split_dot s) = 3%nat
    /\ decode_payload (second_segment (split_dot s)) = Some payload
    /\ get_prop payload "exp" = Some exp
    /\ (truthy exp = false \/ ge_num now (num_mul (ToNumber exp) 1000) = false).
Proof.
  split.
  - unfold isValidToken. destruct tok as [| | | |s| |]; try discriminate.
    destruct (String.eqb_spec s "") as [|Hs]; [discriminate|].
    destruct (Nat.eqb_spec (length (split_dot s)) 3) as [Hlen|]; [|discriminate].
    cbn [negb].
    destruct (decode_payload _) as [payload|] eqn:Hdec; [|discriminate].
    destruct (get_prop payload "exp") as [exp|] eqn:Hexp; [|discriminate].
    destruct (truthy exp) eqn:Ht; cbn [andb].
    + destruct (ge_num now _) eqn:Hge; [discriminate|].
      intros _. exists s, payload, exp. repeat split; auto.
    + intros _. exists s, payload, exp. repeat split; auto.
  - intros (s & payload & exp & -> & Hs & Hlen & Hdec & Hexp & Hok).
    unfold isValidToken.
    apply String.eqb_neq in Hs. rewrite Hs, Hlen. cbn [Nat.eqb negb].
    rewrite Hdec, Hexp.
    destruct Hok as [Ht|Hge].
    + rewrite Ht. reflexivity.
    + rewrite Hge, andb_false_r. reflexivity.
Qed.

End TokenCodec.

(** C2.  The token [token_epoch] has three segments and its middle segment
    decodes to the claims [{"exp":0}]; its expiry, the epoch, is before the
    clock reading of the samples; [isValidToken] accepts it, because [0]
    is falsy in the test [payload.exp && ...] of line 59. *)
Theorem token_with_exp_zero_accepted :
  length (split_dot Samples.token_epoch) = 3%nat
  /\ decode_payload (Pf:=Samples.browser)
       (second_segment (split_dot Samples.token_epoch))
     = Some (JObj [("exp", JNum 0)])
  /\ 0 * 1000 <= Samples.t_now
  /\ isValidToken (Pf:=Samples.browser) Samples.t_now (JStr Samples.token_epoch)
     = true.
Proof.
  split; [vm_compute; reflexivity|].
  split; [vm_compute; reflexivity|].
  split; [vm_compute; discriminate|].
  vm_compute; reflexivity.
Qed.

(** ** [logout] and [refreshAuthToken] *)

Section Logout.
Context {Pf : Platform}.

Lemma cleared_lookup (store : gmap string string) :
  cleared store !! "token" = None
  /\ cleared store !! "refreshToken" = None
  /\ cleared store !! "oauth_state" = None.
Proof.
  unfold cleared. repeat split.
  - rewrite lookup_delete_ne by discriminate.
    rewrite lookup_delete_ne by discriminate. apply lookup_delete_eq.
  - rewrite lookup_delete_ne by discriminate. apply lookup_delete_eq.
  - apply lookup_delete_eq.
Qed.

Lemma cleared_idempotent (store : gmap string string) :
  cleared (cleared store) = cleared store.
Proof.
  unfold cleared. apply map_eq. intros k.
  rewrite !lookup_delete. repeat case_decide; reflexivity.
Qed.

Lemma logout_run (seen : JsValue) (w : World) :
  logout seen w =
  (Ret tt,
   let newLog :=
     firstn 100 (build_entry (clock w) "user_logout"
                             [(KUserId, optional_id seen)] :: securityLog w) in
   mkWorld (clock w) JNull None newLog (cleared (localStorage w)) (Some newLog)
           (timers w) (deferred w) (api_calls w) (redirected w)).
Proof. reflexivity. Qed.

(** C6.  After one [logout] the user and the expiry are [null] and the
    items [token], [refreshToken] and [oauth_state] are gone; a second
    [logout] right after it returns normally and leaves all of that, and
    the whole of [localStorage], as the first one left it.  (The second
    call differs from doing nothing only by the [user_logout] entry that
    it puts in the log.) *)
Theorem logout_idempotent (seen1 seen2 : JsValue) (w : World) :
  let w1 := exec (logout seen1) w in
  let w2 := exec (logout seen2) w1 in
  session_state w1 = (JNull, None, None, None, None)
  /\ session_state w2 = session_state w1
  /\ localStorage w2 = localStorage w1
  /\ eval (logout seen1) w = Ret tt
  /\ eval (logout seen2) w1 = Ret tt
  /\ (let log2 := firstn 100 (build_entry (clock w1) "user_logout"
                                 [(KUserId, optional_id seen2)] :: securityLog w1) in
      w2 = set_securityLog log2 (set_savedLog (Some log2) w1)).
Proof.
  intros w1 w2. subst w2 w1. unfold exec, eval. rewrite !logout_run.
  cbn [fst snd]. cbv zeta.
  unfold session_state, set_securityLog, set_savedLog.
  cbn [user sessionExpiry localStorage clock securityLog savedLog timers
       deferred api_calls redirected].
  rewrite cleared_idempotent.
  destruct (cleared_lookup (localStorage w)) as (Ht & Hr & Ho).
  rewrite Ht, Hr, Ho. repeat split.
Qed.



End Logout.


(** ** [login] with a token that fails validation *)

Section LoginInvalidToken.
Context {Pf : Platform}.

(** A value with one readable property has all of them readable. *)
Lemma get_prop_defined (data : JsValue) (k k' : string) (v : JsValue) :
  get_prop data k = Some v -> exists v', get_prop data k' = Some v'.
Proof. destruct data; simpl; intros Hk; try discriminate; eauto. Qed.



(** The log entry that [login] leaves pending does not touch the session
    when the address lookup completes. *)
Lemma resolve_ip_keeps_session (now : Z) (ip : JsValue) (i : nat) (w : World) :
  session_state (exec (resolve_ip now ip i) w) = session_state w.
Proof.
  unfold exec, resolve_ip. mrun.
  destruct (nth_error (deferred w) i); reflexivity.
Qed.

End LoginInvalidToken.


(** ** The session scheduler *)

Section Scheduler.
Context {Pf : Platform}.



(** A valid token is a string whose middle segment decodes. *)
Lemma valid_token_well_formed (now : Z) (tok : JsValue) :
  isValidToken now tok = true ->
  exists s payload,
    tok = JStr s
    /\ length (split_dot s) = 3%nat
    /\ decode_payload (second_segment (split_dot s)) = Some payload.
Proof.
  unfold isValidToken. destruct tok as [| | | |s| |]; try discriminate.
  destruct (String.eqb s ""); [discriminate|].
  destruct (Nat.eqb_spec (length (split_dot s)) 3) as [Hlen|]; [|discriminate].
  cbn [negb].
  destruct (decode_payload _) as [payload|] eqn:Hdec; [|discriminate].
  intros _. exists s, payload.
  split; [reflexivity|]. split; [exact Hlen|exact Hdec].
Qed.


End Scheduler.


(** ** Relations that every step of a computation respects *)

Section Frames.
Variable R : World -> World -> Prop.
Hypothesis R_refl : forall w, R w w.
Hypothesis R_trans : forall w1 w2 w3, R w1 w2 -> R w2 w3 -> R w1 w3.

Lemma respects_ret {A} (a : A) : respects R (ret a).
Proof. intros w. apply R_refl. Qed.

Lemma respects_throw {A} (e : JsError) : respects R (@throw A e).
Proof. intros w. apply R_refl. Qed.

Lemma respects_gets {A} (f : World -> A) : respects R (gets f).
Proof. intros w. apply R_refl. Qed.

Lemma respects_lift {A} (e : JsError) (o : option A) : respects R (lift e o).
Proof. destruct o; [apply respects_ret|apply respects_throw]. Qed.

Lemma respects_modify (f : World -> World) :
  (forall w, R w (f w)) -> respects R (modify f).
Proof. intros Hf w. apply Hf. Qed.

Lemma respects_bind {A B} (m : M A) (k : A -> M B) :
  respects R m -> (forall a, respects R (k a)) -> respects R (bind m k).
Proof.
  intros Hm Hk w. unfold exec, bind.
  specialize (Hm w). unfold exec in Hm.
  destruct (m w) as [[a|e] w1]; cbn [snd] in *.
  - eapply R_trans; [exact Hm|]. apply Hk.
  - exact Hm.
Qed.

Lemma respects_try_catch {A} (body : M A) (handler : JsError -> M A) :
  respects R body -> (forall e, respects R (handler e)) ->
  respects R (try_catch body handler).
Proof.
  intros Hb Hh w. unfold exec, try_catch.
  specialize (Hb w). unfold exec in Hb.
  destruct (body w) as [[a|e] w1]; cbn [snd] in *.
  - exact Hb.
  - eapply R_trans; [exact Hb|]. apply Hh.
Qed.

End Frames.

(** ** Pending timers are never cancelled *)

Section Timers.
Context {Pf : Platform}.












End Timers.

Section TimersFire.
Context {Pf : Platform}.




End TimersFire.



(** ** The view of the log *)

Section LogView.
Context {Pf : Platform}.



End LogView.



(** ** Sample runs *)

Example split_three : split_dot "aa.bb.cc" = ["aa"; "bb"; "cc"].
Proof. reflexivity. Qed.

Example split_empty : split_dot "" = [""].
Proof. reflexivity. Qed.

Example split_trailing : split_dot "a..b." = ["a"; ""; "b"; ""].
Proof. reflexivity. Qed.

Example atob_padded : atob "aGVsbG8=" = Some "hello".
Proof. reflexivity. Qed.

Example atob_unpadded : atob "aGVsbG8" = Some "hello".
Proof. reflexivity. Qed.

Example atob_of_undefined : atob "undefined" = None.
Proof. reflexivity. Qed.

Example atob_url_alphabet : atob "a-b_" = None.
Proof. reflexivity. Qed.

Example includes_token : includes "token" "invalid_token_cleared" = true.
Proof. reflexivity. Qed.

Example includes_nothing : includes "logout" "login_attempt" = false.
Proof. reflexivity. Qed.

Example token_1h_valid :
  isValidToken (Pf:=Samples.browser) Samples.t_now (JStr Samples.token_1h) = true.
Proof. vm_compute. reflexivity. Qed.

Example token_past_refused :
  isValidToken (Pf:=Samples.browser) Samples.t_now (JStr Samples.token_past) = false.
Proof. vm_compute. reflexivity. Qed.

Example token_at_expiry_refused :
  isValidToken (Pf:=Samples.browser) 1700003600000 (JStr Samples.token_1h) = false.
Proof. vm_compute. reflexivity. Qed.

Example token_two_segments_refused :
  isValidToken (Pf:=Samples.browser) Samples.t_now (JStr "eyJhbGciOiJIUzI1NiJ9.sig")
  = false.
Proof. vm_compute. reflexivity. Qed.

Example build_entry_defaults :
  fields (build_entry (Pf:=Samples.browser) 5 "login_attempt"
                      [(KEmail, JStr "ana@example.com")])
  = [(KIp, JStr "unknown"); (KLocation, JStr "unknown");
     (KEmail, JStr "ana@example.com")].
Proof. reflexivity. Qed.

Example login_success_run :
  let w := Samples.after_login in
  user w = JObj [("id", JStr "u1")]
  /\ localStorage w !! "token" = Some Samples.token_1h
  /\ localStorage w !! "refreshToken" = Some Samples.token_2h
  /\ sessionExpiry w = Some (Num 1700003600000)
  /\ List.map action (securityLog w) = ["login_attempt"]
  /\ List.map df_action (deferred w) = ["login_success"]
  /\ api_calls w = [PostLogin "ana@example.com" "secret"].
Proof. vm_compute. repeat split. Qed.

Example login_refused_run :
  let m := login (Pf:=Samples.browser) (Samples.t_now + 200)
                 "zed@example.com" "secret" in
  eval m (Samples.fresh Samples.t_now)
  = Ret (mkAuthResult false (Some (JStr "Invalid credentials")) None)
  /\ redirected (exec m (Samples.fresh Samples.t_now)) = true.
Proof. vm_compute. repeat split. Qed.

Example decode_claims :
  decode_payload (Pf:=Samples.browser) "eyJleHAiOjE3MDAwMDM2MDB9"
  = Some (JObj [("exp", JNum 1700003600)]).
Proof. vm_compute. reflexivity. Qed.

Example decode_null_claims :
  decode_payload (Pf:=Samples.browser) "bnVsbA==" = Some JNull
  /\ isValidToken (Pf:=Samples.browser) Samples.t_now
       (JStr "eyJhbGciOiJIUzI1NiJ9.bnVsbA==.sig") = false.
Proof. vm_compute. repeat split. Qed.

Example refresh_run :
  let w := Samples.after_refresh in
  localStorage w !! "token" = Some Samples.token_2h
  /\ sessionExpiry w = Some (Num 1700007200000)
  /\ List.map action (securityLog w) = ["token_refreshed"; "login_attempt"]
  /\ api_calls w = [PostLogin "ana@example.com" "secret";
                    PostRefresh Samples.token_2h].
Proof. vm_compute. repeat split. Qed.

(** ** Operations that never throw *)

Section Returns.
Context {Pf : Platform}.

Lemma returns_ret {A} (a : A) : returns (ret a).
Proof. intros w. exists a. reflexivity. Qed.

Lemma returns_gets {A} (f : World -> A) : returns (gets f).
Proof. intros w. exists (f w). reflexivity. Qed.

Lemma returns_modify (f : World -> World) : returns (modify f).
Proof. intros w. exists tt. reflexivity. Qed.

Lemma returns_bind {A B} (m : M A) (k : A -> M B) :
  returns m -> (forall a, returns (k a)) -> returns (bind m k).
Proof.
  intros Hm Hk w. destruct (Hm w) as [a Ha]. unfold eval, bind in *.
  destruct (m w) as [o w1]. cbn [fst] in Ha. subst o. apply Hk.
Qed.

(** A [try] whose handler never throws never throws. *)
Lemma returns_try_catch {A} (body : M A) (handler : JsError -> M A) :
  (forall e, returns (handler e)) -> returns (try_catch body handler).
Proof.
  intros Hh w. unfold eval, try_catch.
  destruct (body w) as [[a|e] w1].
  - exists a. reflexivity.
  - apply Hh.
Qed.

End Returns.

Ltac returns_steps :=
  cbv zeta;
  repeat first
    [ apply returns_ret
    | apply returns_gets
    | apply returns_modify
    | apply returns_try_catch; intro
    | apply returns_bind; [|intro]
    | match goal with
      | |- returns (if ?b then _ else _) => destruct b
      | |- returns (match ?x with _ => _ end) => destruct x
      end ].

Section NeverThrow.
Context {Pf : Platform}.

Lemma addSecurityLog_returns (act : string) (details : Details) :
  returns (addSecurityLog act details).
Proof. unfold addSecurityLog. returns_steps. Qed.

Lemma logout_returns (seen : JsValue) : returns (logout seen).
Proof. unfold logout, removeItem. returns_steps. Qed.

Lemma setSession_returns (tok : JsValue) : returns (setSession tok).
Proof. unfold setSession. returns_steps. Qed.

(** Every operation that the provider hands to the view returns its result
    object, or nothing, whatever the state, the arguments and the reply:
    none of them throws. *)
Theorem auth_operations_never_throw :
  (forall t1 email password, returns (login t1 email password))
  /\ (forall t1 reply userData, returns (register t1 reply userData))
  /\ (forall t1 reply provider, returns (loginWithOAuth t1 reply provider))
  /\ (forall t1, returns (refreshAuthToken t1))
  /\ (forall t1 reply email, returns (requestPasswordReset t1 reply email))
  /\ (forall t1 reply, returns (resetPassword t1 reply))
  /\ (forall t1 reply, returns (changePassword t1 reply))
  /\ (forall seen, returns (logout seen))
  /\ (forall visible, returns (handleVisibilityChange visible)).
Proof.
  repeat split; intros.
  - unfold login, login_catch, defer_log. returns_steps.
  - unfold register, register_catch, defer_log. returns_steps.
  - unfold loginWithOAuth, oauth_catch, defer_log. returns_steps.
  - unfold refreshAuthToken, refresh_catch. returns_steps.
  - unfold requestPasswordReset. returns_steps.
  - unfold resetPassword. returns_steps.
  - unfold changePassword. returns_steps.
  - apply logout_returns.
  - unfold handleVisibilityChange, getItem. returns_steps.
Qed.

End NeverThrow.

(** ** The log is only added to, and its stored copy follows it *)

Section LogFrames.
Context {Pf : Platform}.















End LogFrames.

(** ** The stored copy of the log *)

Section LogSaved.
Context {Pf : Platform}.

Lemma filter_defined_twice (d : Details) :
  List.filter (fun kv => negb (is_undefined (snd kv)))
    (List.filter (fun kv => negb (is_undefined (snd kv))) d)
  = List.filter (fun kv => negb (is_undefined (snd kv))) d.
Proof.
  induction d as [|kv d IH]; [reflexivity|]. cbn [List.filter].
  destruct (negb (is_undefined (snd kv))) eqn:Hkv; [|exact IH].
  cbn [List.filter]. rewrite Hkv, IH. reflexivity.
Qed.

Lemma reloaded_idempotent (e : LogEntry) : reloaded (reloaded e) = reloaded e.
Proof.
  unfold reloaded. cbn [timestamp action userAgent fields].
  rewrite filter_defined_twice. reflexivity.
Qed.

Lemma keeps_log_saved_refl (w : World) : keeps_log_saved w w.
Proof. intros Hs. exact Hs. Qed.

Lemma keeps_log_saved_trans (w1 w2 w3 : World) :
  keeps_log_saved w1 w2 -> keeps_log_saved w2 w3 -> keeps_log_saved w1 w3.
Proof. intros H12 H23 Hs. apply H23, H12, Hs. Qed.

Ltac saved_steps :=
  frame_steps (@respects_ret keeps_log_saved keeps_log_saved_refl)
              (@respects_throw keeps_log_saved keeps_log_saved_refl)
              (@respects_gets keeps_log_saved keeps_log_saved_refl)
              (@respects_lift keeps_log_saved keeps_log_saved_refl)
              (@respects_bind keeps_log_saved keeps_log_saved_trans)
              (@respects_try_catch keeps_log_saved keeps_log_saved_trans);
  try (apply (respects_modify keeps_log_saved); intros w0;
       unfold keeps_log_saved, log_saved;
       first [ intros Hs; exact Hs | intros _; reflexivity ]).

Lemma setSession_keeps_saved (tok : JsValue) :
  respects keeps_log_saved (setSession tok).
Proof. unfold setSession, setTimeout. saved_steps. Qed.

Lemma logout_keeps_saved (seen : JsValue) : respects keeps_log_saved (logout seen).
Proof. unfold logout, removeItem. saved_steps. Qed.

Lemma api_post_keeps_saved (t1 : Z) (req : ApiRequest) :
  respects keeps_log_saved (api_post t1 req).
Proof. unfold api_post, removeItem. saved_steps. Qed.

Lemma await_reply_keeps_saved (t1 : Z) (reply : ApiResponse) :
  respects keeps_log_saved (await_reply t1 reply).
Proof. unfold await_reply, removeItem. saved_steps. Qed.

Lemma operations_keep_saved :
  (forall t1 email password, respects keeps_log_saved (login t1 email password))
  /\ (forall t1 reply userData, respects keeps_log_saved (register t1 reply userData))
  /\ (forall t1 reply provider, respects keeps_log_saved (loginWithOAuth t1 reply provider))
  /\ (forall t1, respects keeps_log_saved (refreshAuthToken t1))
  /\ (forall t1 reply email, respects keeps_log_saved (requestPasswordReset t1 reply email))
  /\ (forall t1 reply, respects keeps_log_saved (resetPassword t1 reply))
  /\ (forall t1 reply, respects keeps_log_saved (changePassword t1 reply))
  /\ (forall visible, respects keeps_log_saved (handleVisibilityChange visible))
  /\ (forall t1 reply, respects keeps_log_saved (try_catch (fetchUser_try t1 reply) fetchUser_catch))
  /\ (forall tok, respects keeps_log_saved (clear_invalid_token tok))
  /\ (forall now i, respects keeps_log_saved (fire_timer now i))
  /\ (forall now ip i, respects keeps_log_saved (resolve_ip now ip i)).
Proof.
  repeat split; intros.
  - unfold login, login_try, login_catch, defer_log, setItem.
    saved_steps;
      try first [ apply api_post_keeps_saved | apply setSession_keeps_saved ].
  - unfold register, register_try, register_catch, defer_log, setItem.
    saved_steps;
      try first [ apply await_reply_keeps_saved | apply setSession_keeps_saved ].
  - unfold loginWithOAuth, oauth_try, oauth_catch, defer_log, setItem.
    saved_steps;
      try first [ apply await_reply_keeps_saved | apply setSession_keeps_saved ].
  - unfold refreshAuthToken, refresh_try, refresh_catch, getItem, setItem.
    saved_steps;
      try first [ apply api_post_keeps_saved | apply setSession_keeps_saved
                | apply logout_keeps_saved ].
  - unfold requestPasswordReset. saved_steps; try apply await_reply_keeps_saved.
  - unfold resetPassword. saved_steps; try apply await_reply_keeps_saved.
  - unfold changePassword. saved_steps; try apply await_reply_keeps_saved.
  - unfold handleVisibilityChange, getItem.
    saved_steps; try apply logout_keeps_saved.
  - unfold fetchUser_try, fetchUser_catch, getItem, defer_log.
    saved_steps;
      try first [ apply await_reply_keeps_saved | apply setSession_keeps_saved
                | apply logout_keeps_saved ].
  - unfold clear_invalid_token, removeItem. saved_steps.
  - unfold fire_timer, auto_logout. saved_steps; try apply logout_keeps_saved.
  - unfold resolve_ip. saved_steps.
Qed.

Lemma step_keeps_saved (e : Event) (w : World) : keeps_log_saved w (step e w).
Proof.
  destruct operations_keep_saved
    as (Hl & Hr & Ho & Hf & Hq & Hs & Hc & Hv & _ & _ & Ht & Hi).
  destruct e; cbn [step].
  - apply Hl.
  - apply Hr.
  - apply Ho.
  - apply Hf.
  - apply logout_keeps_saved.
  - apply Hq.
  - apply Hs.
  - apply Hc.
  - apply Hv.
  - apply Ht.
  - apply Hi.
  - intros Hsaved. exact Hsaved.
Qed.

Lemma run_keeps_saved (events : list Event) (w : World) :
  keeps_log_saved w (run events w).
Proof.
  revert w. induction events as [|e r IH]; intros w.
  - apply keeps_log_saved_refl.
  - cbn [run fold_left].
    eapply keeps_log_saved_trans; [apply step_keeps_saved|apply IH].
Qed.

Lemma validate_on_mount_keeps_saved (t1 : Z) (reply : ApiResponse) (p : Provider) :
  keeps_log_saved (world p) (world (validate_on_mount t1 reply p)).
Proof.
  destruct operations_keep_saved
    as (_ & _ & _ & Hf & _ & _ & _ & _ & Hu & Hc & _ & _).
  unfold validate_on_mount. cbv zeta.
  destruct (negb _ && _); [apply Hu|].
  destruct (negb _ && _); [apply Hf|apply Hc].
Qed.

(** A booted provider has its stored log current. *)
Lemma boot_log_saved (now : Z) (store : gmap string string)
      (saved : option (list LogEntry)) :
  log_saved (boot now store saved).
Proof.
  unfold boot, load_securityLog, log_saved. destruct saved as [l|]; cbn.
  - rewrite List.map_map. apply List.map_ext. intros e.
    symmetry. apply reloaded_idempotent.
  - reflexivity.
Qed.

Lemma recent_attempt_reloaded (now : Z) (e : LogEntry) :
  recent_attempt now (reloaded e) = recent_attempt now e.
Proof. reflexivity. Qed.

Lemma recentAttempts_reloaded (now : Z) (l : list LogEntry) :
  recentAttempts now (List.map reloaded l) = List.map reloaded (recentAttempts now l).
Proof.
  unfold recentAttempts. induction l as [|e l IH]; [reflexivity|].
  cbn [List.map List.filter]. rewrite recent_attempt_reloaded.
  destruct (recent_attempt now e); cbn [List.map]; rewrite IH; reflexivity.
Qed.

(** The stored copy follows the log, so a reload does not reset the
    throttle.  From a state whose stored log is current, as that of a
    booted provider is, after any events: the stored log is current;
    and a provider booted from what is then in storage has, entry for
    entry, a log with the same actions and timestamps, so that at every
    reading of the clock it counts as many recent login attempts. *)
Theorem reload_restores_log (events : list Event) (w0 : World) (now : Z) :
  log_saved w0 ->
  let w := run events w0 in
  let w' := boot now (localStorage w) (savedLog w) in
  log_saved w
  /\ List.map action (securityLog w') = List.map action (securityLog w)
  /\ List.map timestamp (securityLog w') = List.map timestamp (securityLog w)
  /\ (forall t, length (recentAttempts t (securityLog w'))
                 = length (recentAttempts t (securityLog w)))
  /\ localStorage w' = localStorage w.
Proof.
  intros H0 w w'.
  assert (Hs : log_saved w) by (apply (run_keeps_saved events w0), H0).
  assert (Hlog : List.map reloaded (securityLog w')
                 = List.map reloaded (securityLog w)).
  { subst w'. unfold boot, load_securityLog. unfold log_saved in Hs.
    cbn [savedLog]. destruct (savedLog w) as [l|]; cbn.
    - rewrite <- Hs. rewrite List.map_map. apply List.map_ext.
      intros e. apply reloaded_idempotent.
    - rewrite Hs. reflexivity. }
  split; [exact Hs|].
  assert (Ha : forall l, List.map action (List.map reloaded l) = List.map action l)
    by (intros l; rewrite List.map_map; reflexivity).
  assert (Ht : forall l, List.map timestamp (List.map reloaded l) = List.map timestamp l)
    by (intros l; rewrite List.map_map; reflexivity).
  split; [rewrite <- (Ha (securityLog w')), Hlog; apply Ha|].
  split; [rewrite <- (Ht (securityLog w')), Hlog; apply Ht|].
  split.
  - intros t.
    rewrite <- (length_map reloaded (recentAttempts t (securityLog w'))).
    rewrite <- (length_map reloaded (recentAttempts t (securityLog w))).
    rewrite <- !recentAttempts_reloaded, Hlog. reflexivity.
  - subst w'. unfold boot, load_securityLog. cbn [savedLog].
    destruct (savedLog w); reflexivity.
Qed.

End LogSaved.

(** ** Only validated bearer tokens are stored *)


Section StoredToken.
Context {Pf : Platform}.
















End StoredToken.

Section StoredTokenInvariant.
Context {Pf : Platform}.



End StoredTokenInvariant.

(** ** Signing in and refreshing, case by case *)

Section SignIn.
Context {Pf : Platform}.


Lemma setSession_frame (tok : JsValue) (w : World) :
  exists w', setSession tok w = (Ret tt, w')
  /\ clock w' = clock w
  /\ user w' = user w
  /\ securityLog w' = securityLog w
  /\ localStorage w' = localStorage w
  /\ savedLog w' = savedLog w
  /\ deferred w' = deferred w
  /\ api_calls w' = api_calls w
  /\ redirected w' = redirected w.
Proof.
  unfold setSession.
  assert (Hsame : forall w0 : World, exists w', (Ret tt, w0) = (Ret tt, w')
  /\ clock w' = clock w0
  /\ user w' = user w0
  /\ securityLog w' = securityLog w0
  /\ localStorage w' = localStorage w0
  /\ savedLog w' = savedLog w0
  /\ deferred w' = deferred w0
  /\ api_calls w' = api_calls w0
  /\ redirected w' = redirected w0).
  { intros w0. eexists. split; [reflexivity|repeat split]. }
  destruct (negb (truthy tok)); [apply Hsame|].
  destruct tok; try apply Hsame.
  unfold lift. mrun.
  destruct (atob _) as [text|]; [|apply Hsame]. mrun.
  destruct (JSON_parse text) as [payload|]; [|apply Hsame]. mrun.
  destruct (get_prop payload "exp") as [exp|]; [|apply Hsame]. mrun.
  destruct (truthy exp); [|apply Hsame]. mrun.
  cbn [clock set_sessionExpiry].
  destruct (num_gt _ 0); [|eexists; split; [reflexivity|repeat split]].
  destruct (num_sub _ 60000) as [|ms]; eexists; (split; [reflexivity|repeat split]).
Qed.

Lemma valid_token_is_string (now : Z) (tok : JsValue) :
  isValidToken now tok = true -> JStr (ToString tok) = tok.
Proof.
  intros Hv. destruct (valid_token_well_formed now tok Hv) as (s & _ & -> & _).
  reflexivity.
Qed.


Lemma setSession_exec (tok : JsValue) (w : World) :
  setSession tok w = (Ret tt, exec (setSession tok) w).
Proof.
  destruct (setSession_frame tok w) as (w' & Hrun & _).
  unfold exec. rewrite Hrun. reflexivity.
Qed.

Lemma with_session_fields (tok rt userData : JsValue) (w : World) :
  let w' := with_session tok rt userData w in
  localStorage w' !! "token" = Some (ToString tok)
  /\ localStorage w' !! "refreshToken"
     = (if truthy rt then Some (ToString rt) else localStorage w !! "refreshToken")
  /\ (forall k, k <> "token" -> k <> "refreshToken" ->
                localStorage w' !! k = localStorage w !! k)
  /\ user w' = userData
  /\ clock w' = clock w
  /\ securityLog w' = securityLog w
  /\ savedLog w' = savedLog w
  /\ deferred w' = deferred w
  /\ api_calls w' = api_calls w
  /\ redirected w' = redirected w.
Proof.
  intros w'. subst w'. unfold with_session.
  match goal with
  | |- context [exec (setSession tok) ?w1] =>
      destruct (setSession_frame tok w1)
        as (w2 & Hrun & Hc & Hu & Hl & Hs & Hsv & Hd & Ha & Hr);
      replace (exec (setSession tok) w1) with w2
        by (unfold exec at 1; rewrite Hrun; reflexivity)
  end.
  rewrite Hc, Hu, Hl, Hs, Hsv, Hd, Ha, Hr. clear Hrun Hc Hu Hl Hs Hsv Hd Ha Hr w2.
  destruct (truthy rt); unfold exec, setItem, modify, ret; cbn.
  - repeat split.
    + rewrite lookup_insert_ne by discriminate. apply lookup_insert_eq.
    + apply lookup_insert_eq.
    + intros k Hk1 Hk2. rewrite !lookup_insert_ne by congruence. reflexivity.
  - repeat split.
    + apply lookup_insert_eq.
    + apply lookup_insert_ne. discriminate.
    + intros k Hk1 Hk2. rewrite !lookup_insert_ne by congruence. reflexivity.
Qed.

Lemma login_succeeds_run (t1 : Z) (email password : string) (w : World)
        (data tok rt : JsValue) :
  (length (recentAttempts (clock w) (securityLog w)) < 5)%nat ->
  backend (PostLogin email password) = Resolve data ->
  get_prop data "token" = Some tok ->
  get_prop data "refreshToken" = Some rt ->
  isValidToken t1 tok = true ->
  let userData := rest_without ["token"; "refreshToken"] data in
  login t1 email password w =
  (Ret (mkAuthResult true None None),
   exec (defer_log "login_success"
           [(KUserId, optional_id userData); (KEmail, JStr email);
            (KMethod, JStr "password")])
        (with_session tok rt userData (awaiting_reply t1 email password w))).
Proof.
  intros Hcount Hreply Htok Hrt Hvalid userData.
  apply Nat.leb_gt in Hcount.
  unfold login, login_try. mrun. rewrite Hcount.
  mrun. rewrite addSecurityLog_run.
  unfold api_post. mrun. rewrite Hreply. mrun.
  rewrite Htok, Hrt. unfold lift. mrun.
  cbn [clock set_clock]. rewrite Hvalid. cbn [negb]. mrun.
  unfold with_session, awaiting_reply.
  destruct (truthy rt); mrun; rewrite setSession_exec; reflexivity.
Qed.


Lemma interceptor_run (status : option Z) (w : World) :
  (match status with
   | Some 401 => removeItem "token" ;; modify (set_redirected true)
   | _ => ret tt
   end) w = (Ret tt, intercepted status w).
Proof.
  destruct status as [z|]; [|reflexivity].
  destruct z as [|p|p]; try reflexivity.
  do 9 (destruct p as [p|p|]; try reflexivity).
Qed.

Lemma intercepted_fields (status : option Z) (w : World) :
  let w' := intercepted status w in
  user w' = user w
  /\ sessionExpiry w' = sessionExpiry w
  /\ timers w' = timers w
  /\ securityLog w' = securityLog w
  /\ savedLog w' = savedLog w
  /\ deferred w' = deferred w
  /\ api_calls w' = api_calls w
  /\ clock w' = clock w
  /\ localStorage w' = (if is_401 status then delete "token" (localStorage w)
                        else localStorage w)
  /\ redirected w' = (if is_401 status then true else redirected w).
Proof.
  unfold intercepted. destruct (is_401 status); repeat split.
Qed.

(** A login that goes through.  When the log holds fewer than five login
    attempts of the last five minutes and the server answers with data
    whose [token] is valid when the reply arrives, [login] returns
    success; the token is stored, and it is the string it was; the
    refresh token of the reply is stored when it is truthy, and the
    stored one is left otherwise; the user is the rest of the data; the
    attempt is in the log, stamped at the time of the call; one request
    was sent; and one [login_success] entry is pending, which goes to the
    front of the log, with the id of the user, when its address lookup
    completes. *)
Theorem login_succeeds (t1 : Z) (email password : string) (w : World)
        (data tok rt : JsValue) :
  (length (recentAttempts (clock w) (securityLog w)) < 5)%nat ->
  backend (PostLogin email password) = Resolve data ->
  get_prop data "token" = Some tok ->
  get_prop data "refreshToken" = Some rt ->
  isValidToken t1 tok = true ->
  let userData := rest_without ["token"; "refreshToken"] data in
  let details := [(KUserId, optional_id userData); (KEmail, JStr email);
                  (KMethod, JStr "password")] in
  let w' := exec (login t1 email password) w in
  eval (login t1 email password) w = Ret (mkAuthResult true None None)
  /\ localStorage w' !! "token" = Some (ToString tok)
  /\ JStr (ToString tok) = tok
  /\ localStorage w' !! "refreshToken"
     = (if truthy rt then Some (ToString rt) else localStorage w !! "refreshToken")
  /\ user w' = userData
  /\ securityLog w'
     = firstn 100 (build_entry (clock w) "login_attempt" [(KEmail, JStr email)]
                     :: securityLog w)
  /\ deferred w' = (deferred w ++ [mkDeferred "login_success" details])%list
  /\ api_calls w' = (api_calls w ++ [PostLogin email password])%list
  /\ (forall now ip,
        let entry := build_entry now "login_success" (details ++ [(KIp, ip)])%list in
        hd_error (securityLog (exec (resolve_ip now ip (length (deferred w))) w'))
        = Some entry
        /\ entry_userId entry = optional_id userData).
Proof.
  intros Hcount Hreply Htok Hrt Hvalid userData details w'.
  pose proof (login_succeeds_run t1 email password w data tok rt
                Hcount Hreply Htok Hrt Hvalid) as Hrun.
  cbv zeta in Hrun. fold userData in Hrun. fold details in Hrun.
  assert (Hw' : w' = exec (defer_log "login_success" details)
                     (with_session tok rt userData (awaiting_reply t1 email password w))).
  { subst w'. unfold exec at 1. rewrite Hrun. reflexivity. }
  assert (He : eval (login t1 email password) w = Ret (mkAuthResult true None None)).
  { unfold eval. rewrite Hrun. reflexivity. }
  clearbody w'. subst w'. clear Hrun.
  destruct (with_session_fields tok rt userData (awaiting_reply t1 email password w))
    as (Ht & Hr & _ & Hu & Hc & Hl & Hsv & Hd & Ha & _).
  set (ws := with_session tok rt userData (awaiting_reply t1 email password w)) in *.
  split; [exact He|].
  split; [exact Ht|].
  split; [apply (valid_token_is_string t1), Hvalid|].
  split; [exact Hr|].
  split; [exact Hu|].
  split; [exact Hl|].
  split; [cbn; rewrite Hd; reflexivity|].
  split; [cbn; rewrite Ha; reflexivity|].
  intros now ip.
  split; [|reflexivity].
  unfold exec, resolve_ip, defer_log. mrun.
  cbn [deferred set_deferred snd]. rewrite Hd.
  change (deferred (awaiting_reply t1 email password w)) with (deferred w).
  rewrite nth_error_app2 by lia. rewrite Nat.sub_diag. cbn [nth_error].
  mrun. rewrite addSecurityLog_run. cbn [snd].
  rewrite addSecurityLog_log. cbn. reflexivity.
Qed.

Lemma login_try_unfold (t1 : Z) (email password : string) :
  login_try t1 email password =
  (let* log := gets securityLog in
   let* now := Date_now in
   if (5 <=? length (recentAttempts now log))%nat then
     addSecurityLog "rate_limit_exceeded" [(KEmail, JStr email)] ;;
     ret rate_limited
   else
     addSecurityLog "login_attempt" [(KEmail, JStr email)] ;;
     let* data := api_post t1 (PostLogin email password) in
     install_from_reply "login_success"
       (fun userData => [(KUserId, optional_id userData); (KEmail, JStr email);
                         (KMethod, JStr "password")]) data).
Proof. reflexivity. Qed.

Lemma register_try_unfold (t1 : Z) (reply : ApiResponse) (userData : JsValue) :
  register_try t1 reply userData =
  (let* email := lift (TypeError "userData.email") (get_prop userData "email") in
   addSecurityLog "registration_attempt" [(KEmail, email)] ;;
   let* data := await_reply t1 reply in
   install_from_reply "registration_success"
     (fun userInfo => [(KUserId, optional_id userInfo); (KEmail, email)]) data).
Proof. reflexivity. Qed.

Lemma oauth_try_unfold (t1 : Z) (reply : ApiResponse) (provider : string) :
  oauth_try t1 reply provider =
  (addSecurityLog "oauth_attempt" [(KProvider, JStr provider)] ;;
   let* data := await_reply t1 reply in
   install_from_reply "oauth_success"
     (fun userData => [(KUserId, optional_id userData);
                       (KProvider, JStr provider)]) data).
Proof. reflexivity. Qed.

(** The data of a reply either installs a session or changes nothing. *)
Lemma install_from_reply_cases (act : string) (details : JsValue -> Details)
      (data : JsValue) (w : World) :
  (exists e, install_from_reply act details data w = (Throw e, w)
             /\ response_message e = JUndefined)
  \/ (exists tok rt,
         get_prop data "token" = Some tok
         /\ get_prop data "refreshToken" = Some rt
         /\ isValidToken (clock w) tok = true
         /\ install_from_reply act details data w =
            (Ret (mkAuthResult true None None),
             exec (defer_log act
                     (details (rest_without ["token"; "refreshToken"] data)))
                  (with_session tok rt
                     (rest_without ["token"; "refreshToken"] data) w))).
Proof.
  unfold install_from_reply, lift. mrun.
  destruct (get_prop data "token") as [tok|] eqn:Htok;
    [|left; eexists; split; reflexivity].
  destruct (get_prop_defined data "token" "refreshToken" tok Htok) as [rt Hrt].
  rewrite Hrt. mrun.
  destruct (isValidToken (clock w) tok) eqn:Hvalid; cbn [negb];
    [|left; eexists; split; reflexivity].
  right. exists tok, rt.
  split; [first [reflexivity|assumption]|].
  split; [first [reflexivity|assumption]|].
  split; [first [reflexivity|assumption]|].
  unfold with_session, exec. mrun.
  destruct (truthy rt); mrun; rewrite !setSession_exec; reflexivity.
Qed.

(** What [login] can do. *)
Lemma login_cases (t1 : Z) (email password : string) (w : World) :
  let w1 := awaiting_reply t1 email password w in
  (* throttled *)
  ((5 <= length (recentAttempts (clock w) (securityLog w)))%nat
   /\ login t1 email password w =
      (Ret rate_limited,
       exec (addSecurityLog "rate_limit_exceeded" [(KEmail, JStr email)]) w))
  (* refused by the server *)
  \/ (exists msg status rm,
         backend (PostLogin email password) = Reject msg status rm
         /\ login t1 email password w =
            (Ret (failure (js_or rm (JStr "Login failed"))),
             exec (defer_log "login_failed"
                     [(KEmail, JStr email);
                      (KReason, js_or rm (JStr "Login failed"))])
                  (intercepted status w1)))
  (* a reply without a valid token *)
  \/ (exists data,
         backend (PostLogin email password) = Resolve data
         /\ login t1 email password w =
            (Ret (failure (JStr "Login failed")),
             exec (defer_log "login_failed"
                     [(KEmail, JStr email); (KReason, JStr "Login failed")]) w1))
  (* a session *)
  \/ (exists data tok rt,
         backend (PostLogin email password) = Resolve data
         /\ get_prop data "token" = Some tok
         /\ get_prop data "refreshToken" = Some rt
         /\ isValidToken t1 tok = true
         /\ login t1 email password w =
            (Ret (mkAuthResult true None None),
             exec (defer_log "login_success"
                     [(KUserId, optional_id (rest_without ["token"; "refreshToken"] data));
                      (KEmail, JStr email); (KMethod, JStr "password")])
                  (with_session tok rt
                     (rest_without ["token"; "refreshToken"] data) w1))).
Proof.
  intros w1.
  destruct (Nat.leb_spec 5 (length (recentAttempts (clock w) (securityLog w))))
    as [Hge|Hlt].
  { left. split; [exact Hge|]. apply login_throttled. exact Hge. }
  right. apply Nat.leb_gt in Hlt.
  unfold login. rewrite login_try_unfold. mrun. rewrite Hlt. mrun.
  rewrite addSecurityLog_run. unfold api_post. mrun.
  destruct (backend (PostLogin email password)) as [data|msg status rm] eqn:Hreply.
  - right. mrun.
    match goal with
    | |- context [install_from_reply ?a ?d data ?w0] =>
        destruct (install_from_reply_cases a d data w0)
          as [(e & Hrun & He)|(tok & rt & Htok & Hrt & Hvalid & Hrun)];
        rewrite Hrun
    end.
    + left. exists data. split; [reflexivity|].
      unfold login_catch. rewrite He. reflexivity.
    + right. exists data, tok, rt. repeat split; assumption.
  - left. exists msg, status, rm. split; [reflexivity|].
    mrun. rewrite interceptor_run. reflexivity.
Qed.


(** What [register] can do. *)
Lemma register_cases (t1 : Z) (reply : ApiResponse) (userData : JsValue) (w : World) :
  (get_prop userData "email" = None
   /\ register t1 reply userData w = (Ret (failure (JStr "Registration failed")), w))
  \/ exists email,
      get_prop userData "email" = Some email
      /\ let w1 := attempt_logged t1 "registration_attempt" [(KEmail, email)] w in
         (exists msg status rm,
             reply = Reject msg status rm
             /\ register t1 reply userData w =
                (Ret (failure (js_or rm (JStr "Registration failed"))),
                 exec (defer_log "registration_failed"
                         [(KEmail, email);
                          (KReason, js_or rm (JStr "Registration failed"))])
                      (intercepted status w1)))
         \/ (exists data,
                reply = Resolve data
                /\ register t1 reply userData w =
                   (Ret (failure (JStr "Registration failed")),
                    exec (defer_log "registration_failed"
                            [(KEmail, email); (KReason, JStr "Registration failed")]) w1))
         \/ (exists data tok rt,
                reply = Resolve data
                /\ get_prop data "token" = Some tok
                /\ get_prop data "refreshToken" = Some rt
                /\ isValidToken t1 tok = true
                /\ register t1 reply userData w =
                   (Ret (mkAuthResult true None None),
                    exec (defer_log "registration_success"
                            [(KUserId, optional_id (rest_without ["token"; "refreshToken"] data));
                             (KEmail, email)])
                         (with_session tok rt
                            (rest_without ["token"; "refreshToken"] data) w1))).
Proof.
  unfold register. rewrite register_try_unfold. unfold register_catch, lift. mrun.
  destruct (get_prop userData "email") as [email|] eqn:Hemail.
  2:{ left. split; reflexivity. }
  right. exists email. split; [reflexivity|].
  mrun. rewrite addSecurityLog_run. unfold await_reply. mrun.
  destruct reply as [data|msg status rm].
  - right. mrun.
    match goal with
    | |- context [install_from_reply ?a ?d data ?w0] =>
        destruct (install_from_reply_cases a d data w0)
          as [(e & Hrun & He)|(tok & rt & Htok & Hrt & Hvalid & Hrun)];
        rewrite Hrun
    end.
    + left. exists data. split; [reflexivity|]. rewrite He. reflexivity.
    + right. exists data, tok, rt. repeat split; assumption.
  - left. exists msg, status, rm. split; [reflexivity|].
    mrun. rewrite interceptor_run. reflexivity.
Qed.

(** What [loginWithOAuth] can do. *)
Lemma oauth_cases (t1 : Z) (reply : ApiResponse) (provider : string) (w : World) :
  let w1 := attempt_logged t1 "oauth_attempt" [(KProvider, JStr provider)] w in
  let fallback := JStr (provider ++ " authentication failed") in
  (exists msg status rm,
      reply = Reject msg status rm
      /\ loginWithOAuth t1 reply provider w =
         (Ret (failure (js_or rm fallback)),
          exec (defer_log "oauth_failed"
                  [(KProvider, JStr provider); (KReason, js_or rm fallback)])
               (intercepted status w1)))
  \/ (exists data,
         reply = Resolve data
         /\ loginWithOAuth t1 reply provider w =
            (Ret (failure fallback),
             exec (defer_log "oauth_failed"
                     [(KProvider, JStr provider); (KReason, fallback)]) w1))
  \/ (exists data tok rt,
         reply = Resolve data
         /\ get_prop data "token" = Some tok
         /\ get_prop data "refreshToken" = Some rt
         /\ isValidToken t1 tok = true
         /\ loginWithOAuth t1 reply provider w =
            (Ret (mkAuthResult true None None),
             exec (defer_log "oauth_success"
                     [(KUserId, optional_id (rest_without ["token"; "refreshToken"] data));
                      (KProvider, JStr provider)])
                  (with_session tok rt
                     (rest_without ["token"; "refreshToken"] data) w1))).
Proof.
  intros w1 fallback.
  unfold loginWithOAuth. rewrite oauth_try_unfold. unfold oauth_catch. mrun.
  rewrite addSecurityLog_run. unfold await_reply. mrun.
  destruct reply as [data|msg status rm].
  - right. mrun.
    match goal with
    | |- context [install_from_reply ?a ?d data ?w0] =>
        destruct (install_from_reply_cases a d data w0)
          as [(e & Hrun & He)|(tok & rt & Htok & Hrt & Hvalid & Hrun)];
        rewrite Hrun
    end.
    + left. exists data. split; [reflexivity|]. rewrite He. reflexivity.
    + right. exists data, tok, rt. repeat split; assumption.
  - left. exists msg, status, rm. split; [reflexivity|].
    mrun. rewrite interceptor_run. reflexivity.
Qed.


(** The session after a failed sign-in. *)
Lemma failed_sign_in_keeps_session (w w1 : World) (status : option Z)
      (act : string) (details : Details) :
  user w1 = user w -> sessionExpiry w1 = sessionExpiry w ->
  timers w1 = timers w -> localStorage w1 = localStorage w ->
  session_kept_or_token_dropped w
    (exec (defer_log act details) (intercepted status w1)).
Proof.
  intros Hu He Ht Hl.
  destruct (intercepted_fields status w1)
    as (Hu' & He' & Ht' & _ & _ & _ & _ & _ & Hl' & _).
  unfold session_kept_or_token_dropped, exec, defer_log, modify.
  cbn [snd user sessionExpiry timers localStorage set_deferred].
  rewrite Hu', He', Ht', Hl', Hu, He, Ht, Hl.
  repeat split. destruct (is_401 status); [right|left]; reflexivity.
Qed.

Lemma failed_sign_in_keeps_session' (w w1 : World)
      (act : string) (details : Details) :
  user w1 = user w -> sessionExpiry w1 = sessionExpiry w ->
  timers w1 = timers w -> localStorage w1 = localStorage w ->
  session_kept_or_token_dropped w (exec (defer_log act details) w1).
Proof.
  intros Hu He Ht Hl.
  apply (failed_sign_in_keeps_session w w1 None act details Hu He Ht Hl).
Qed.

(** The session after a successful sign-in. *)
Lemma sign_in_installs_session (t : Z) (tok rt data : JsValue) (keys : list string)
      (act : string) (details : Details) (w1 : World) :
  isValidToken t tok = true ->
  let w' := exec (defer_log act details)
                 (with_session tok rt (rest_without keys data) w1) in
  exists s, localStorage w' !! "token" = Some s
            /\ isValidToken t (JStr s) = true
            /\ truthy (user w') = true.
Proof.
  intros Hvalid w'.
  destruct (with_session_fields tok rt (rest_without keys data) w1)
    as (Ht & _ & _ & Hu & _).
  exists (ToString tok). subst w'.
  change (localStorage (exec (defer_log act details)
                          (with_session tok rt (rest_without keys data) w1)))
    with (localStorage (with_session tok rt (rest_without keys data) w1)).
  change (user (exec (defer_log act details)
                  (with_session tok rt (rest_without keys data) w1)))
    with (user (with_session tok rt (rest_without keys data) w1)).
  split; [exact Ht|]. split.
  - rewrite (valid_token_is_string t tok Hvalid). exact Hvalid.
  - rewrite Hu. destruct data; reflexivity.
Qed.

(** [login], [register] and [loginWithOAuth] sign in completely or not at
    all.  Each returns a result; on success the stored bearer token is
    valid at the time of the reply and a user is set; on failure the
    user, the expiry, the timers and the stored items are as before,
    except that the response interceptor may have removed the bearer
    token. *)
Theorem sign_in_all_or_nothing :
  (forall t1 email password, all_or_nothing t1 (login t1 email password))
  /\ (forall t1 reply userData, all_or_nothing t1 (register t1 reply userData))
  /\ (forall t1 reply provider, all_or_nothing t1 (loginWithOAuth t1 reply provider)).
Proof.
  split; [|split].
  - intros t1 email password w w'. subst w'. unfold exec at 1 2 3, eval.
    destruct (login_cases t1 email password w)
      as [(_ & Hrun)|[(msg & status & rm & _ & Hrun)
                     |[(data & _ & Hrun)
                      |(data & tok & rt & _ & _ & _ & Hvalid & Hrun)]]];
      rewrite Hrun; cbn [fst snd]; eexists; (split; [reflexivity|]).
    + right. split; [reflexivity|]. repeat split. left. reflexivity.
    + right. split; [reflexivity|].
      apply failed_sign_in_keeps_session; reflexivity.
    + right. split; [reflexivity|].
      apply failed_sign_in_keeps_session'; reflexivity.
    + left. split; [reflexivity|].
      apply (sign_in_installs_session t1). exact Hvalid.
  - intros t1 reply userData w w'. subst w'. unfold exec at 1 2 3, eval.
    destruct (register_cases t1 reply userData w)
      as [(_ & Hrun)|(email & _ & [(msg & status & rm & _ & Hrun)
                     |[(data & _ & Hrun)
                      |(data & tok & rt & _ & _ & _ & Hvalid & Hrun)]])];
      rewrite Hrun; cbn [fst snd]; eexists; (split; [reflexivity|]).
    + right. split; [reflexivity|]. repeat split. left. reflexivity.
    + right. split; [reflexivity|].
      apply failed_sign_in_keeps_session; reflexivity.
    + right. split; [reflexivity|].
      apply failed_sign_in_keeps_session'; reflexivity.
    + left. split; [reflexivity|].
      apply (sign_in_installs_session t1). exact Hvalid.
  - intros t1 reply provider w w'. subst w'. unfold exec at 1 2 3, eval.
    destruct (oauth_cases t1 reply provider w)
      as [(msg & status & rm & _ & Hrun)
         |[(data & _ & Hrun)
          |(data & tok & rt & _ & _ & _ & Hvalid & Hrun)]];
      rewrite Hrun; cbn [fst snd]; eexists; (split; [reflexivity|]).
    + right. split; [reflexivity|].
      apply failed_sign_in_keeps_session; reflexivity.
    + right. split; [reflexivity|].
      apply failed_sign_in_keeps_session'; reflexivity.
    + left. split; [reflexivity|].
      apply (sign_in_installs_session t1). exact Hvalid.
Qed.


Lemma refresh_cases (t1 : Z) (w : World) :
  (exists m w1,
      refreshAuthToken t1 w =
      (Ret (mkAuthResult false None None), refresh_failed (user w) m w1))
  \/ (exists old data tok nrt,
         localStorage w !! "refreshToken" = Some old
         /\ isValidToken (clock w) (JStr old) = true
         /\ backend (PostRefresh old) = Resolve data
         /\ get_prop data "token" = Some tok
         /\ get_prop data "newRefreshToken" = Some nrt
         /\ isValidToken t1 tok = true
         /\ refreshAuthToken t1 w =
            (Ret (mkAuthResult true None (Some tok)), refreshed t1 old tok nrt w)).
Proof.
  assert (Hend : forall (m : string) (w1 : World),
             (let (o, w2) := addSecurityLog "token_refresh_failed" [(KError, JStr m)] w1 in
              match o with
              | Ret _ =>
                  let (o0, w3) := logout (user w) w2 in
                  match o0 with
                  | Ret _ => (Ret (mkAuthResult false None None), w3)
                  | Throw e => (Throw e, w3)
                  end
              | Throw e => (@Throw AuthResult e, w2)
              end) = (Ret (mkAuthResult false None None), refresh_failed (user w) m w1)).
  { intros m w1. rewrite addSecurityLog_run. rewrite logout_run. reflexivity. }
  unfold refreshAuthToken, refresh_try, refresh_catch. mrun.
  destruct (localStorage w !! "refreshToken") as [old|] eqn:Hold;
    cbn [missing item_value orb].
  2:{ left. exists "Invalid refresh token", w. mrun. apply Hend. }
  destruct (String.eqb old "") eqn:Hempty; cbn [orb].
  { left. exists "Invalid refresh token", w. mrun. apply Hend. }
  destruct (isValidToken (clock w) (JStr old)) eqn:Hvold; cbn [negb].
  2:{ left. exists "Invalid refresh token", w. mrun. apply Hend. }
  cbn [ToString]. unfold api_post. mrun.
  destruct (backend (PostRefresh old)) as [data|msg status rm] eqn:Hreply.
  2:{ left. exists msg, (intercepted status (refresh_sent t1 old w)).
      mrun. rewrite interceptor_run. mrun. apply Hend. }
  unfold lift. mrun.
  destruct (get_prop data "token") as [tok|] eqn:Htok.
  2:{ left. exists "destructure", (refresh_sent t1 old w). mrun. apply Hend. }
  destruct (get_prop_defined data "token" "newRefreshToken" tok Htok) as [nrt Hnrt].
  rewrite Hnrt. mrun. cbn [clock set_clock].
  destruct (isValidToken t1 tok) eqn:Hvalid; cbn [negb].
  2:{ left. exists "Invalid token received", (refresh_sent t1 old w). mrun. apply Hend. }
  right. exists old, data, tok, nrt.
  repeat (split; [first [reflexivity|assumption]|]).
  unfold refreshed, refresh_sent, exec. mrun.
  destruct (truthy nrt); mrun; rewrite !setSession_exec; cbn [snd];
    rewrite !addSecurityLog_run; reflexivity.
Qed.


Lemma refresh_failed_fields (seen : JsValue) (m : string) (w1 : World) :
  let w' := refresh_failed seen m w1 in
  session_state w' = (JNull, None, None, None, None)
  /\ List.map action (firstn 2 (securityLog w'))
     = ["user_logout"; "token_refresh_failed"]
  /\ api_calls w' = api_calls w1.
Proof.
  unfold refresh_failed. unfold exec at 1. rewrite logout_run. cbn [snd]. cbv zeta.
  unfold session_state.
  cbn [user sessionExpiry localStorage securityLog api_calls].
  match goal with
  | |- context [cleared ?store] =>
      destruct (cleared_lookup store) as (Ht & Hr & Ho)
  end.
  rewrite Ht, Hr, Ho. repeat split.
Qed.

Lemma refreshed_fields (t1 : Z) (old : string) (tok nrt : JsValue) (w : World) :
  let w' := refreshed t1 old tok nrt w in
  localStorage w' !! "token" = Some (ToString tok)
  /\ localStorage w' !! "refreshToken"
     = (if truthy nrt then Some (ToString nrt) else localStorage w !! "refreshToken")
  /\ user w' = user w
  /\ hd_error (List.map action (securityLog w')) = Some "token_refreshed"
  /\ api_calls w' = (api_calls w ++ [PostRefresh old])%list
  /\ clock w' = t1.
Proof.
  intros w'. subst w'. unfold refreshed.
  rewrite addSecurityLog_log. cbv zeta.
  cbn [localStorage user securityLog api_calls clock set_securityLog set_savedLog
       List.map firstn hd_error build_entry action].
  match goal with
  | |- context [exec (setSession tok) ?w1] =>
      destruct (setSession_frame tok w1)
        as (w2 & Hrun & Hc & Hu & Hl & Hs & Hsv & Hd & Ha & Hr);
      replace (exec (setSession tok) w1) with w2
        by (unfold exec at 1; rewrite Hrun; reflexivity)
  end.
  rewrite Hc, Hu, Hs, Ha. clear Hrun Hc Hu Hl Hs Hsv Hd Ha Hr w2.
  destruct (truthy nrt); unfold exec, setItem, modify, ret, refresh_sent; cbn.
  - repeat split.
    + rewrite lookup_insert_ne by discriminate. apply lookup_insert_eq.
    + apply lookup_insert_eq.
  - repeat split.
    + apply lookup_insert_eq.
    + apply lookup_insert_ne. discriminate.
Qed.

(** Refreshing ends with a new token or with a logout.
    [refreshAuthToken] returns a result.  When it fails, for whatever
    reason (no valid refresh token is stored, the request is rejected,
    the reply has no valid token), the provider has logged out: user,
    expiry and the three stored items are gone, and
    [token_refresh_failed] and then [user_logout] are in front of the
    log.  When it succeeds, the server has answered the request for the
    stored refresh token with a token that is valid when the reply
    arrives; the result carries that token; it is stored; the stored
    refresh token is replaced when the reply brings a truthy one; the
    user is as before; [token_refreshed] is logged; and one request was
    sent. *)
Theorem refresh_all_or_logout (t1 : Z) (w : World) :
  let w' := exec (refreshAuthToken t1) w in
  exists r,
    eval (refreshAuthToken t1) w = Ret r
    /\ ((success r = false
         /\ session_state w' = (JNull, None, None, None, None)
         /\ List.map action (firstn 2 (securityLog w'))
            = ["user_logout"; "token_refresh_failed"])
        \/ (success r = true
            /\ exists old data tok nrt,
                localStorage w !! "refreshToken" = Some old
                /\ backend (PostRefresh old) = Resolve data
                /\ get_prop data "token" = Some tok
                /\ get_prop data "newRefreshToken" = Some nrt
                /\ token r = Some tok
                /\ isValidToken t1 tok = true
                /\ localStorage w' !! "token" = Some (ToString tok)
                /\ JStr (ToString tok) = tok
                /\ localStorage w' !! "refreshToken"
                   = Some (if truthy nrt then ToString nrt else old)
                /\ user w' = user w
                /\ hd_error (List.map action (securityLog w')) = Some "token_refreshed"
                /\ api_calls w' = (api_calls w ++ [PostRefresh old])%list)).
Proof.
  intros w'. subst w'. unfold exec at 1 2 3 4 5 6 7, eval.
  destruct (refresh_cases t1 w)
    as [(m & w1 & Hrun)
       |(old & data & tok & nrt & Hold & _ & Hreply & Htok & Hnrt & Hvalid & Hrun)];
    rewrite Hrun; cbn [fst snd]; eexists; (split; [reflexivity|]).
  - left. split; [reflexivity|].
    destruct (refresh_failed_fields (user w) m w1) as (Hs & Hl & _).
    split; [exact Hs|exact Hl].
  - right. split; [reflexivity|]. exists old, data, tok, nrt.
    destruct (refreshed_fields t1 old tok nrt w) as (Ht & Hr & Hu & Hl & Ha & _).
    repeat (split; [first [reflexivity|assumption]|]).
    split; [apply (valid_token_is_string t1), Hvalid|].
    split; [rewrite Hr, Hold; destruct (truthy nrt); reflexivity|].
    repeat (split; [assumption|]). assumption.
Qed.


End SignIn.

(** ** The provider over its life: mounting, events, password operations *)

Section Lifetime.
Context {Pf : Platform}.


(** A token only expires: one that [isValidToken] accepts at some reading
    of the clock is accepted at every earlier reading. *)
Theorem token_validity_is_monotone (t t' : Z) (tok : JsValue) :
  isValidToken t tok = true -> t' <= t -> isValidToken t' tok = true.
Proof.
  unfold isValidToken. intros Hv Hle.
  destruct tok as [| | | |s| |]; try discriminate.
  destruct (String.eqb s ""); [discriminate|].
  destruct (negb (length (split_dot s) =? 3)%nat); [discriminate|].
  destruct (decode_payload _) as [payload|]; [|discriminate].
  destruct (get_prop payload "exp") as [exp|]; [|discriminate].
  destruct (truthy exp); [|reflexivity]. cbn [andb] in *.
  destruct (num_mul (ToNumber exp) 1000) as [|n]; [reflexivity|].
  cbn [ge_num] in *.
  destruct (Z.leb_spec n t); [discriminate|].
  destruct (Z.leb_spec n t'); [lia|reflexivity].
Qed.

Lemma logout_after_entry (act : string) (details : Details) (seen : JsValue) (w : World) :
  let w' := exec (logout seen) (exec (addSecurityLog act details) w) in
  session_state w' = (JNull, None, None, None, None)
  /\ securityLog w'
     = firstn 100 (build_entry (clock w) "user_logout" [(KUserId, optional_id seen)]
                   :: firstn 100 (build_entry (clock w) act details :: securityLog w))
  /\ timers w' = timers w
  /\ clock w' = clock w
  /\ api_calls w' = api_calls w
  /\ deferred w' = deferred w
  /\ redirected w' = redirected w
  /\ forall k, k <> "token" -> k <> "refreshToken" -> k <> "oauth_state" ->
               localStorage w' !! k = localStorage w !! k.
Proof.
  intros w'. subst w'.
  rewrite addSecurityLog_log. cbv zeta.
  set (log1 := firstn 100 (build_entry (clock w) act details :: securityLog w)).
  set (w1 := set_securityLog log1 (set_savedLog (Some log1) w)).
  assert (Hw : exec (logout seen) w1 = snd (logout seen w1)) by reflexivity.
  rewrite Hw, logout_run. cbv zeta.
  unfold session_state.
  cbn [snd user sessionExpiry localStorage securityLog timers clock api_calls
       deferred redirected].
  destruct (cleared_lookup (localStorage w1)) as (H1 & H2 & H3).
  rewrite H1, H2, H3.
  repeat split.
  intros k Hk1 Hk2 Hk3. unfold cleared.
  rewrite !lookup_delete_ne by congruence. reflexivity.
Qed.

(** The handler of [visibilitychange].  When the tab becomes visible
    while a user is set and the stored bearer token is missing, empty or
    refused by [isValidToken], the handler logs out: user, expiry and the
    three stored items are gone; [auto_logout] and then [user_logout],
    with the id of that user, are put in front of the log; no timer is
    cancelled and no request is sent.  In every other case (the tab is
    hidden, no user is set, or the token is valid) the handler changes
    nothing at all. *)
Theorem visibility_change_checks_token (visible : bool) (w : World) :
  let w' := exec (handleVisibilityChange visible) w in
  let tok := localStorage w !! "token" in
  if visible && truthy (user w)
     && (missing tok || negb (isValidToken (clock w) (item_value tok)))
  then session_state w' = (JNull, None, None, None, None)
       /\ securityLog w'
          = firstn 100
              (build_entry (clock w) "user_logout" [(KUserId, optional_id (user w))]
               :: firstn 100
                    (build_entry (clock w) "auto_logout"
                       [(KReason, JStr "token_validation_failed")]
                     :: securityLog w))
       /\ timers w' = timers w
       /\ api_calls w' = api_calls w
  else w' = w.
Proof.
  intros w' tok. subst w' tok.
  unfold handleVisibilityChange, getItem. mrun.
  unfold exec. 
  destruct (visible && truthy (user w)); cbn [andb]; [|reflexivity].
  mrun.
  destruct (missing (localStorage w !! "token")
            || negb (isValidToken (clock w) (item_value (localStorage w !! "token"))));
    [|reflexivity].
  mrun. rewrite addSecurityLog_run.
  destruct (logout_after_entry "auto_logout"
              [(KReason, JStr "token_validation_failed")] (user w) w)
    as (Hs & Hl & Ht & _ & Ha & _).
  unfold exec in Hs, Hl, Ht, Ha.
  repeat split; assumption.
Qed.





Lemma await_reply_run (t1 : Z) (reply : ApiResponse) (w : World) :
  await_reply t1 reply w =
  match reply with
  | Resolve data => (Ret data, set_clock t1 w)
  | Reject msg status rm =>
      (Throw (AxiosError msg status rm), intercepted status (set_clock t1 w))
  end.
Proof.
  unfold await_reply. mrun. destruct reply as [data|msg status rm]; [reflexivity|].
  mrun. rewrite interceptor_run. reflexivity.
Qed.

Lemma reports_reply_intro (t1 : Z) (reply : ApiResponse)
      (done failed fallback : string) (d1 : Details) (d2 : JsError -> Details)
      (reason : JsError -> JsValue) :
  (forall msg status rm, reason (AxiosError msg status rm) = js_or rm (JStr fallback)) ->
  reports_reply t1 reply done failed fallback
    (try_catch
       (await_reply t1 reply ;;
        addSecurityLog done d1 ;;
        ret (mkAuthResult true None None))
       (fun error =>
          addSecurityLog failed (d2 error) ;;
          ret (mkAuthResult false (Some (reason error)) None))).
Proof.
  intros Hreason w. cbv zeta. unfold exec, eval. mrun. rewrite await_reply_run.
  destruct reply as [data|msg status rm].
  - rewrite addSecurityLog_run. cbn [fst snd]. rewrite addSecurityLog_log.
    eexists. split; [reflexivity|]. repeat split. left. reflexivity.
  - rewrite addSecurityLog_run. cbn [fst snd]. rewrite addSecurityLog_log.
    rewrite Hreason.
    destruct (intercepted_fields status (set_clock t1 w))
      as (Hu & He & Ht & Hl & _ & _ & _ & Hc & Hs & Hr).
    cbv zeta. cbn [securityLog set_securityLog set_savedLog].
    rewrite Hl, Hc. cbn [securityLog clock set_clock].
    eexists. split; [reflexivity|].
    split; [reflexivity|].
    unfold session_kept_or_token_dropped.
    cbn [user sessionExpiry timers localStorage redirected set_securityLog set_savedLog].
    rewrite Hu, He, Ht, Hs, Hr. cbn [user sessionExpiry timers localStorage redirected set_clock].
    repeat split. destruct (is_401 status); [right|left]; reflexivity.
Qed.

(** [requestPasswordReset], [resetPassword] and [changePassword] report
    the reply to their request.  Accepted, the operation returns success
    and logs its completion, and storage is as before; rejected, it
    returns the message of the server, or its own fallback when the
    server gave none, and logs its failure, and a 401 removes the stored
    bearer token and redirects to the login page.  Either way exactly one
    entry is logged, stamped when the reply arrives, and the user, the
    expiry and the timers are as before. *)
Theorem password_operations_report_reply (t1 : Z) (reply : ApiResponse) :
  (forall email,
      reports_reply t1 reply "password_reset_requested" "password_reset_failed"
        "Failed to request password reset" (requestPasswordReset t1 reply email))
  /\ reports_reply t1 reply "password_reset_completed" "password_reset_error"
       "Failed to reset password" (resetPassword t1 reply)
  /\ reports_reply t1 reply "password_changed" "password_change_failed"
       "Failed to change password" (changePassword t1 reply).
Proof.
  split; [intros email|split].
  - unfold requestPasswordReset.
    apply (reports_reply_intro t1 reply _ _ _ _
             (fun error => [(KEmail, JStr email);
                            (KReason, js_or (response_message error) (JStr "Request failed"))])
             (fun error => js_or (response_message error)
                                 (JStr "Failed to request password reset"))).
    reflexivity.
  - unfold resetPassword.
    apply (reports_reply_intro t1 reply _ _ _ _
             (fun error => [(KReason, js_or (response_message error) (JStr "Reset failed"))])
             (fun error => js_or (response_message error)
                                 (JStr "Failed to reset password"))).
    reflexivity.
  - unfold changePassword.
    apply (reports_reply_intro t1 reply _ _ _ _
             (fun error => [(KReason, js_or (response_message error) (JStr "Change failed"))])
             (fun error => js_or (response_message error)
                                 (JStr "Failed to change password"))).
    reflexivity.
Qed.


Lemma boot_fields (now : Z) (store : gmap string string)
      (saved : option (list LogEntry)) :
  let w := boot now store saved in
  clock w = now /\ user w = JNull /\ sessionExpiry w = None
  /\ localStorage w = store /\ savedLog w = saved /\ timers w = []
  /\ deferred w = [] /\ api_calls w = [] /\ redirected w = false
  /\ securityLog w = match saved with
                     | Some l => List.map reloaded l
                     | None => []
                     end.
Proof.
  unfold boot, load_securityLog. cbn [savedLog].
  destruct saved; repeat split.
Qed.

(** Mounting when neither the stored token nor the stored refresh token
    is accepted by [isValidToken]: loading ends, no user is set, no timer
    is set and no request is sent.  A stored token that is not empty is
    removed, which is logged as [invalid_token_cleared], and nothing else
    is removed; with no stored token, or an empty one, nothing changes. *)
Theorem mount_without_valid_token (now t1 : Z) (reply : ApiResponse)
        (store : gmap string string) (saved : option (list LogEntry)) :
  no_valid now (store !! "token") = true ->
  no_valid now (store !! "refreshToken") = true ->
  let p := mount now t1 reply store saved in
  let w0 := boot now store saved in
  loading p = false
  /\ user (world p) = JNull
  /\ sessionExpiry (world p) = None
  /\ timers (world p) = []
  /\ api_calls (world p) = []
  /\ redirected (world p) = false
  /\ (if missing (store !! "token")
      then world p = w0
      else localStorage (world p) = delete "token" store
           /\ securityLog (world p)
              = firstn 100 (build_entry now "invalid_token_cleared" []
                            :: securityLog w0)).
Proof.
  intros Htok Hrt p w0. subst p w0. unfold no_valid in Htok, Hrt.
  destruct (boot_fields now store saved)
    as (Hc & Hu & He & Hs & Hsv & Ht & Hd & Ha & Hr & Hl).
  unfold mount, validate_on_mount. cbn [world loading].
  rewrite Hs, Hc.
  assert (H1 : negb (missing (store !! "token"))
               && isValidToken now (item_value (store !! "token")) = false).
  { destruct (missing (store !! "token")); [reflexivity|].
    cbn [orb negb andb] in *. apply negb_true_iff in Htok. exact Htok. }
  assert (H2 : negb (missing (store !! "refreshToken"))
               && isValidToken now (item_value (store !! "refreshToken")) = false).
  { destruct (missing (store !! "refreshToken")); [reflexivity|].
    cbn [orb negb andb] in *. apply negb_true_iff in Hrt. exact Hrt. }
  rewrite H1, H2. cbn [world loading].
  unfold clear_invalid_token.
  destruct (missing (store !! "token")).
  - unfold exec, ret. cbn [snd]. repeat split; assumption.
  - unfold exec, removeItem. mrun. rewrite addSecurityLog_run. cbn [snd].
    rewrite addSecurityLog_log. cbv zeta.
    cbn [user sessionExpiry timers api_calls redirected localStorage securityLog
         clock set_securityLog set_savedLog set_localStorage].
    rewrite Hs, Hc. repeat split; assumption.
Qed.


Lemma valid_token_not_missing (now : Z) (s : string) :
  isValidToken now (JStr s) = true -> missing (Some s) = false.
Proof.
  unfold isValidToken, missing. destruct (String.eqb s ""); [discriminate|reflexivity].
Qed.

(** Mounting with a stored token that [isValidToken] accepts: loading
    ends whatever the reply to the user request.  When the request is
    answered, the user is the data of the answer, the stored items and
    the log are as they were, and unless the data is [null] or
    [undefined] one [user_authenticated] entry is pending.  When it is
    rejected, the provider logs out: user, expiry and the three stored
    items are gone, [fetch_user_failed] with the message of the error and
    then [user_logout] are put in front of the log, stamped when the
    reply arrives, and the page is redirected exactly on a 401. *)
Theorem mount_with_valid_token (now t1 : Z) (reply : ApiResponse)
        (store : gmap string string) (saved : option (list LogEntry)) (s : string) :
  store !! "token" = Some s ->
  isValidToken now (JStr s) = true ->
  let p := mount now t1 reply store saved in
  let w0 := boot now store saved in
  loading p = false
  /\ match reply with
     | Resolve data =>
         user (world p) = data
         /\ localStorage (world p) = store
         /\ securityLog (world p) = securityLog w0
         /\ deferred (world p)
            = match get_prop data "id" with
              | Some id => [mkDeferred "user_authenticated"
                              [(KUserId, id); (KMethod, JStr "token")]]
              | None => []
              end
     | Reject msg status rm =>
         session_state (world p) = (JNull, None, None, None, None)
         /\ securityLog (world p)
            = firstn 100
                (build_entry t1 "user_logout" [(KUserId, JUndefined)]
                 :: firstn 100
                      (build_entry t1 "fetch_user_failed" [(KError, JStr msg)]
                       :: securityLog w0))
         /\ redirected (world p) = is_401 status
     end.
Proof.
  intros Hs Hvalid p w0. subst p w0.
  destruct (boot_fields now store saved)
    as (Hc & Hu & He & Hst & Hsv & Ht & Hd & Ha & Hr & Hl).
  unfold mount, validate_on_mount. cbn [world loading].
  rewrite Hst, Hc, Hs. cbn [item_value].
  rewrite (valid_token_not_missing now s Hvalid), Hvalid. cbn [negb andb].
  unfold fetchUser. cbn [world loading]. split; [reflexivity|].
  set (w0 := boot now store saved) in *.
  unfold exec, fetchUser_try, fetchUser_catch, getItem. mrun.
  rewrite Hst, Hc, Hs. cbn [item_value].
  rewrite (valid_token_not_missing now s Hvalid), Hvalid. cbn [negb orb].
  rewrite await_reply_run.
  destruct reply as [data|msg status rm].
  - mrun. rewrite setSession_exec.
    destruct (setSession_frame (JStr s) (set_user data (set_clock t1 w0)))
      as (w2 & Hrun & _ & Hu2 & Hl2 & Hs2 & _ & Hd2 & _).
    replace (exec (setSession (JStr s)) (set_user data (set_clock t1 w0))) with w2
      by (unfold exec; rewrite Hrun; reflexivity).
    destruct (get_prop data "id") as [id|]; unfold defer_log; mrun; cbn [snd];
      cbn [user localStorage securityLog deferred set_deferred];
      rewrite ?Hu2, ?Hl2, ?Hs2, ?Hd2;
      cbn [user localStorage securityLog deferred set_user set_clock];
      rewrite ?Hd, ?Hst; repeat split.
  - cbn [error_message]. rewrite addSecurityLog_run.
    destruct (logout_after_entry "fetch_user_failed" [(KError, JStr msg)] JNull
                (intercepted status (set_clock t1 w0)))
      as (Hsess & Hlog & _ & _ & _ & _ & Hred & _).
    unfold exec in Hsess, Hlog, Hred.
    destruct (intercepted_fields status (set_clock t1 w0))
      as (_ & _ & _ & Hl3 & _ & _ & _ & Hc3 & _ & Hr3).
    rewrite Hc3, Hl3 in Hlog. rewrite Hr3 in Hred.
    cbn [clock securityLog redirected set_clock] in Hlog, Hred.
    rewrite Hr in Hred.
    split; [exact Hsess|]. split; [exact Hlog|].
    transitivity (if is_401 status then true else false); [exact Hred|].
    destruct (is_401 status); reflexivity.
Qed.

(** Mounting with no valid stored token but a stored refresh token that
    [isValidToken] accepts: the provider refreshes, and whatever comes of
    it [loading] stays [true] and no user is set; a bearer token that is
    stored afterwards is valid when the reply arrives. *)
Theorem mount_with_refresh_token_only (now t1 : Z) (reply : ApiResponse)
        (store : gmap string string) (saved : option (list LogEntry)) (s : string) :
  no_valid now (store !! "token") = true ->
  store !! "refreshToken" = Some s ->
  isValidToken now (JStr s) = true ->
  let p := mount now t1 reply store saved in
  loading p = true
  /\ user (world p) = JNull
  /\ (localStorage (world p) !! "token" = None
      \/ exists tok, localStorage (world p) !! "token" = Some tok
                     /\ isValidToken t1 (JStr tok) = true).
Proof.
  intros Htok Hs Hvalid p. subst p. unfold no_valid in Htok.
  destruct (boot_fields now store saved)
    as (Hc & Hu & He & Hst & Hsv & Ht & Hd & Ha & Hr & Hl).
  unfold mount, validate_on_mount. cbn [world loading].
  rewrite Hst, Hc, Hs. cbn [item_value].
  rewrite (valid_token_not_missing now s Hvalid), Hvalid. cbn [negb andb].
  assert (H1 : negb (missing (store !! "token"))
               && isValidToken now (item_value (store !! "token")) = false).
  { destruct (missing (store !! "token")); [reflexivity|].
    cbn [orb negb andb] in *. apply negb_true_iff in Htok. exact Htok. }
  rewrite H1. cbn [world loading]. split; [reflexivity|].
  set (w0 := boot now store saved) in *.
  unfold exec.
  destruct (refresh_cases t1 w0)
    as [(m & w1 & Hrun)
       |(old & data & tok & nrt & Hold & _ & Hreply & Htk & Hnrt & Hv & Hrun)];
    rewrite Hrun; cbn [snd].
  - destruct (refresh_failed_fields (user w0) m w1) as (Hsess & _).
    split.
    + apply (f_equal (fun x => fst (fst (fst (fst x))))) in Hsess. exact Hsess.
    + left. apply (f_equal (fun x => snd (fst (fst x)))) in Hsess. exact Hsess.
  - destruct (refreshed_fields t1 old tok nrt w0) as (Ht1 & _ & Hu1 & _).
    split; [rewrite Hu1; exact Hu|].
    right. exists (ToString tok). split; [exact Ht1|].
    rewrite (valid_token_is_string t1 tok Hv). exact Hv.
Qed.


(** A login that passes the throttle and that the server rejects.  The
    result carries the message of the server, or [Login failed] when it
    gave none; the user, the expiry and the timers are as before; so are
    the stored items, except that on a 401 the response interceptor
    removes the bearer token and redirects to the login page; the attempt
    is in the log, one request was sent and one [login_failed] entry with
    the reason is pending. *)
Theorem login_refused (t1 : Z) (email password : string) (w : World)
        (msg : string) (status : option Z) (rm : JsValue) :
  (length (recentAttempts (clock w) (securityLog w)) < 5)%nat ->
  backend (PostLogin email password) = Reject msg status rm ->
  let reason := js_or rm (JStr "Login failed") in
  let w' := exec (login t1 email password) w in
  eval (login t1 email password) w = Ret (failure reason)
  /\ user w' = user w
  /\ sessionExpiry w' = sessionExpiry w
  /\ timers w' = timers w
  /\ localStorage w'
     = (if is_401 status then delete "token" (localStorage w) else localStorage w)
  /\ redirected w' = (if is_401 status then true else redirected w)
  /\ securityLog w'
     = firstn 100 (build_entry (clock w) "login_attempt" [(KEmail, JStr email)]
                   :: securityLog w)
  /\ deferred w'
     = (deferred w ++ [mkDeferred "login_failed"
                         [(KEmail, JStr email); (KReason, reason)]])%list
  /\ api_calls w' = (api_calls w ++ [PostLogin email password])%list.
Proof.
  intros Hcount Hreply reason w'. subst reason w'. unfold exec, eval.
  destruct (login_cases t1 email password w)
    as [(Hge & _)
       |[(msg' & status' & rm' & Hreply' & Hrun)
        |[(data & Hreply' & _)|(data & tok & rt & Hreply' & _)]]];
    try lia; try congruence.
  rewrite Hreply in Hreply'. injection Hreply' as <- <- <-.
  rewrite Hrun. cbn [fst snd].
  destruct (intercepted_fields status (awaiting_reply t1 email password w))
    as (Hu & He & Ht & Hl & _ & Hd & Ha & _ & Hs & Hr).
  unfold exec, defer_log. mrun. cbn [snd].
  cbn [user sessionExpiry timers localStorage redirected securityLog deferred
       api_calls set_deferred].
  rewrite Hu, He, Ht, Hl, Hd, Ha, Hs, Hr.
  repeat split.
Qed.









(** [register] is not throttled.  For user data with a readable [email]
    and a reply whose [token] is valid when it arrives, it returns
    success from every state; the token and the refresh token are stored
    as by [login], the user is the rest of the data, the attempt is put
    in front of the log and one [registration_success] entry is
    pending. *)
Theorem register_succeeds (t1 : Z) (userData email data tok rt : JsValue) (w : World) :
  get_prop userData "email" = Some email ->
  get_prop data "token" = Some tok ->
  get_prop data "refreshToken" = Some rt ->
  isValidToken t1 tok = true ->
  let userInfo := rest_without ["token"; "refreshToken"] data in
  let w' := exec (register t1 (Resolve data) userData) w in
  eval (register t1 (Resolve data) userData) w = Ret (mkAuthResult true None None)
  /\ localStorage w' !! "token" = Some (ToString tok)
  /\ localStorage w' !! "refreshToken"
     = (if truthy rt then Some (ToString rt) else localStorage w !! "refreshToken")
  /\ user w' = userInfo
  /\ securityLog w'
     = firstn 100 (build_entry (clock w) "registration_attempt" [(KEmail, email)]
                   :: securityLog w)
  /\ deferred w'
     = (deferred w ++ [mkDeferred "registration_success"
                         [(KUserId, optional_id userInfo); (KEmail, email)]])%list.
Proof.
  intros Hemail Htok Hrt Hvalid userInfo w'. subst userInfo w'. unfold exec at 1 2 3 4 5, eval.
  destruct (register_cases t1 (Resolve data) userData w)
    as [(Hnone & _)
       |(email' & Hemail' & [(msg & status & rm & Hreply & _)
                            |[(data' & Hreply & Hrun)
                             |(data' & tok' & rt' & Hreply & Htok' & Hrt' & _ & Hrun)]])];
    try congruence.
  - exfalso. injection Hreply as <-.
    rewrite Hemail in Hemail'. injection Hemail' as <-.
    unfold register in Hrun. rewrite register_try_unfold in Hrun.
    unfold lift in Hrun. revert Hrun. mrun. rewrite Hemail. mrun.
    rewrite addSecurityLog_run, await_reply_run.
    match goal with
    | |- context [install_from_reply ?a ?d data ?w0] =>
        destruct (install_from_reply_cases a d data w0)
          as [(e & Hrun' & He)|(tok' & rt' & Htok' & Hrt' & Hvalid' & Hrun')]
    end.
    + revert Hrun'. unfold install_from_reply, lift. mrun.
      rewrite Htok, Hrt. mrun. cbn [clock set_clock]. rewrite Hvalid. cbn [negb].
      mrun. destruct (truthy rt); mrun; rewrite ?setSession_exec; discriminate.
    + rewrite Hrun'. discriminate.
  - injection Hreply as <-.
    rewrite Hemail in Hemail'. injection Hemail' as <-.
    rewrite Htok in Htok'. injection Htok' as <-.
    rewrite Hrt in Hrt'. injection Hrt' as <-.
    rewrite Hrun. cbn [fst snd].
    set (w1 := attempt_logged t1 "registration_attempt" [(KEmail, email)] w).
    destruct (with_session_fields tok rt (rest_without ["token"; "refreshToken"] data) w1)
      as (Ht & Hr & _ & Hu & _ & Hl & _ & Hd & _).
    split; [reflexivity|].
    split; [exact Ht|].
    split; [exact Hr|].
    split; [exact Hu|].
    split.
    + transitivity (securityLog w1); [|reflexivity]. rewrite <- Hl. reflexivity.
    + unfold exec at 1, defer_log. mrun. cbn [snd deferred set_deferred].
      rewrite Hd. reflexivity.
Qed.

(** [register] called with [null] or [undefined] returns the failure
    [Registration failed] and leaves the state as it is: whatever the
    reply, nothing is logged, stored or left pending. *)
Theorem register_without_user_data (t1 : Z) (reply : ApiResponse)
        (userData : JsValue) (w : World) :
  userData = JNull \/ userData = JUndefined ->
  register t1 reply userData w = (Ret (failure (JStr "Registration failed")), w).
Proof.
  intros [-> | ->]; reflexivity.
Qed.

Lemma detail_set_detail_same (k : DetailKey) (v : JsValue) (d : Details) :
  detail k (set_detail k v d) = v.
Proof.
  induction d as [|[k' v'] d IH]; cbn [set_detail detail].
  - destruct k; reflexivity.
  - destruct (DetailKey_eqb k k') eqn:Hk; cbn [detail].
    + destruct k; reflexivity.
    + rewrite Hk. exact IH.
Qed.

(** When the address lookup of a pending entry completes, the entry goes
    to the front of the log with the action it was left pending with,
    stamped with the time of completion, not of the action, and with the
    address as the lookup gave it, even a falsy one; it is pending no
    longer, and the session and the timers are as before. *)
Theorem pending_entry_resolved (now : Z) (ip : JsValue) (i : nat) (d : Deferred)
        (w : World) :
  nth_error (deferred w) i = Some d ->
  let w' := exec (resolve_ip now ip i) w in
  exists e,
    securityLog w' = firstn 100 (e :: securityLog w)
    /\ action e = df_action d
    /\ timestamp e = now
    /\ detail KIp (fields e) = ip
    /\ deferred w' = remove_nth i (deferred w)
    /\ session_state w' = session_state w
    /\ timers w' = timers w.
Proof.
  intros Hnth w'. subst w'.
  unfold exec, resolve_ip. mrun. rewrite Hnth. mrun.
  rewrite addSecurityLog_run. cbn [snd]. rewrite addSecurityLog_log. cbv zeta.
  eexists. split; [reflexivity|].
  cbn [build_entry action timestamp fields clock set_clock set_deferred].
  repeat split.
  unfold spread. rewrite fold_left_app. cbn [fold_left fst snd].
  apply detail_set_detail_same.
Qed.


End Lifetime.

(** ** The properties on the sample scenarios *)


Lemma reload_restores_log_witness :
  let w := run (Pf:=Samples.browser) Scenarios.day (Samples.fresh Samples.t_now) in
  let w' := boot (Samples.t_now + 9000000)
                 (localStorage w) (savedLog w) in
  List.map action (securityLog w') = List.map action (securityLog w)
  /\ List.map timestamp (securityLog w') = List.map timestamp (securityLog w)
  /\ forall t, length (recentAttempts t (securityLog w'))
               = length (recentAttempts t (securityLog w)).
Proof.
  intros w w'.
  destruct (reload_restores_log (Pf:=Samples.browser) Scenarios.day
              (Samples.fresh Samples.t_now) (Samples.t_now + 9000000))
    as (_ & Ha & Ht & Hc & _).
  - vm_compute. reflexivity.
  - split; [exact Ha|]. split; [exact Ht|exact Hc].
Defined.


Lemma login_succeeds_witness :
  let w' := exec (login (Pf:=Samples.browser) (Samples.t_now + 200)
                        "ana@example.com" "secret")
                 (Samples.fresh Samples.t_now) in
  localStorage w' !! "token" = Some Samples.token_1h
  /\ localStorage w' !! "refreshToken" = Some Samples.token_2h
  /\ user w' = JObj [("id", JStr "u1")]
  /\ List.map df_action (deferred w') = ["login_success"].
Proof.
  intros w'.
  pose proof (login_succeeds (Pf:=Samples.browser) (Samples.t_now + 200)
                "ana@example.com" "secret" (Samples.fresh Samples.t_now)
                (JObj [("token", JStr Samples.token_1h);
                       ("refreshToken", JStr Samples.token_2h);
                       ("id", JStr "u1")])
                (JStr Samples.token_1h) (JStr Samples.token_2h)) as H.
  destruct H as (_ & Ht & _ & Hr & Hu & _ & Hd & _).
  - vm_compute. lia.
  - vm_compute. reflexivity.
  - reflexivity.
  - reflexivity.
  - vm_compute. reflexivity.
  - subst w'. split; [exact Ht|]. split; [exact Hr|]. split; [exact Hu|].
    rewrite Hd. reflexivity.
Defined.

Lemma token_validity_is_monotone_witness :
  isValidToken (Pf:=Samples.browser) (Samples.t_now - 86400000)
               (JStr Samples.token_1h) = true.
Proof.
  apply (token_validity_is_monotone (Pf:=Samples.browser) Samples.t_now).
  - vm_compute. reflexivity.
  - vm_compute. discriminate.
Defined.


Lemma mount_without_valid_token_witness :
  let p := mount (Pf:=Samples.browser) Samples.t_now (Samples.t_now + 150)
                 Scenarios.me Scenarios.stale_store None in
  loading p = false
  /\ user (world p) = JNull
  /\ localStorage (world p) = delete "token" Scenarios.stale_store
  /\ List.map action (securityLog (world p)) = ["invalid_token_cleared"].
Proof.
  intros p.
  destruct (mount_without_valid_token (Pf:=Samples.browser) Samples.t_now
              (Samples.t_now + 150) Scenarios.me Scenarios.stale_store None)
    as (Hl & Hu & _ & _ & _ & _ & Hs).
  - vm_compute. reflexivity.
  - vm_compute. reflexivity.
  - subst p. split; [exact Hl|]. split; [exact Hu|].
    assert (Hm : missing (Scenarios.stale_store !! "token") = false)
      by (vm_compute; reflexivity).
    rewrite Hm in Hs. destruct Hs as [Hst Hlog].
    split; [exact Hst|]. rewrite Hlog. reflexivity.
Defined.

Lemma mount_with_valid_token_witness :
  let p := mount (Pf:=Samples.browser) Samples.t_now (Samples.t_now + 150)
                 Scenarios.me Scenarios.session_store None in
  loading p = false
  /\ user (world p) = JObj [("id", JStr "u1"); ("email", JStr "ana@example.com")]
  /\ localStorage (world p) = Scenarios.session_store.
Proof.
  intros p.
  destruct (mount_with_valid_token (Pf:=Samples.browser) Samples.t_now
              (Samples.t_now + 150) Scenarios.me Scenarios.session_store None
              Samples.token_1h)
    as (Hl & Hu & Hs & _).
  - vm_compute. reflexivity.
  - vm_compute. reflexivity.
  - subst p. split; [exact Hl|]. split; [exact Hu|exact Hs].
Defined.

Lemma mount_with_refresh_token_only_witness :
  let p := mount (Pf:=Samples.browser) (Samples.t_now + 5400000)
                 (Samples.t_now + 5400150) Scenarios.me
                 Scenarios.refresh_only_store None in
  loading p = true /\ user (world p) = JNull.
Proof.
  intros p.
  destruct (mount_with_refresh_token_only (Pf:=Samples.browser)
              (Samples.t_now + 5400000) (Samples.t_now + 5400150) Scenarios.me
              Scenarios.refresh_only_store None Samples.token_2h)
    as (Hl & Hu & _).
  - vm_compute. reflexivity.
  - vm_compute. reflexivity.
  - vm_compute. reflexivity.
  - subst p. split; [exact Hl|exact Hu].
Defined.

Lemma login_refused_witness :
  let w := set_localStorage Scenarios.session_store (Samples.fresh Samples.t_now) in
  let w' := exec (login (Pf:=Samples.browser) (Samples.t_now + 200)
                        "bob@example.com" "guess") w in
  eval (login (Pf:=Samples.browser) (Samples.t_now + 200)
              "bob@example.com" "guess") w
  = Ret (failure (JStr "Invalid credentials"))
  /\ localStorage w' = delete "token" Scenarios.session_store
  /\ redirected w' = true.
Proof.
  intros w w'.
  destruct (login_refused (Pf:=Samples.browser) (Samples.t_now + 200)
              "bob@example.com" "guess" w
              "Request failed with status code 401" (Some 401)
              (JStr "Invalid credentials"))
    as (Hr & _ & _ & _ & Hs & Hd & _).
  - vm_compute. lia.
  - vm_compute. reflexivity.
  - subst w'. split; [exact Hr|]. split; [exact Hs|exact Hd].
Defined.


Lemma register_succeeds_witness :
  let w' := exec (register (Pf:=Samples.browser) (Samples.t_now + 200)
                           (Resolve Scenarios.created) Scenarios.new_account)
                 Samples.five_attempts in
  localStorage w' !! "token" = Some Samples.token_1h
  /\ user w' = JObj [("id", JStr "u7")].
Proof.
  intros w'.
  destruct (register_succeeds (Pf:=Samples.browser) (Samples.t_now + 200)
              Scenarios.new_account (JStr "zoe@example.com") Scenarios.created
              (JStr Samples.token_1h) (JStr Samples.token_2h)
              Samples.five_attempts)
    as (_ & Ht & _ & Hu & _).
  - reflexivity.
  - reflexivity.
  - reflexivity.
  - vm_compute. reflexivity.
  - subst w'. split; [exact Ht|exact Hu].
Defined.

Lemma register_without_user_data_witness :
  register (Pf:=Samples.browser) (Samples.t_now + 200)
           (Resolve Scenarios.created) JNull (Samples.fresh Samples.t_now)
  = (Ret (failure (JStr "Registration failed")), Samples.fresh Samples.t_now).
Proof.
  apply (register_without_user_data (Pf:=Samples.browser)).
  left. reflexivity.
Defined.

Lemma pending_entry_resolved_witness :
  let w' := exec (resolve_ip (Pf:=Samples.browser) (Samples.t_now + 300)
                             (JStr "203.0.113.7") 0)
                 Samples.after_login in
  exists e,
    hd_error (securityLog w') = Some e
    /\ action e = "login_success"
    /\ timestamp e = Samples.t_now + 300
    /\ detail KIp (fields e) = JStr "203.0.113.7"
    /\ deferred w' = [].
Proof.
  intros w'.
  destruct (pending_entry_resolved (Pf:=Samples.browser) (Samples.t_now + 300)
              (JStr "203.0.113.7") 0
              (mkDeferred "login_success"
                 [(KUserId, JStr "u1"); (KEmail, JStr "ana@example.com");
                  (KMethod, JStr "password")])
              Samples.after_login)
    as (e & Hlog & Ha & Ht & Hip & Hd & _).
  - vm_compute. reflexivity.
  - exists e. subst w'. rewrite Hlog.
    split; [reflexivity|]. split; [exact Ha|]. split; [exact Ht|].
    split; [exact Hip|]. rewrite Hd. vm_compute. reflexivity.
Defined.

(** ** The pages: patterns, the lock of the login page, the registration form *)

Section RegexFacts.
Import Regex.

Lemma nullable_spec (r : Re) : nullable r = true <-> Lang r [].
Proof.
  induction r as [| |p|a IHa b IHb|a IHa b IHb|a IHa]; cbn [nullable].
  - split; [discriminate|]. intros H. inversion H.
  - split; [intros _; constructor|reflexivity].
  - split; [discriminate|]. intros H. inversion H.
  - rewrite andb_true_iff, IHa, IHb. split.
    + intros [Ha Hb]. change (@nil ascii) with (@nil ascii ++ [])%list.
      constructor; assumption.
    + intros H. inversion H as [| |a' b' s1 s2 H1 H2 Heq| | | |]; subst.
      match goal with
      | E : (_ ++ _)%list = [] |- _ => apply app_eq_nil in E; destruct E as [-> ->]
      end.
      split; assumption.
  - rewrite orb_true_iff, IHa, IHb. split.
    + intros [H|H]; [apply L_alt_l|apply L_alt_r]; assumption.
    + intros H. inversion H; subst; [left|right]; assumption.
  - split; [intros _; constructor|reflexivity].
Qed.

Lemma star_cons_inv (a : Re) (s : list ascii) :
  Lang (Star a) s ->
  s = [] \/ exists c s1 s2, s = c :: s1 ++ s2 /\ Lang a (c :: s1) /\ Lang (Star a) s2.
Proof.
  intros H. remember (Star a) as r eqn:Hr.
  induction H as [| | | | | a'|a' s1 s2 H1 _ H2 IH2]; try discriminate.
  - left. reflexivity.
  - injection Hr as ->. destruct s1 as [|c s1].
    + cbn [app]. apply IH2. reflexivity.
    + right. exists c, s1, s2. repeat split; assumption.
Qed.

Lemma deriv_spec (r : Re) (c : ascii) (s : list ascii) :
  Lang (deriv c r) s <-> Lang r (c :: s).
Proof.
  revert s. induction r as [| |p|a IHa b IHb|a IHa b IHb|a IHa]; intros s;
    cbn [deriv].
  - split; intros H; inversion H.
  - split; intros H; inversion H.
  - destruct (p c) eqn:Hp; split; intros H.
    + inversion H; subst. constructor. exact Hp.
    + inversion H; subst. constructor.
    + inversion H.
    + inversion H; subst. congruence.
  - assert (Hseq : Lang (Seq (deriv c a) b) s -> Lang (Seq a b) (c :: s)).
    { intros H. inversion H as [| |a' b' s1 s2 H1 H2| | | |]; subst.
      apply IHa in H1. change (c :: s1 ++ s2)%list with ((c :: s1) ++ s2)%list.
      constructor; assumption. }
    assert (Hinv : Lang (Seq a b) (c :: s) ->
                   Lang (Seq (deriv c a) b) s
                   \/ (Lang a [] /\ Lang b (c :: s))).
    { intros H. inversion H as [| |a' b' s1 s2 H1 H2 Heq| | | |]; subst.
      destruct s1 as [|c' s1]; cbn [app] in *.
      - right. subst. split; assumption.
      - match goal with
        | E : _ :: _ = _ :: _ |- _ => injection E as Ec Es
        end.
        subst. left. apply L_seq; [apply IHa|]; assumption. }
    destruct (nullable a) eqn:Hn.
    + split.
      * intros H. inversion H; subst; [apply Hseq; assumption|].
        apply nullable_spec in Hn. apply IHb in H3.
        change (c :: s) with ([] ++ c :: s)%list. constructor; assumption.
      * intros H. destruct (Hinv H) as [H1|[_ H2]].
        -- apply L_alt_l. exact H1.
        -- apply L_alt_r. apply IHb. exact H2.
    + split; [exact Hseq|].
      intros H. destruct (Hinv H) as [H1|[H1 _]]; [exact H1|].
      apply nullable_spec in H1. congruence.
  - split; intros H; inversion H; subst.
    + apply L_alt_l, IHa. assumption.
    + apply L_alt_r, IHb. assumption.
    + apply L_alt_l, IHa. assumption.
    + apply L_alt_r, IHb. assumption.
  - split.
    + intros H. inversion H as [| |a' b' s1 s2 H1 H2| | | |]; subst.
      apply IHa in H1. change (c :: s1 ++ s2)%list with ((c :: s1) ++ s2)%list.
      constructor; assumption.
    + intros H. destruct (star_cons_inv a _ H) as [Hnil|(c' & s1 & s2 & Heq & H1 & H2)];
        [discriminate|].
      injection Heq as Ec Es. subst. apply L_seq; [apply IHa|]; assumption.
Qed.

Lemma matches_spec (r : Re) (s : list ascii) : matches r s = true <-> Lang r s.
Proof.
  revert r. induction s as [|c s IH]; intros r; cbn [matches].
  - apply nullable_spec.
  - rewrite IH. apply deriv_spec.
Qed.

Lemma star_class_spec (p : ascii -> bool) (l : list ascii) :
  Lang (Star (Class p)) l <-> forallb p l = true.
Proof.
  split.
  - intros H. remember (Star (Class p)) as r eqn:Hr.
    induction H as [| | | | | a|a s1 s2 H1 _ H2 IH2]; try discriminate.
    + reflexivity.
    + injection Hr as ->. inversion H1; subst.
      cbn [app forallb]. rewrite IH2 by reflexivity.
      rewrite andb_true_r. assumption.
  - induction l as [|c l IH]; intros H.
    + constructor.
    + cbn [forallb] in H. apply andb_true_iff in H. destruct H as [Hc Hl].
      change (c :: l) with ([c] ++ l)%list.
      apply L_star_cons; [constructor; exact Hc|apply IH; exact Hl].
Qed.

Lemma plus_class_spec (p : ascii -> bool) (l : list ascii) :
  Lang (Plus (Class p)) l <-> l <> [] /\ forallb p l = true.
Proof.
  unfold Plus. split.
  - intros H. inversion H as [| |a b s1 s2 H1 H2| | | |]; subst.
    inversion H1; subst. apply star_class_spec in H2.
    split; [discriminate|]. cbn [app forallb]. rewrite H2, andb_true_r. assumption.
  - intros [Hne H]. destruct l as [|c l]; [congruence|].
    cbn [forallb] in H. apply andb_true_iff in H. destruct H as [Hc Hl].
    change (c :: l) with ([c] ++ l)%list.
    apply L_seq; [constructor; exact Hc|apply star_class_spec; exact Hl].
Qed.

Lemma lit_spec (ch : ascii) (l : list ascii) : Lang (Lit ch) l <-> l = [ch].
Proof.
  unfold Lit. split.
  - intros H. inversion H; subst.
    match goal with
    | E : Ascii.eqb _ _ = true |- _ => apply Ascii.eqb_eq in E; subst
    end.
    reflexivity.
  - intros ->. constructor. apply Ascii.eqb_refl.
Qed.

Lemma email_lang (l : list ascii) :
  Lang email_pattern l <->
  exists a b c,
    l = (a ++ "@"%char :: b ++ "."%char :: c)%list
    /\ (a <> [] /\ forallb not_space_at a = true)
    /\ (b <> [] /\ forallb not_space_at b = true)
    /\ (c <> [] /\ forallb not_space_at c = true).
Proof.
  unfold email_pattern. split.
  - intros H.
    inversion H as [| |r1 r2 a l1 Ha H1| | | |]; subst.
    inversion H1 as [| |r1 r2 at_ l2 Hat H2| | | |]; subst.
    inversion H2 as [| |r1 r2 b l3 Hb H3| | | |]; subst.
    inversion H3 as [| |r1 r2 dot c Hdot Hc| | | |]; subst.
    apply lit_spec in Hat, Hdot. subst.
    apply plus_class_spec in Ha, Hb, Hc.
    exists a, b, c. split; [reflexivity|]. repeat split; tauto.
  - intros (a & b & c & -> & Ha & Hb & Hc).
    apply plus_class_spec in Ha, Hb, Hc.
    apply L_seq; [exact Ha|].
    change ("@"%char :: b ++ "."%char :: c)%list
      with (["@"%char] ++ (b ++ ["."%char] ++ c))%list.
    apply L_seq; [apply lit_spec; reflexivity|].
    apply L_seq; [exact Hb|].
    apply L_seq; [apply lit_spec; reflexivity|exact Hc].
Qed.

Lemma list_ascii_of_string_app (a b : string) :
  list_ascii_of_string (a ++ b)
  = (list_ascii_of_string a ++ list_ascii_of_string b)%list.
Proof.
  induction a as [|c a IH]; [reflexivity|].
  change (list_ascii_of_string (String c a ++ b))
    with (c :: list_ascii_of_string (a ++ b)).
  rewrite IH. reflexivity.
Qed.

Lemma list_ascii_of_string_nil (a : string) :
  list_ascii_of_string a = [] <-> a = "".
Proof. destruct a; cbn; split; congruence. Qed.

(** The e-mail addresses that the forms accept: something, an at sign,
    something, a dot, something, where each something is at least one
    character and has neither white space nor an at sign. *)
Theorem email_pattern_shape (email : string) :
  test_whole email_pattern email = true <->
  exists a b c : string,
    email = a ++ "@" ++ b ++ "." ++ c /\ plain a /\ plain b /\ plain c.
Proof.
  unfold test_whole, plain. rewrite matches_spec, email_lang. split.
  - intros (a & b & c & Heq & [Ha1 Ha2] & [Hb1 Hb2] & [Hc1 Hc2]).
    exists (string_of_list_ascii a), (string_of_list_ascii b), (string_of_list_ascii c).
    rewrite !list_ascii_of_string_of_list_ascii.
    split.
    + rewrite <- (string_of_list_ascii_of_string email), Heq.
      rewrite <- (string_of_list_ascii_of_string
                    (string_of_list_ascii a ++ "@" ++ string_of_list_ascii b
                     ++ "." ++ string_of_list_ascii c)).
      f_equal. rewrite !list_ascii_of_string_app.
      rewrite !list_ascii_of_string_of_list_ascii. reflexivity.
    + repeat split; try assumption;
        intros E; apply (f_equal list_ascii_of_string) in E;
        rewrite list_ascii_of_string_of_list_ascii in E; cbn in E; congruence.
  - intros (a & b & c & -> & [Ha1 Ha2] & [Hb1 Hb2] & [Hc1 Hc2]).
    exists (list_ascii_of_string a), (list_ascii_of_string b), (list_ascii_of_string c).
    split; [rewrite !list_ascii_of_string_app; reflexivity|].
    rewrite !list_ascii_of_string_nil. repeat split; assumption.
Qed.

End RegexFacts.

Section LoginPageFacts.
Context {Pf : Platform} {Br : Browser}.
Import LoginPage.

(** A login for credentials that the server rejects fails, and the clock
    reads what it read before or the time of the reply. *)
Lemma rejected_login_fails (t1 : Z) (e pw : string) (w : World)
      (msg : string) (status : option Z) (rm : JsValue) :
  backend (PostLogin e pw) = Reject msg status rm ->
  exists r w1,
    login t1 e pw w = (Ret r, w1) /\ success r = false
    /\ (clock w1 = clock w \/ clock w1 = t1).
Proof.
  intros Hreply.
  destruct (login_cases t1 e pw w)
    as [(_ & Hrun)
       |[(msg' & status' & rm' & _ & Hrun)
        |[(data & Hreply' & _)|(data & tok & rt & Hreply' & _)]]];
    try congruence.
  - eexists _, _. split; [exact Hrun|]. split; [reflexivity|]. left. reflexivity.
  - eexists _, _. split; [exact Hrun|]. split; [reflexivity|]. right.
    destruct (intercepted_fields status' (awaiting_reply t1 e pw w))
      as (_ & _ & _ & _ & _ & _ & _ & Hc & _).
    transitivity (clock (intercepted status' (awaiting_reply t1 e pw w)));
      [reflexivity|]. rewrite Hc. reflexivity.
Qed.

(** A submission that reaches [login] and fails. *)
Lemma failed_submission (rendered t1 : Z) (p : Page) (w w1 : World)
      (r : AuthResult) :
  isLocked rendered (lockUntil p) = false ->
  validateForm p = None ->
  login t1 (email p) (password p) w = (Ret r, w1) ->
  success r = false ->
  let n := num_add (attempts p) 1 in
  let w2 := exec (setItem "loginAttempts" (number_toString n)) w1 in
  handleSubmit rendered t1 p w =
  if num_ge n 5 then
    (mkPage (email p) (password p)
            (JStr "Too many failed attempts. Account locked for 30 minutes.")
            false n (Some (Num (clock w1 + 30 * 60 * 1000))) (navigated p),
     exec (setItem "lockUntil" (Date_toISOString (clock w1 + 30 * 60 * 1000))) w2)
  else
    (mkPage (email p) (password p)
            (js_or (match message r with Some m => m | None => JUndefined end)
                   (JStr "Invalid credentials"))
            false n (lockUntil p) (navigated p),
     w2).
Proof.
  intros Hlock Hform Hrun Hfail n w2. subst n w2.
  unfold handleSubmit. cbv zeta.
  change (lockUntil (set_error (JStr "") p)) with (lockUntil p).
  rewrite Hlock.
  change (validateForm (set_error (JStr "") p)) with (validateForm p).
  rewrite Hform.
  cbn [email password set_loading set_error].
  rewrite Hrun, Hfail.
  cbn [email password error loading attempts lockUntil navigated
       set_loading set_error set_attempts set_lockUntil set_navigated].
  destruct (num_ge (num_add (attempts p) 1) 5); reflexivity.
Qed.


(** A login page that was rendered locked, or whose form does not
    validate, sends nothing: [handleSubmit] leaves the provider and the
    browser exactly as they are (no request, no log entry, nothing
    stored), and the count of attempts and the lock as they are.  A locked
    page says for how many minutes, rounded up, counted from the time of
    the submission; an unlocked one shows the message of
    [validateForm]. *)
Theorem login_page_blocks_submission (rendered t1 : Z) (p : Page) (w : World) :
  isLocked rendered (lockUntil p) = true \/ validateForm p <> None ->
  let p' := fst (handleSubmit rendered t1 p w) in
  let w' := snd (handleSubmit rendered t1 p w) in
  w' = w
  /\ attempts p' = attempts p
  /\ lockUntil p' = lockUntil p
  /\ navigated p' = navigated p
  /\ (if isLocked rendered (lockUntil p)
      then exists t,
          lockUntil p = Some (Num t)
          /\ error p'
             = JStr ("Account temporarily locked. Try again in "
                     ++ number_toString (Num (ceil_minutes (t - clock w)))
                     ++ " minutes.")
      else exists msg, validateForm p = Some msg /\ error p' = JStr msg).
Proof.
  intros Hblocked p' w'. subst p' w'. unfold handleSubmit. cbv zeta.
  change (lockUntil (set_error (JStr "") p)) with (lockUntil p).
  change (validateForm (set_error (JStr "") p)) with (validateForm p).
  destruct (isLocked rendered (lockUntil p)) eqn:Hlock.
  - cbn [fst snd]. repeat split.
    unfold isLocked in Hlock.
    destruct (lockUntil p) as [[|t]|]; try discriminate.
    exists t. split; reflexivity.
  - destruct Hblocked as [Hl|Hform]; [discriminate|].
    destruct (validateForm p) as [msg|]; [|congruence].
    cbn [fst snd]. repeat split. exists msg. split; reflexivity.
Qed.

Lemma failed_submission_counts (s : Submission) (p : Page) (w : World) (n : Z)
      (msg : string) (status : option Z) (rm : JsValue) :
  attempts p = Num n ->
  lockUntil p = None ->
  validateForm p = None ->
  backend (PostLogin (email p) (password p)) = Reject msg status rm ->
  let p' := fst (submit s (p, w)) in
  let w' := snd (submit s (p, w)) in
  email p' = email p /\ password p' = password p
  /\ attempts p' = Num (n + 1)
  /\ localStorage w' !! "loginAttempts" = Some (number_toString (Num (n + 1)))
  /\ if 5 <=? n + 1
     then lockUntil p' = Some (Num (clock w' + 30 * 60 * 1000))
          /\ error p'
             = JStr "Too many failed attempts. Account locked for 30 minutes."
          /\ localStorage w' !! "lockUntil"
             = Some (Date_toISOString (clock w' + 30 * 60 * 1000))
     else lockUntil p' = None.
Proof.
  intros Hn Hlock Hform Hreply p' w'. subst p' w'. unfold submit. cbn [fst snd].
  destruct (rejected_login_fails (sb_reply s) (email p) (password p)
              (set_clock (sb_at s) w) msg status rm Hreply)
    as (r & w1 & Hrun & Hfail & _).
  rewrite (failed_submission (sb_rendered s) (sb_reply s) p _ w1 r);
    [|rewrite Hlock; reflexivity|exact Hform|exact Hrun|exact Hfail].
  rewrite Hn. cbn [num_add num_ge].
  destruct (5 <=? n + 1); cbn [fst snd email password attempts lockUntil error].
  - repeat split.
    + unfold exec, setItem, modify. cbn [snd localStorage set_localStorage].
      rewrite lookup_insert_ne by discriminate. apply lookup_insert_eq.
    + unfold exec, setItem, modify. cbn [snd localStorage set_localStorage].
      apply lookup_insert_eq.
  - repeat split; [|exact Hlock].
    unfold exec, setItem, modify. cbn [snd localStorage set_localStorage].
    apply lookup_insert_eq.
Qed.

(** Five failures in a row lock the page.  From a page with no failed
    attempt and no lock, whose form validates, five submissions of
    credentials that the server rejects leave the count at five and the
    page locked until thirty minutes after the clock reading at the end
    of the fifth; the count and the lock are stored; and every later
    submission from a render before that instant sends nothing. *)
Theorem five_failures_lock_the_page (subs : list Submission) (p : Page) (w : World)
        (msg : string) (status : option Z) (rm : JsValue) :
  length subs = 5%nat ->
  attempts p = Num 0 ->
  lockUntil p = None ->
  validateForm p = None ->
  backend (PostLogin (email p) (password p)) = Reject msg status rm ->
  let p' := fst (submit_all subs (p, w)) in
  let w' := snd (submit_all subs (p, w)) in
  let until := clock w' + 30 * 60 * 1000 in
  attempts p' = Num 5
  /\ lockUntil p' = Some (Num until)
  /\ error p' = JStr "Too many failed attempts. Account locked for 30 minutes."
  /\ localStorage w' !! "loginAttempts" = Some (number_toString (Num 5))
  /\ localStorage w' !! "lockUntil" = Some (Date_toISOString until)
  /\ forall rendered t1 w2,
       rendered < until -> snd (handleSubmit rendered t1 p' w2) = w2.
Proof.
  intros Hlen Hn Hlock Hform Hreply.
  destruct subs as [|s1 [|s2 [|s3 [|s4 [|s5 [|]]]]]]; try discriminate.
  unfold submit_all. cbn [fold_left].
  assert (Hstep : forall s st k,
             attempts (fst st) = Num k -> lockUntil (fst st) = None ->
             email (fst st) = email p -> password (fst st) = password p ->
             k + 1 < 5 ->
             attempts (fst (submit s st)) = Num (k + 1)
             /\ lockUntil (fst (submit s st)) = None
             /\ email (fst (submit s st)) = email p
             /\ password (fst (submit s st)) = password p).
  { intros s [q u] k Hk Hl He Hp Hlt. cbn [fst] in *.
    assert (Hf : validateForm q = None).
    { unfold validateForm in *. rewrite He, Hp. exact Hform. }
    assert (Hr : backend (PostLogin (email q) (password q)) = Reject msg status rm).
    { rewrite He, Hp. exact Hreply. }
    destruct (failed_submission_counts s q u k msg status rm Hk Hl Hf Hr)
      as (He' & Hp' & Ha' & _ & Hlast).
    destruct (Z.leb_spec 5 (k + 1)); [lia|].
    repeat split; [exact Ha'|exact Hlast|congruence|congruence]. }
  destruct (Hstep s1 (p, w) 0 Hn Hlock eq_refl eq_refl ltac:(lia))
    as (H1a & H1l & H1e & H1p).
  destruct (Hstep s2 _ _ H1a H1l H1e H1p ltac:(lia)) as (H2a & H2l & H2e & H2p).
  destruct (Hstep s3 _ _ H2a H2l H2e H2p ltac:(lia)) as (H3a & H3l & H3e & H3p).
  destruct (Hstep s4 _ _ H3a H3l H3e H3p ltac:(lia)) as (H4a & H4l & H4e & H4p).
  set (st4 := submit s4 (submit s3 (submit s2 (submit s1 (p, w))))) in *.
  destruct st4 as [q u] eqn:Hst4. cbn [fst] in *.
  assert (Hf : validateForm q = None).
  { unfold validateForm in *. rewrite H4e, H4p. exact Hform. }
  assert (Hr : backend (PostLogin (email q) (password q)) = Reject msg status rm).
  { rewrite H4e, H4p. exact Hreply. }
  destruct (failed_submission_counts s5 q u _ msg status rm H4a H4l Hf Hr)
    as (_ & _ & Ha & Hs & Hl & He & Hsl).
  cbv zeta.
  split; [exact Ha|]. split; [exact Hl|]. split; [exact He|].
  split; [exact Hs|]. split; [exact Hsl|].
  intros rendered t1 w2 Hbefore.
  unfold handleSubmit. cbv zeta.
  change (lockUntil (set_error (JStr "") ?x)) with (lockUntil x).
  rewrite Hl. cbn [isLocked].
  apply Z.ltb_lt in Hbefore. rewrite Hbefore. reflexivity.
Qed.


(** A login that goes through resets the count.  When an unlocked page
    with a valid form submits credentials that [login] accepts, the count
    of attempts is zero, the page navigates, shows no error and is not
    loading, the stored count and the stored lock are removed, the token
    is stored and the user is set; the lock in the state of the page is
    left as it was. *)
Theorem successful_login_resets_attempts (rendered t1 : Z) (p : Page) (w : World)
        (data tok rt : JsValue) :
  isLocked rendered (lockUntil p) = false ->
  validateForm p = None ->
  (length (recentAttempts (clock w) (securityLog w)) < 5)%nat ->
  backend (PostLogin (email p) (password p)) = Resolve data ->
  get_prop data "token" = Some tok ->
  get_prop data "refreshToken" = Some rt ->
  isValidToken t1 tok = true ->
  let p' := fst (handleSubmit rendered t1 p w) in
  let w' := snd (handleSubmit rendered t1 p w) in
  attempts p' = Num 0
  /\ navigated p' = true
  /\ error p' = JStr ""
  /\ loading p' = false
  /\ lockUntil p' = lockUntil p
  /\ localStorage w' !! "loginAttempts" = None
  /\ localStorage w' !! "lockUntil" = None
  /\ localStorage w' !! "token" = Some (ToString tok)
  /\ user w' = rest_without ["token"; "refreshToken"] data.
Proof.
  intros Hlock Hform Hcount Hreply Htok Hrt Hvalid p' w'. subst p' w'.
  pose proof (login_succeeds_run t1 (email p) (password p) w data tok rt
                Hcount Hreply Htok Hrt Hvalid) as Hrun.
  cbv zeta in Hrun.
  unfold handleSubmit. cbv zeta.
  change (lockUntil (set_error (JStr "") p)) with (lockUntil p).
  rewrite Hlock.
  change (validateForm (set_error (JStr "") p)) with (validateForm p).
  rewrite Hform.
  cbn [email password set_loading set_error].
  rewrite Hrun.
  cbn [success fst snd email password error loading attempts lockUntil navigated
       set_loading set_error set_attempts set_lockUntil set_navigated].
  set (userData := rest_without ["token"; "refreshToken"] data).
  destruct (with_session_fields tok rt userData
              (awaiting_reply t1 (email p) (password p) w))
    as (Ht & _ & Hk & Hu & _).
  set (ws := with_session tok rt userData
               (awaiting_reply t1 (email p) (password p) w)) in *.
  repeat split.
  - unfold exec, removeItem, defer_log. mrun.
    cbn [snd localStorage set_localStorage set_deferred].
    rewrite lookup_delete_ne by discriminate. apply lookup_delete_eq.
  - unfold exec, removeItem, defer_log. mrun.
    cbn [snd localStorage set_localStorage set_deferred].
    apply lookup_delete_eq.
  - unfold exec, removeItem, defer_log. mrun.
    cbn [snd localStorage set_localStorage set_deferred].
    rewrite !lookup_delete_ne by discriminate. exact Ht.
  - exact Hu.
Qed.

Lemma load_unreadable_attempts (w : World) (p : Page) (s : string) :
  localStorage w !! "loginAttempts" = Some s ->
  s <> "" ->
  parseInt s = NaN ->
  localStorage w !! "lockUntil" = None ->
  load w p = set_attempts NaN p.
Proof.
  intros Hs Hne Hnan Hl. unfold load. rewrite Hs, Hl.
  destruct (String.eqb_spec s ""); [congruence|]. rewrite Hnan. reflexivity.
Qed.

(** A stored count that does not read as a number switches the lock
    off.  When the stored [loginAttempts] is a string for which
    [parseInt] gives [NaN] and no lock is stored, a page that loads it
    never locks, however many submissions the server rejects: the count
    stays [NaN] and there is no lock. *)
Theorem unreadable_attempts_never_lock (subs : list Submission) (p : Page)
        (w : World) (s : string) (msg : string) (status : option Z) (rm : JsValue) :
  localStorage w !! "loginAttempts" = Some s ->
  s <> "" ->
  parseInt s = NaN ->
  localStorage w !! "lockUntil" = None ->
  lockUntil p = None ->
  backend (PostLogin (email p) (password p)) = Reject msg status rm ->
  let p' := fst (submit_all subs (load w p, w)) in
  attempts p' = NaN /\ lockUntil p' = None.
Proof.
  intros Hs Hne Hnan Hl Hlock Hreply.
  rewrite (load_unreadable_attempts w p s Hs Hne Hnan Hl).
  assert (Hinv : forall l st,
             attempts (fst st) = NaN -> lockUntil (fst st) = None ->
             email (fst st) = email p -> password (fst st) = password p ->
             attempts (fst (submit_all l st)) = NaN
             /\ lockUntil (fst (submit_all l st)) = None).
  { induction l as [|x l IH]; intros [q u] Ha Hlk He Hp; cbn [fst] in *.
    - split; assumption.
    - unfold submit_all. cbn [fold_left]. apply IH.
      all: unfold submit; cbn [fst snd]; unfold handleSubmit; cbv zeta;
        change (lockUntil (set_error (JStr "") q)) with (lockUntil q);
        rewrite Hlk; cbn [isLocked];
        change (validateForm (set_error (JStr "") q)) with (validateForm q);
        destruct (validateForm q);
        [cbn [fst email password error loading attempts lockUntil navigated
              set_loading set_error]; assumption|];
        cbn [email password set_loading set_error];
        destruct (rejected_login_fails (sb_reply x) (email q) (password q)
                    (set_clock (sb_at x) u) msg status rm)
          as (r & w1 & Hrun & Hfail & _);
        [rewrite He, Hp; exact Hreply|];
        rewrite Hrun, Hfail;
        cbn [email password error loading attempts lockUntil navigated
             set_loading set_error set_attempts set_lockUntil set_navigated];
        rewrite Ha; cbn [num_add num_ge fst
                         email password error loading attempts lockUntil
                         navigated set_loading set_error];
        first [assumption|reflexivity]. }
  intros p'. subst p'. apply Hinv; cbn; try reflexivity. exact Hlock.
Qed.

(** The lock survives a reload of the page.  After a failed submission
    that brings the count to five or more, a page opened afresh loads the
    same count and the same lock, and is locked at exactly the same
    clock readings, provided the browser reads back the two strings that
    were stored ([parseInt] the count, [new Date] the time that
    [toISOString] wrote) and takes the empty string for neither. *)
Theorem lock_survives_reload (rendered t1 : Z) (p : Page) (w : World) (n : Z)
        (msg : string) (status : option Z) (rm : JsValue) :
  isLocked rendered (lockUntil p) = false ->
  validateForm p = None ->
  backend (PostLogin (email p) (password p)) = Reject msg status rm ->
  attempts p = Num n ->
  4 <= n ->
  parseInt "" = NaN ->
  Date_parse "" = NaN ->
  parseInt (number_toString (Num (n + 1))) = Num (n + 1) ->
  (forall t, t = clock w \/ t = t1 ->
             Date_parse (Date_toISOString (t + 30 * 60 * 1000))
             = Num (t + 30 * 60 * 1000)) ->
  let p' := fst (handleSubmit rendered t1 p w) in
  let w' := snd (handleSubmit rendered t1 p w) in
  let reopened := load w' initial in
  attempts reopened = attempts p'
  /\ lockUntil reopened = lockUntil p'
  /\ attempts p' = Num (n + 1)
  /\ lockUntil p' = Some (Num (clock w' + 30 * 60 * 1000))
  /\ forall now, isLocked now (lockUntil reopened) = (now <? clock w' + 30 * 60 * 1000).
Proof.
  intros Hlock Hform Hreply Hn Hge Hpe Hde Hpi Hdi p' w' reopened.
  subst p' w' reopened.
  destruct (rejected_login_fails t1 (email p) (password p) w msg status rm Hreply)
    as (r & w1 & Hrun & Hfail & Hclock).
  rewrite (failed_submission rendered t1 p w w1 r Hlock Hform Hrun Hfail).
  rewrite Hn. cbn [num_add num_ge].
  destruct (Z.leb_spec 5 (n + 1)); [|lia].
  cbn [fst snd attempts lockUntil].
  assert (Hd : Date_parse (Date_toISOString (clock w1 + 30 * 60 * 1000))
               = Num (clock w1 + 30 * 60 * 1000)).
  { apply Hdi. destruct Hclock as [->| ->]; [left|right]; reflexivity. }
  assert (Hload : load
                    (exec (setItem "lockUntil"
                             (Date_toISOString (clock w1 + 30 * 60 * 1000)))
                       (exec (setItem "loginAttempts"
                                (number_toString (Num (n + 1)))) w1))
                    initial
                  = mkPage "" "" (JStr "") false (Num (n + 1))
                           (Some (Num (clock w1 + 30 * 60 * 1000))) false).
  { unfold load, exec, setItem, modify. cbn [snd localStorage set_localStorage].
    rewrite (lookup_insert_ne _ "lockUntil" "loginAttempts") by discriminate.
    rewrite !lookup_insert_eq.
    destruct (String.eqb_spec (number_toString (Num (n + 1))) "") as [E|_].
    { rewrite E in Hpi. congruence. }
    destruct (String.eqb_spec (Date_toISOString (clock w1 + 30 * 60 * 1000)) "")
      as [E|_].
    { rewrite E in Hd. congruence. }
    rewrite Hpi, Hd. reflexivity. }
  rewrite Hload. cbn [attempts lockUntil isLocked].
  repeat split.
Qed.

End LoginPageFacts.

Section RegisterPageFacts.
Context {Pf : Platform}.
Import RegisterPage.

Lemma some_kind (pw : string) : pw <> "" -> (1 <= kinds pw)%nat.
Proof.
  intros Hne. destruct pw as [|c pw]; [congruence|].
  unfold kinds, Regex.test_class. cbn [list_ascii_of_string existsb].
  unfold Regex.is_special at 1.
  destruct (Regex.is_upper c); cbn [orb negb List.filter length]; [lia|].
  destruct (Regex.is_lower c); cbn [orb negb List.filter length].
  { destruct (existsb Regex.is_upper _); cbn [List.filter length]; lia. }
  destruct (Regex.is_digit c); cbn [orb negb List.filter length].
  { destruct (existsb Regex.is_upper _), (existsb Regex.is_lower _);
      cbn [List.filter length]; lia. }
  destruct (existsb Regex.is_upper _), (existsb Regex.is_lower _),
    (existsb Regex.is_digit _); cbn [List.filter length]; lia.
Qed.

Lemma checkPasswordStrength_level (pw : string) :
  pw <> "" ->
  exists feedback,
    let level := ((if (8 <=? String.length pw)%nat then 1 else 0) + kinds pw)%nat in
    checkPasswordStrength pw = Rated level (strengthLabel level) feedback
    /\ (level + length feedback = 5)%nat.
Proof.
  intros Hne. unfold checkPasswordStrength, criteria, kinds.
  destruct pw as [|c pw]; [congruence|].
  cbn [String.length Nat.eqb fold_left fst snd].
  destruct (8 <=? S (String.length pw))%nat,
    (Regex.test_class Regex.is_upper (String c pw)),
    (Regex.test_class Regex.is_lower (String c pw)),
    (Regex.test_class Regex.is_digit (String c pw)),
    (Regex.test_class Regex.is_special (String c pw));
    eexists; split; reflexivity.
Qed.

(** The strength of a password counts the criteria it meets.  For a
    password that is not empty, [checkPasswordStrength] rates it with a
    level that is one for a length of eight or more plus the number of
    kinds of character in it (upper case, lower case, digit, other); the
    level is between one and five, so the label is never [Very Weak];
    the label is that of the level; and the hints are as many as the
    criteria that are not met. *)
Theorem password_strength_counts_criteria (pw : string) :
  pw <> "" ->
  exists level feedback,
    checkPasswordStrength pw = Rated level (strengthLabel level) feedback
    /\ level = ((if (8 <=? String.length pw)%nat then 1 else 0) + kinds pw)%nat
    /\ (1 <= level <= 5)%nat
    /\ (level + length feedback = 5)%nat
    /\ strengthLabel level <> "Very Weak".
Proof.
  intros Hne.
  destruct (checkPasswordStrength_level pw Hne) as (feedback & Hrun & Hsum).
  cbv zeta in Hrun, Hsum.
  pose proof (some_kind pw Hne) as Hk.
  eexists _, feedback. split; [exact Hrun|]. split; [reflexivity|].
  set (level := ((if (8 <=? String.length pw)%nat then 1 else 0) + kinds pw)%nat) in *.
  assert (Hl : (1 <= level <= 5)%nat) by (subst level; lia).
  split; [exact Hl|]. split; [exact Hsum|].
  destruct level as [|[|[|[|[|[|]]]]]]; try lia; discriminate.
Qed.

Lemma edited_strength (edits : list (Field * string)) (p : Page) :
  passwordStrength p = checkPasswordStrength (password (form p)) ->
  passwordStrength (edited edits p)
  = checkPasswordStrength (password (form (edited edits p))).
Proof.
  revert p. induction edits as [|[f v] edits IH]; intros p Hp; [exact Hp|].
  unfold edited. cbn [fold_left]. apply IH.
  destruct f; cbn; first [exact Hp|reflexivity].
Qed.

(** What a registration form that validates is like.  After any edits
    of the inputs of a fresh page, if [validateForm] accepts, then the
    name and the company are not empty, the e-mail address matches the
    pattern, the password has at least eight characters of at least two
    kinds, and the confirmation equals the password. *)
Theorem accepted_registration_form (edits : list (Field * string)) :
  let p := edited edits initial in
  let d := form p in
  validateForm p = None ->
  name d <> "" /\ company d <> ""
  /\ Regex.test_whole Regex.email_pattern (email d) = true
  /\ (8 <= String.length (password d))%nat
  /\ (2 <= kinds (password d))%nat
  /\ confirmPassword d = password d.
Proof.
  intros p d. subst d.
  pose proof (edited_strength edits initial eq_refl) as Hs. fold p in Hs.
  unfold validateForm. cbv zeta. rewrite Hs.
  destruct (String.eqb_spec (name (form p)) ""); [discriminate|].
  destruct (String.eqb_spec (email (form p)) ""); [discriminate|].
  destruct (String.eqb_spec (password (form p)) "") as [|Hpw]; [discriminate|].
  destruct (String.eqb_spec (confirmPassword (form p)) ""); [discriminate|].
  destruct (String.eqb_spec (company (form p)) ""); [discriminate|].
  cbn [orb].
  destruct (Regex.test_whole Regex.email_pattern (email (form p)));
    [|discriminate].
  cbn [negb].
  destruct (Nat.ltb_spec (String.length (password (form p))) 8); [discriminate|].
  destruct (checkPasswordStrength_level (password (form p)) Hpw)
    as (feedback & Hrun & _).
  cbv zeta in Hrun. rewrite Hrun. cbn [level_below].
  destruct (Nat.leb_spec 8 (String.length (password (form p)))); [|lia].
  destruct (Nat.ltb_spec (1 + kinds (password (form p))) 3); [discriminate|].
  destruct (String.eqb_spec (password (form p)) (confirmPassword (form p)));
    [|discriminate].
  intros _. repeat split; try assumption; try lia. congruence.
Qed.

Lemma js_or_fallback (a b : JsValue) (msg : string) :
  msg <> "" -> js_or (js_or a (JStr msg)) b = js_or a (JStr msg).
Proof.
  intros Hne. unfold js_or. destruct (truthy a) eqn:Ha.
  - rewrite Ha. reflexivity.
  - cbn [truthy]. destruct (String.eqb_spec msg ""); [congruence|]. reflexivity.
Qed.

(** What a submission of the registration form comes to.  A form that
    does not validate is not sent: the provider and the browser are
    exactly as before and the page shows the message.  A form that
    validates is sent through [register] with the form's data but for the
    confirmation.  If the server rejects it, the page stays and shows the
    message of the server, or [Registration failed]; if the server
    answers, either the page navigates, with the valid token of the
    answer stored, or it stays and shows [Registration failed].  The
    fallback texts of the page itself are never shown. *)
Theorem registration_submit_outcomes (t1 : Z) (reply : ApiResponse)
        (p : Page) (w : World) :
  let p' := fst (handleSubmit t1 reply p w) in
  let w' := snd (handleSubmit t1 reply p w) in
  match validateForm p with
  | Some msg =>
      w' = w /\ error p' = JStr msg
      /\ navigated p' = navigated p /\ loading p' = loading p
  | None =>
      loading p' = false
      /\ w' = exec (register t1 reply (registerData (form p))) w
      /\ match reply with
         | Reject _ status rm =>
             navigated p' = navigated p
             /\ error p' = js_or rm (JStr "Registration failed")
         | Resolve data =>
             (navigated p' = true
              /\ error p' = JStr ""
              /\ exists tok,
                  get_prop data "token" = Some tok
                  /\ isValidToken t1 tok = true
                  /\ localStorage w' !! "token" = Some (ToString tok))
             \/ (navigated p' = navigated p
                 /\ error p' = JStr "Registration failed")
         end
  end.
Proof.
  intros p' w'. subst p' w'. unfold handleSubmit. cbv zeta.
  change (validateForm (set_error (JStr "") p)) with (validateForm p).
  destruct (validateForm p) as [msg|]; [repeat split|].
  cbn [form set_loading set_error].
  destruct (register_cases t1 reply (registerData (form p)) w)
    as [(Hnone & _)
       |(e & _ & [(msg & status & rm & -> & Hrun)
                 |[(data & -> & Hrun)
                  |(data & tok & rt & -> & Htok & Hrt & Hvalid & Hrun)]])];
    [discriminate| | |]; unfold exec; rewrite Hrun;
    cbn [success failure fst snd message
         form error loading passwordStrength navigated
         set_error set_loading set_navigated].
  - split; [reflexivity|]. split; [reflexivity|]. split; [reflexivity|].
    apply js_or_fallback. discriminate.
  - split; [reflexivity|]. split; [reflexivity|]. right. split; reflexivity.
  - split; [reflexivity|]. split; [reflexivity|]. left.
    split; [reflexivity|]. split; [reflexivity|].
    exists tok. split; [exact Htok|]. split; [exact Hvalid|].
    match goal with
    | |- context [with_session tok rt ?u ?w1] =>
        destruct (with_session_fields tok rt u w1) as (Ht & _)
    end.
    exact Ht.
Qed.

End RegisterPageFacts.

Example toISOString_sample : ReferenceBrowser.toISOString 1700000000000 = "2023-11-14T22:13:20.000Z".
Proof. vm_compute. reflexivity. Qed.
Example toISOString_leap_day : ReferenceBrowser.toISOString 951782400123 = "2000-02-29T00:00:00.123Z".
Proof. vm_compute. reflexivity. Qed.
Example toISOString_before_epoch : ReferenceBrowser.toISOString (-1) = "1969-12-31T23:59:59.999Z".
Proof. vm_compute. reflexivity. Qed.
Example parse_date_sample : ReferenceBrowser.parse_date "2023-11-14T22:13:20.000Z" = Num 1700000000000.
Proof. vm_compute. reflexivity. Qed.
Example parse_date_leap_day : ReferenceBrowser.parse_date "2000-02-29T00:00:00.123Z" = Num 951782400123.
Proof. vm_compute. reflexivity. Qed.
Example parse_date_other_format : ReferenceBrowser.parse_date "tomorrow" = NaN.
Proof. vm_compute. reflexivity. Qed.
Example parse_int_digit : ReferenceBrowser.parse_int "5" = Num 5.
Proof. vm_compute. reflexivity. Qed.
Example parse_int_prefix : ReferenceBrowser.parse_int "  -12px" = Num (-12).
Proof. vm_compute. reflexivity. Qed.
Example parse_int_hex : ReferenceBrowser.parse_int "0x1F" = Num 31.
Proof. vm_compute. reflexivity. Qed.
Example parse_int_letters : ReferenceBrowser.parse_int "NaN" = NaN.
Proof. vm_compute. reflexivity. Qed.
Example parse_int_empty : ReferenceBrowser.parse_int "" = NaN.
Proof. vm_compute. reflexivity. Qed.

Lemma email_pattern_shape_witness :
  Regex.test_whole Regex.email_pattern "ana@example.com" = true.
Proof.
  apply email_pattern_shape. exists "ana", "example", "com".
  split; [reflexivity|]. repeat split; first [discriminate|reflexivity].
Defined.

Lemma login_page_blocks_submission_witness :
  let p := LoginPage.set_lockUntil (Some (Num (Samples.t_now + 600000)))
                                   PageScenarios.stranger in
  let w := Samples.fresh (Samples.t_now + 90000) in
  snd (LoginPage.handleSubmit (Pf:=Samples.browser) (Br:=ReferenceBrowser.browser)
         (Samples.t_now + 60000) (Samples.t_now + 90200) p w) = w
  /\ LoginPage.error
       (fst (LoginPage.handleSubmit (Pf:=Samples.browser)
               (Br:=ReferenceBrowser.browser)
               (Samples.t_now + 60000) (Samples.t_now + 90200) p w))
     = JStr "Account temporarily locked. Try again in 9 minutes.".
Proof.
  intros p w.
  destruct (login_page_blocks_submission (Pf:=Samples.browser)
              (Br:=ReferenceBrowser.browser)
              (Samples.t_now + 60000) (Samples.t_now + 90200) p w)
    as (Hw & _ & _ & _ & Hmsg).
  - left. vm_compute. reflexivity.
  - split; [exact Hw|].
    assert (Hl : LoginPage.isLocked (Samples.t_now + 60000) (LoginPage.lockUntil p)
                 = true) by (vm_compute; reflexivity).
    rewrite Hl in Hmsg. destruct Hmsg as (t & Ht & He).
    rewrite He. injection Ht as <-. vm_compute. reflexivity.
Defined.

Lemma five_failures_lock_the_page_witness :
  let st := LoginPage.submit_all (Pf:=Samples.browser) (Br:=ReferenceBrowser.browser)
              PageScenarios.five_tries
              (PageScenarios.stranger, Samples.fresh Samples.t_now) in
  LoginPage.attempts (fst st) = Num 5
  /\ LoginPage.lockUntil (fst st) = Some (Num (Samples.t_now + 40200 + 1800000))
  /\ localStorage (snd st) !! "lockUntil" = Some "2023-11-14T22:44:00.200Z".
Proof.
  intros st.
  destruct (five_failures_lock_the_page (Pf:=Samples.browser)
              (Br:=ReferenceBrowser.browser)
              PageScenarios.five_tries PageScenarios.stranger
              (Samples.fresh Samples.t_now)
              "Request failed with status code 401" (Some 401)
              (JStr "Invalid credentials"))
    as (Ha & Hl & _ & _ & Hs & _).
  - reflexivity.
  - reflexivity.
  - reflexivity.
  - vm_compute. reflexivity.
  - vm_compute. reflexivity.
  - subst st. split; [exact Ha|]. split.
    + rewrite Hl. vm_compute. reflexivity.
    + rewrite Hs. vm_compute. reflexivity.
Defined.

Lemma successful_login_resets_attempts_witness :
  let st := LoginPage.handleSubmit (Pf:=Samples.browser)
              (Br:=ReferenceBrowser.browser)
              Samples.t_now (Samples.t_now + 200) PageScenarios.ana
              (Samples.fresh Samples.t_now) in
  LoginPage.attempts (fst st) = Num 0
  /\ LoginPage.navigated (fst st) = true
  /\ localStorage (snd st) !! "loginAttempts" = None
  /\ localStorage (snd st) !! "token" = Some Samples.token_1h.
Proof.
  intros st.
  destruct (successful_login_resets_attempts (Pf:=Samples.browser)
              (Br:=ReferenceBrowser.browser)
              Samples.t_now (Samples.t_now + 200) PageScenarios.ana
              (Samples.fresh Samples.t_now)
              (JObj [("token", JStr Samples.token_1h);
                     ("refreshToken", JStr Samples.token_2h);
                     ("id", JStr "u1")])
              (JStr Samples.token_1h) (JStr Samples.token_2h))
    as (Ha & Hn & _ & _ & _ & Hs & _ & Ht & _).
  - reflexivity.
  - vm_compute. reflexivity.
  - vm_compute. lia.
  - vm_compute. reflexivity.
  - reflexivity.
  - reflexivity.
  - vm_compute. reflexivity.
  - subst st. split; [exact Ha|]. split; [exact Hn|]. split; [exact Hs|exact Ht].
Defined.

Lemma unreadable_attempts_never_lock_witness :
  let p := fst (LoginPage.submit_all (Pf:=Samples.browser)
                  (Br:=ReferenceBrowser.browser) PageScenarios.five_tries
                  (LoginPage.load (Br:=ReferenceBrowser.browser)
                     PageScenarios.tampered PageScenarios.stranger,
                   PageScenarios.tampered)) in
  LoginPage.attempts p = NaN /\ LoginPage.lockUntil p = None.
Proof.
  intros p.
  apply (unreadable_attempts_never_lock (Pf:=Samples.browser)
           (Br:=ReferenceBrowser.browser) PageScenarios.five_tries
           PageScenarios.stranger PageScenarios.tampered "many"
           "Request failed with status code 401" (Some 401)
           (JStr "Invalid credentials")).
  - vm_compute. reflexivity.
  - discriminate.
  - vm_compute. reflexivity.
  - vm_compute. reflexivity.
  - reflexivity.
  - vm_compute. reflexivity.
Defined.

Lemma lock_survives_reload_witness :
  let p := LoginPage.set_attempts (Num 4) PageScenarios.stranger in
  let st := LoginPage.handleSubmit (Pf:=Samples.browser)
              (Br:=ReferenceBrowser.browser)
              Samples.t_now (Samples.t_now + 200) p (Samples.fresh Samples.t_now) in
  let reopened := LoginPage.load (Br:=ReferenceBrowser.browser) (snd st)
                                 LoginPage.initial in
  LoginPage.attempts reopened = Num 5
  /\ LoginPage.lockUntil reopened = LoginPage.lockUntil (fst st)
  /\ LoginPage.isLocked (Samples.t_now + 1800000) (LoginPage.lockUntil reopened)
     = true.
Proof.
  intros p st reopened.
  destruct (lock_survives_reload (Pf:=Samples.browser)
              (Br:=ReferenceBrowser.browser)
              Samples.t_now (Samples.t_now + 200) p (Samples.fresh Samples.t_now) 4
              "Request failed with status code 401" (Some 401)
              (JStr "Invalid credentials"))
    as (Ha & Hl & Ha' & _ & Hlocked).
  - reflexivity.
  - vm_compute. reflexivity.
  - vm_compute. reflexivity.
  - reflexivity.
  - lia.
  - vm_compute. reflexivity.
  - vm_compute. reflexivity.
  - vm_compute. reflexivity.
  - intros t [-> | ->]; vm_compute; reflexivity.
  - subst reopened st. split; [rewrite Ha; exact Ha'|].
    split; [exact Hl|]. rewrite Hlocked. vm_compute. reflexivity.
Defined.

Lemma password_strength_counts_criteria_witness :
  RegisterPage.checkPasswordStrength "Correct-horse1"
  = RegisterPage.Rated 5 "Very Strong" []
  /\ exists level feedback,
       RegisterPage.checkPasswordStrength "horse"
       = RegisterPage.Rated level (RegisterPage.strengthLabel level) feedback
       /\ (level + length feedback = 5)%nat.
Proof.
  split; [vm_compute; reflexivity|].
  destruct (password_strength_counts_criteria "horse")
    as (level & feedback & Hrun & _ & _ & Hsum & _).
  - discriminate.
  - exists level, feedback. split; [exact Hrun|exact Hsum].
Defined.

Lemma accepted_registration_form_witness :
  let d := RegisterPage.form
             (RegisterPage.edited PageScenarios.filling_in RegisterPage.initial) in
  (8 <= String.length (RegisterPage.password d))%nat
  /\ (2 <= RegisterPage.kinds (RegisterPage.password d))%nat
  /\ RegisterPage.confirmPassword d = RegisterPage.password d.
Proof.
  intros d.
  destruct (accepted_registration_form PageScenarios.filling_in)
    as (_ & _ & _ & Hlen & Hkinds & Hsame).
  - vm_compute. reflexivity.
  - subst d. split; [exact Hlen|]. split; [exact Hkinds|exact Hsame].
Defined.

(** ** What a request carries *)

Section Authorization.
Context {Pf : Platform}.




End Authorization.

